(** * Photo Sphere Viewer: coordinate conversion, range clamping, markers,
      polygon clipping and panorama loading

    A shallow embedding of the viewer's data helper (PSVDataHelper), marker
    model (PSVMarker), heads-up display (PSVHUD) and panorama loading
    (PhotoSphereViewer.setPanorama), with the properties the specification
    states about them.

    Numbers.  A JavaScript number is modelled as a real number or NaN.
    Arithmetic is exact: rounding error, infinities and signed zeros are not
    represented, and a division by zero yields NaN.  Every statement below is
    therefore a statement about the arithmetic the code performs, read over
    the reals. *)

From Stdlib Require Import Reals Lra Lia ZArith List String Bool.
From stdpp Require Import base option gmap strings.
Import ListNotations.

Local Open Scope R_scope.

(* ===================================================================== *)
(** * Part I: the model *)
(* ===================================================================== *)

(** ** JavaScript values *)

Module JS.

(** A number: a real, or NaN. *)
Inductive number : Type :=
| Num (r : R)
| NaN.

Definition Rltb (a b : R) : bool := if Rlt_dec a b then true else false.
Definition Rleb (a b : R) : bool := if Rle_dec a b then true else false.

Definition lift1 (f : R -> R) (a : number) : number :=
  match a with
  | Num u => Num (f u)
  | NaN => NaN
  end.

Definition lift2 (f : R -> R -> R) (a b : number) : number :=
  match a, b with
  | Num u, Num v => Num (f u v)
  | _, _ => NaN
  end.

Definition add : number -> number -> number := lift2 Rplus.
Definition sub : number -> number -> number := lift2 Rminus.
Definition mul : number -> number -> number := lift2 Rmult.
Definition neg : number -> number := lift1 Ropp.

Definition div (a b : number) : number :=
  match a, b with
  | Num u, Num v => if Req_dec_T v 0 then NaN else Num (u / v)
  | _, _ => NaN
  end.

(** Comparisons: false as soon as one side is NaN. *)
Definition compare (p : R -> R -> bool) (a b : number) : bool :=
  match a, b with
  | Num u, Num v => p u v
  | _, _ => false
  end.

Definition lt : number -> number -> bool := compare Rltb.
Definition le : number -> number -> bool := compare Rleb.
Definition gt (a b : number) : bool := lt b a.
Definition ge (a b : number) : bool := le b a.

(** Truthiness of a number ([!n] is true for 0 and NaN). *)
Definition truthy (a : number) : bool :=
  match a with
  | Num u => if Req_dec_T u 0 then false else true
  | NaN => false
  end.

(** ToNumber of a value that may be [undefined]. *)
Definition ToNumber (v : option number) : number :=
  match v with
  | Some a => a
  | None => NaN
  end.

(** What a [throw] carries. *)
Inductive exn : Type :=
| PSVError (message : string)
| TypeError.

Inductive result (A : Type) : Type :=
| Ok (a : A)
| Throw (e : exn).

Arguments Ok {A} a.
Arguments Throw {A} e.

(** The double quote character, for messages that quote a value. *)
Definition dquote : string := String (Ascii.ascii_of_nat 34) EmptyString.

End JS.

Export JS.

Coercion Num : R >-> number.

Declare Scope js_scope.
Delimit Scope js_scope with js.
Bind Scope js_scope with number.

Notation "a + b" := (JS.add a b) : js_scope.
Notation "a - b" := (JS.sub a b) : js_scope.
Notation "a * b" := (JS.mul a b) : js_scope.
Notation "a / b" := (JS.div a b) : js_scope.
Notation "- a" := (JS.neg a) : js_scope.
Notation "a <? b" := (JS.lt a b) : js_scope.
Notation "a <=? b" := (JS.le a b) : js_scope.
Notation "a >? b" := (JS.gt a b) : js_scope.
Notation "a >=? b" := (JS.ge a b) : js_scope.

(** ** Methods: state and exceptions

    A method mutates its object in place and may throw part-way: it is a
    function from the object before the call to the object after it and the
    outcome. *)

Module Method.

Definition M (S A : Type) : Type := S -> S * result A.

Definition ret {S A : Type} (a : A) : M S A := fun this => (this, Ok a).

Definition bind {S A B : Type} (c : M S A) (k : A -> M S B) : M S B :=
  fun this =>
    match c this with
    | (this', Ok a) => k a this'
    | (this', Throw e) => (this', Throw e)
    end.

Definition throw {S A : Type} (e : exn) : M S A := fun this => (this, Throw e).
Definition get {S : Type} : M S S := fun this => (this, Ok this).
Definition modify {S : Type} (f : S -> S) : M S unit := fun this => (f this, Ok tt).
Definition liftResult {S A : Type} (r : result A) : M S A := fun this => (this, r).

End Method.

Export Method.

Notation "x <- c1 ;; c2" := (Method.bind c1 (fun x => c2))
  (at level 100, c1 at next level, right associativity).
Notation "c1 ;; c2" := (Method.bind c1 (fun _ => c2))
  (at level 100, right associativity).

(** ** The built-in [Math] object *)

Module Math.

Definition PI : number := Num Rtrigo1.PI.

(** [Math.round]: the nearest integer, halves going up. *)
Definition round : number -> number :=
  lift1 (fun u => IZR (Zfloor (u + / 2))).

Definition min : number -> number -> number := lift2 Rmin.
Definition max : number -> number -> number := lift2 Rmax.
Definition abs : number -> number := lift1 Rabs.
Definition sin : number -> number := lift1 Rtrigo_def.sin.
Definition cos : number -> number := lift1 Rtrigo_def.cos.
Definition tan : number -> number := lift1 Rtrigo1.tan.
Definition atan : number -> number := lift1 Ratan.atan.

Definition sqrt (a : number) : number :=
  match a with
  | Num u => if Rlt_dec u 0 then NaN else Num (R_sqrt.sqrt u)
  | NaN => NaN
  end.

Definition acos (a : number) : number :=
  match a with
  | Num u =>
      if Rlt_dec u (-1) then NaN
      else if Rlt_dec 1 u then NaN
      else Num (Ratan.acos u)
  | NaN => NaN
  end.

(** The angle of the point [(u, v)], in (-PI, PI], called as
    [Math.atan2(v, u)]. *)
Definition Ratan2 (v u : R) : R :=
  if Rlt_dec 0 u then Ratan.atan (v / u)
  else if Rlt_dec u 0 then
    if Rle_dec 0 v then Ratan.atan (v / u) + Rtrigo1.PI
    else Ratan.atan (v / u) - Rtrigo1.PI
  else if Rlt_dec 0 v then Rtrigo1.PI / 2
  else if Rlt_dec v 0 then - (Rtrigo1.PI / 2)
  else 0.

Definition atan2 : number -> number -> number := lift2 Ratan2.

End Math.

(** ** The three.js library: vectors and angle units *)

Module THREE.

Local Open Scope js_scope.

Record Vector3 : Type := mkVector3 { x : number; y : number; z : number }.

Definition dot (a b : Vector3) : number :=
  x a * x b + y a * y b + z a * z b.

Definition length (a : Vector3) : number :=
  Math.sqrt (x a * x a + y a * y a + z a * z a).

Definition multiplyScalar (a : Vector3) (s : number) : Vector3 :=
  mkVector3 (x a * s) (y a * s) (z a * s).

Definition divideScalar (a : Vector3) (s : number) : Vector3 :=
  multiplyScalar a (1 / s).

(** [length() || 1]: a zero (or NaN) length is replaced by 1. *)
Definition normalize (a : Vector3) : Vector3 :=
  let l := length a in
  divideScalar a (if JS.truthy l then l else 1).

Definition crossVectors (a b : Vector3) : Vector3 :=
  mkVector3 (y a * z b - z a * y b)
            (z a * x b - x a * z b)
            (x a * y b - y a * x b).

Definition addVectors (a b : Vector3) : Vector3 :=
  mkVector3 (x a + x b) (y a + y b) (z a + z b).

(** [applyAxisAngle]: the rotation by the quaternion
    [(axis * sin (angle / 2), cos (angle / 2))]. *)
Definition applyAxisAngle (v axis : Vector3) (angle : number) : Vector3 :=
  let halfAngle := angle / 2 in
  let s := Math.sin halfAngle in
  let qx := x axis * s in
  let qy := y axis * s in
  let qz := z axis * s in
  let qw := Math.cos halfAngle in
  let ix := qw * x v + qy * z v - qz * y v in
  let iy := qw * y v + qz * x v - qx * z v in
  let iz := qw * z v + qx * y v - qy * x v in
  let iw := - qx * x v - qy * y v - qz * z v in
  mkVector3 (ix * qw + iw * - qx + iy * - qz - iz * - qy)
            (iy * qw + iw * - qy + iz * - qx - ix * - qz)
            (iz * qw + iw * - qz + ix * - qy - iy * - qx).

Definition DEG2RAD : number := Math.PI / 180.
Definition RAD2DEG : number := 180 / Math.PI.

Module Math.
Definition degToRad (degrees : number) : number := degrees * DEG2RAD.
Definition radToDeg (radians : number) : number := radians * RAD2DEG.
End Math.

End THREE.

(** ** Shared data types *)

Record Point : Type := mkPoint { x : number; y : number }.

Record Position : Type := mkPosition { longitude : number; latitude : number }.

(** A position given either in texture pixels or in radians; an absent key is
    [None]. *)
Record ExtendedPosition : Type := mkExtendedPosition {
  ep_x : option number;
  ep_y : option number;
  ep_longitude : option number;
  ep_latitude : option number
}.

Record Size : Type := mkSize { width : number; height : number }.

Record PanoData : Type := mkPanoData {
  fullWidth : number;
  fullHeight : number;
  croppedWidth : number;
  croppedHeight : number;
  croppedX : number;
  croppedY : number
}.

(** The [transition] option: [None] when transitions are disabled. *)
Record Transition : Type := mkTransition { loader : bool }.

(** The viewer configuration, as far as the modelled code reads it. *)
Record Config : Type := mkConfig {
  panorama : option string;
  minFov : number;
  maxFov : number;
  longitudeRange : option (number * number);
  latitudeRange : option (number * number);
  transition : option Transition
}.

(** What [prop.loadingPromise] stands for while it is not [null]: the load
    that [setPanorama] started and whose promise has not settled. *)
Record Loading : Type := mkLoading {
  loadingPath : string;
  loadingPosition : option Position;
  loadingWithTransition : bool
}.

(** The viewer's internal properties ([this.prop]). *)
Record ViewerProp : Type := mkViewerProp {
  ready : bool;
  needsUpdate : bool;
  isCubemap : bool;
  position : Position;
  direction : option THREE.Vector3;
  zoomLvl : number;
  vFov : number;
  hFov : number;
  aspect : number;
  autorotate : bool;
  gyroscope : bool;
  stereo : bool;
  animation : bool;
  loadingPromise : option Loading;
  size : Size;
  panoData : PanoData
}.

(** ** Marker configuration *)

Module MARKER_TYPES.

(** Modelled from the spec: the table [MARKER_TYPES] of [data/constants] is
    not among the sources.  The specification lists the content kinds; each is
    named after the configuration field that carries the content. *)
Inductive t : Type :=
| image | html
| polygonPx | polygonRad | polylinePx | polylineRad
| square | rect | circle | ellipse | path.

Definition all : list t :=
  [image; html; polygonPx; polygonRad; polylinePx; polylineRad;
   square; rect; circle; ellipse; path].

Definition name (type : t) : string :=
  match type with
  | image => "image" | html => "html"
  | polygonPx => "polygonPx" | polygonRad => "polygonRad"
  | polylinePx => "polylinePx" | polylineRad => "polylineRad"
  | square => "square" | rect => "rect" | circle => "circle"
  | ellipse => "ellipse" | path => "path"
  end.

Definition eqb (a b : t) : bool :=
  match a, b with
  | image, image | html, html
  | polygonPx, polygonPx | polygonRad, polygonRad
  | polylinePx, polylinePx | polylineRad, polylineRad
  | square, square | rect, rect | circle, circle
  | ellipse, ellipse | path, path => true
  | _, _ => false
  end.

End MARKER_TYPES.

(** The marker configuration object.  A key that is absent is [None]; a key
    that is present holds a value of the type its field is documented with.
    Fields that only style the DOM element (className, style, svgStyle, scale,
    lockRotation) are left out, as the element itself is. *)
Module Properties.

(** [rect] and [ellipse]: an array of two numbers or an object. *)
Inductive Dimensions : Type :=
| DimArray (first second : number)
| DimObject (first second : number).

(** A polygon or polyline: a flat array of numbers or an array of pairs. *)
Inductive Polygon : Type :=
| Flat (coords : list number)
| Pairs (coords : list (number * number)).

Inductive Tooltip : Type :=
| TooltipText (content : string)
| TooltipObject (content : option string) (position : option string).

Record t : Type := mk {
  id : option string;
  x : option number;
  y : option number;
  longitude : option number;
  latitude : option number;
  image : option string;
  html : option string;
  width : option number;
  height : option number;
  square : option number;
  rect : option Dimensions;
  circle : option number;
  ellipse : option Dimensions;
  path : option string;
  polygonPx : option Polygon;
  polygonRad : option Polygon;
  polylinePx : option Polygon;
  polylineRad : option Polygon;
  anchor : option Point;
  tooltip : option Tooltip;
  visible : option bool
}.

(** The object [{}]. *)
Definition empty : t :=
  mk None None None None None None None None None None None None None None
     None None None None None None None.

(** [type in properties] *)
Definition has (type : MARKER_TYPES.t) (properties : t) : bool :=
  match type with
  | MARKER_TYPES.image => bool_decide (is_Some (image properties))
  | MARKER_TYPES.html => bool_decide (is_Some (html properties))
  | MARKER_TYPES.polygonPx => bool_decide (is_Some (polygonPx properties))
  | MARKER_TYPES.polygonRad => bool_decide (is_Some (polygonRad properties))
  | MARKER_TYPES.polylinePx => bool_decide (is_Some (polylinePx properties))
  | MARKER_TYPES.polylineRad => bool_decide (is_Some (polylineRad properties))
  | MARKER_TYPES.square => bool_decide (is_Some (square properties))
  | MARKER_TYPES.rect => bool_decide (is_Some (rect properties))
  | MARKER_TYPES.circle => bool_decide (is_Some (circle properties))
  | MARKER_TYPES.ellipse => bool_decide (is_Some (ellipse properties))
  | MARKER_TYPES.path => bool_decide (is_Some (path properties))
  end.

(** The configuration read as a position, as [cleanPosition (this.config)]
    does. *)
Definition asPosition (properties : t) : ExtendedPosition :=
  {| ep_x := x properties; ep_y := y properties;
     ep_longitude := longitude properties; ep_latitude := latitude properties |}.

End Properties.

(** Truthiness of optional values. *)
Definition truthyString (s : option string) : bool :=
  match s with
  | Some s => negb (String.eqb s "")
  | None => false
  end.

Definition truthyNumber (n : option number) : bool :=
  match n with
  | Some n => JS.truthy n
  | None => false
  end.

(** ** Helpers of [utils] *)

Module utils.

(** [u] clamped to the interval from [lo] to [hi]. *)
Definition clamp (u lo hi : R) : R := Rmax lo (Rmin hi u).

(** Modelled from the spec: [utils.parseAngle] is not among the sources.  The
    specification gives the canonical ranges: a longitude lies in [0, 2 PI) and
    wraps, a latitude lies in [-PI/2, PI/2] and clamps ([zeroCenter] selects the
    latitude reading).  It names no failure for the normalisation of a number,
    so on numbers the function is total, and NaN stays NaN.  What it does with
    an angle that is absent is [parseAngleValue], below. *)
Definition parseAngle (angle : number) (zeroCenter : bool) : number :=
  match angle with
  | Num a =>
      if zeroCenter then Num (clamp a (- (PI / 2)) (PI / 2))
      else Num (a - 2 * PI * IZR (Zfloor (a / (2 * PI))))
  | NaN => NaN
  end.

(** Modelled from the spec: the message of the error [parseAngle] throws, which
    the specification does not give. *)
Definition unknownAngle : string := "unknown angle".

(** Modelled from the spec: [utils.parseAngle], which is not among the sources,
    called on a value that may be absent.  The specification has the creation
    of a marker fail with a configuration error when the marker "lacks both
    pixel ([x],[y]) and spherical ([longitude],[latitude]) position" (4.4).
    The constructor tests the position of image and html markers only, and
    [cleanPosition] hands [position.longitude] and [position.latitude] to
    [parseAngle] without a test of its own: the failure is that of
    [parseAngle], which refuses an angle that is [undefined] with a
    [PSVError]. *)
Definition parseAngleValue (angle : option number) (zeroCenter : bool) : result number :=
  match angle with
  | Some a => Ok (parseAngle a zeroCenter)
  | None => Throw (PSVError unknownAngle)
  end.

(** A field of the source overwrites the target's; an absent one leaves it. *)
Definition override {A : Type} (target source : option A) : option A :=
  match source with
  | Some v => Some v
  | None => target
  end.

(** Two tooltip objects are merged key by key. *)
Definition mergeTooltip (target source : option Properties.Tooltip)
    : option Properties.Tooltip :=
  match target, source with
  | Some (Properties.TooltipObject c p), Some (Properties.TooltipObject c' p') =>
      Some (Properties.TooltipObject (override c c') (override p p'))
  | _, _ => override target source
  end.

(** Modelled from the spec: [utils.deepmerge] is not among the sources.  An
    update "merges into existing configuration (deep-merge, existing fields
    retained unless overwritten)": a field of the source overwrites the
    target's, nested objects are merged key by key, and the other fields of
    the target stay. *)
Definition deepmerge (target source : Properties.t) : Properties.t :=
  Properties.mk
    (override (Properties.id target) (Properties.id source))
    (override (Properties.x target) (Properties.x source))
    (override (Properties.y target) (Properties.y source))
    (override (Properties.longitude target) (Properties.longitude source))
    (override (Properties.latitude target) (Properties.latitude source))
    (override (Properties.image target) (Properties.image source))
    (override (Properties.html target) (Properties.html source))
    (override (Properties.width target) (Properties.width source))
    (override (Properties.height target) (Properties.height source))
    (override (Properties.square target) (Properties.square source))
    (override (Properties.rect target) (Properties.rect source))
    (override (Properties.circle target) (Properties.circle source))
    (override (Properties.ellipse target) (Properties.ellipse source))
    (override (Properties.path target) (Properties.path source))
    (override (Properties.polygonPx target) (Properties.polygonPx source))
    (override (Properties.polygonRad target) (Properties.polygonRad source))
    (override (Properties.polylinePx target) (Properties.polylinePx source))
    (override (Properties.polylineRad target) (Properties.polylineRad source))
    (override (Properties.anchor target) (Properties.anchor source))
    (mergeTooltip (Properties.tooltip target) (Properties.tooltip source))
    (override (Properties.visible target) (Properties.visible source)).

(** Modelled from the spec: [utils.parsePosition] is not among the sources.
    The anchor is a "fraction of size, default center". *)
Definition parsePosition (value : option Point) : Point :=
  match value with
  | Some p => p
  | None => {| x := Num (1 / 2); y := Num (1 / 2) |}
  end.

End utils.

(** ** PSVDataHelper *)

Module PSVDataHelper.

Local Open Scope js_scope.

Record Ranged : Type := mkRanged {
  rangedPosition : Position;
  sidesReached : list string
}.

Section DataHelper.

(** [SPHERE_RADIUS] comes from [data/constants], which is not among the
    sources: it stays a parameter. *)
Variable SPHERE_RADIUS : number.
Variable config : Config.
Variable prop : ViewerProp.

Definition fovToZoomLevel (fov : number) : number :=
  let temp := Math.round ((fov - minFov config) / (maxFov config - minFov config) * 100) in
  temp - 2 * (temp - 50).

Definition zoomLevelToFov (level : number) : number :=
  maxFov config + (level / 100) * (minFov config - maxFov config).

Definition vFovToHFov (vFov : number) : number :=
  THREE.Math.radToDeg
    (2 * Math.atan (Math.tan (THREE.Math.degToRad vFov / 2) * aspect prop)).

Definition textureCoordsToSphericalCoords (point : Point) : result Position :=
  if isCubemap prop then
    Throw (PSVError "Unable to use texture coords with cubemap.")
  else
    let panoData := panoData prop in
    let relativeX := (x point + croppedX panoData) / fullWidth panoData * Math.PI * 2 in
    let relativeY := (y point + croppedY panoData) / fullHeight panoData * Math.PI in
    Ok {| longitude := if relativeX >=? Math.PI then relativeX - Math.PI
                       else relativeX + Math.PI;
          latitude := Math.PI / 2 - relativeY |}.

Definition sphericalCoordsToTextureCoords (position : Position) : result Point :=
  if isCubemap prop then
    Throw (PSVError "Unable to use texture coords with cubemap.")
  else
    let panoData := panoData prop in
    let relativeLong := longitude position / Math.PI / 2 * fullWidth panoData in
    let relativeLat := latitude position / Math.PI * fullHeight panoData in
    Ok {| x := Math.round (if longitude position <? Math.PI
                           then relativeLong + fullWidth panoData / 2
                           else relativeLong - fullWidth panoData / 2)
               - croppedX panoData;
          y := Math.round (fullHeight panoData / 2 - relativeLat)
               - croppedY panoData |}.

Definition sphericalCoordsToVector3 (position : Position) : THREE.Vector3 :=
  THREE.mkVector3
    (SPHERE_RADIUS * - Math.cos (latitude position) * Math.sin (longitude position))
    (SPHERE_RADIUS * Math.sin (latitude position))
    (SPHERE_RADIUS * Math.cos (latitude position) * Math.cos (longitude position)).

Definition vector3ToSphericalCoords (vector : THREE.Vector3) : Position :=
  let phi :=
    Math.acos (THREE.y vector
               / Math.sqrt (THREE.x vector * THREE.x vector
                            + THREE.y vector * THREE.y vector
                            + THREE.z vector * THREE.z vector)) in
  let theta := Math.atan2 (THREE.x vector) (THREE.z vector) in
  {| longitude := if theta <? 0 then - theta else Math.PI * 2 - theta;
     latitude := Math.PI / 2 - phi |}.

(** [project] stands for the camera projection of three.js
    ([vector.project(camera)]), which the renderer owns. *)
Definition vector3ToViewerCoords (project : THREE.Vector3 -> THREE.Vector3)
    (vector : THREE.Vector3) : Point :=
  let vectorClone := project vector in
  {| x := Math.round ((THREE.x vectorClone + 1) / 2 * width (size prop));
     y := Math.round ((1 - THREE.y vectorClone) / 2 * height (size prop)) |}.

Definition cleanPosition (position : ExtendedPosition) : result Position :=
  match ep_x position, ep_y position with
  | Some px, Some py => textureCoordsToSphericalCoords {| x := px; y := py |}
  | _, _ =>
      match utils.parseAngleValue (ep_longitude position) false with
      | Ok long =>
          match utils.parseAngleValue (ep_latitude position) true with
          | Ok lat => Ok {| longitude := long; latitude := lat |}
          | Throw e => Throw e
          end
      | Throw e => Throw e
      end
  end.

(** The longitude part of [applyRanges]: the clamped longitude and the side
    reached, if any. *)
Definition applyLongitudeRange (range : number * number) (position : Position)
    : number * list string :=
  let offset := THREE.Math.degToRad (hFov prop) / 2 in
  let range0 := utils.parseAngle (fst range + offset) false in
  let range1 := utils.parseAngle (snd range - offset) false in
  if range0 >? range1 then
    if (longitude position >? range1) && (longitude position <? range0) then
      if longitude position >? (range0 / 2 + range1 / 2) then (range0, ["left"%string])
      else (range1, ["right"%string])
    else (longitude position, [])
  else if longitude position <? range0 then (range0, ["left"%string])
  else if longitude position >? range1 then (range1, ["right"%string])
  else (longitude position, []).

(** The bounds the latitude is clamped to: the configured range shrunk by half
    the vertical field of view on each side. *)
Definition latitudeBounds (range : number * number) : number * number :=
  let offset := THREE.Math.degToRad (vFov prop) / 2 in
  let range0 := utils.parseAngle (Math.min (fst range + offset) (snd range)) true in
  let range1 := utils.parseAngle (Math.max (snd range - offset) range0) true in
  (range0, range1).

Definition applyLatitudeRange (range : number * number) (position : Position)
    : number * list string :=
  let '(range0, range1) := latitudeBounds range in
  if latitude position <? range0 then (range0, ["bottom"%string])
  else if latitude position >? range1 then (range1, ["top"%string])
  else (latitude position, []).

Definition applyRanges (position : Position) : Ranged :=
  let '(long, sidesLong) :=
    match longitudeRange config with
    | Some range => applyLongitudeRange range position
    | None => (longitude position, [])
    end in
  let '(lat, sidesLat) :=
    match latitudeRange config with
    | Some range => applyLatitudeRange range position
    | None => (latitude position, [])
    end in
  {| rangedPosition := {| longitude := long; latitude := lat |};
     sidesReached := sidesLong ++ sidesLat |}.

End DataHelper.

End PSVDataHelper.

(** ** PSVMarker *)

Module PSVMarker.

(** The shape definition derived from the content ([props.def]). *)
Inductive Def : Type :=
| DefContent (content : string)
| DefRect (x y : number) (width height : option number)
| DefCircle (cx cy r : option number)
| DefEllipse (cx cy rx ry : number)
| DefPath (d : option string)
| DefPoly (coords : list (number * number)).

(** The computed properties ([this.props]); [None] is [null]. *)
Record Props : Type := mkProps {
  dynamicSize : bool;
  anchor : option Point;
  position : option Position;
  position2D : option Point;
  positions3D : option (list THREE.Vector3);
  width : option number;
  height : option number;
  def : option Def
}.

(** What the model keeps of the DOM element [$el]: whether it carries the
    class [psv-marker--visible], and the [points] attribute of a polygon. *)
Record Element : Type := mkElement {
  visibleClass : bool;
  points : option (list Point)
}.

Record Marker : Type := mkMarker {
  id : string;
  type : MARKER_TYPES.t;
  visible : bool;
  el : Element;
  config : Properties.t;
  props : Props
}.

Definition setVisible (v : bool) (this : Marker) : Marker :=
  mkMarker (id this) (type this) v (el this) (config this) (props this).

Definition setEl (e : Element) (this : Marker) : Marker :=
  mkMarker (id this) (type this) (visible this) e (config this) (props this).

Definition setConfig (c : Properties.t) (this : Marker) : Marker :=
  mkMarker (id this) (type this) (visible this) (el this) c (props this).

Definition setProps (p : Props) (this : Marker) : Marker :=
  mkMarker (id this) (type this) (visible this) (el this) (config this) p.

(** Methods of a marker run on the marker ([this]). *)
Definition M (A : Type) : Type := Method.M Marker A.

Definition modifyProps (f : Props -> Props) : M unit :=
  modify (fun this => setProps (f (props this)) this).

(** *** Kinds of markers *)

Definition isNormal (this : Marker) : bool :=
  MARKER_TYPES.eqb (type this) MARKER_TYPES.image
  || MARKER_TYPES.eqb (type this) MARKER_TYPES.html.

Definition isPolyPx (this : Marker) : bool :=
  MARKER_TYPES.eqb (type this) MARKER_TYPES.polygonPx
  || MARKER_TYPES.eqb (type this) MARKER_TYPES.polylinePx.

Definition isPolyRad (this : Marker) : bool :=
  MARKER_TYPES.eqb (type this) MARKER_TYPES.polygonRad
  || MARKER_TYPES.eqb (type this) MARKER_TYPES.polylineRad.

Definition isPolygon (this : Marker) : bool :=
  MARKER_TYPES.eqb (type this) MARKER_TYPES.polygonPx
  || MARKER_TYPES.eqb (type this) MARKER_TYPES.polygonRad.

Definition isPolyline (this : Marker) : bool :=
  MARKER_TYPES.eqb (type this) MARKER_TYPES.polylinePx
  || MARKER_TYPES.eqb (type this) MARKER_TYPES.polylineRad.

Definition isPoly (this : Marker) : bool := isPolygon this || isPolyline this.

Definition isSvg (this : Marker) : bool :=
  MARKER_TYPES.eqb (type this) MARKER_TYPES.square
  || MARKER_TYPES.eqb (type this) MARKER_TYPES.rect
  || MARKER_TYPES.eqb (type this) MARKER_TYPES.circle
  || MARKER_TYPES.eqb (type this) MARKER_TYPES.ellipse
  || MARKER_TYPES.eqb (type this) MARKER_TYPES.path.

(** *** getType *)

Definition contentNames : string :=
  String.concat ", " (map MARKER_TYPES.name MARKER_TYPES.all).

Definition getType (properties : Properties.t) (allowNone : bool)
    : result (option MARKER_TYPES.t) :=
  let found := List.filter (fun type => Properties.has type properties) MARKER_TYPES.all in
  if (Nat.eqb (List.length found) 0) && negb allowNone then
    Throw (PSVError ("missing marker content, either " ++ contentNames))
  else if Nat.ltb 1 (List.length found) then
    Throw (PSVError ("multiple marker content, either " ++ contentNames))
  else Ok (head found).

(** What [update] is called with: nothing, the marker's own [config] object,
    or another properties object. *)
Inductive UpdateArg : Type :=
| NoProperties
| OwnConfig
| NewProperties (properties : Properties.t).

(** [[1,2,3,4] => [[1,2],[3,4]]]; a last odd coordinate is paired with
    [undefined]. *)
Fixpoint foldPairs (coords : list number) : list (number * number) :=
  match coords with
  | [] => []
  | [u] => [(u, ToNumber None)]
  | u :: v :: rest => (u, v) :: foldPairs rest
  end.

(** The folding loop of [__updatePoly] as it is written, on the array it
    rewrites in place.  An entry of the array is a coordinate still to fold or
    a pair already made; reading past the end gives [undefined]. *)
Inductive Entry : Type :=
| Coordinate (n : number)
| Undefined
| Folded (first second : Entry).

(** [actualPoly[i]] *)
Definition entryAt (actualPoly : list Entry) (i : nat) : Entry :=
  default Undefined (actualPoly !! i).

(** [actualPoly.splice (i, 2, item)] *)
Definition splice2 (i : nat) (item : Entry) (actualPoly : list Entry) : list Entry :=
  take i actualPoly ++ item :: drop (i + 2) actualPoly.

(** [for (let i = 0; i < actualPoly.length; i++) actualPoly.splice (i, 2,
    [actualPoly[i], actualPoly[i + 1]])], from the index [i] on.  Each turn of
    the loop spends one unit of [fuel]; [None] is a loop that has not ended
    when the fuel is spent. *)
Fixpoint foldLoop (fuel i : nat) (actualPoly : list Entry) : option (list Entry) :=
  if Nat.ltb i (List.length actualPoly) then
    match fuel with
    | O => None
    | S fuel' =>
        foldLoop fuel' (S i)
          (splice2 i (Folded (entryAt actualPoly i) (entryAt actualPoly (i + 1))) actualPoly)
    end
  else Some actualPoly.

(** An entry read as a number, as arithmetic on it does. *)
Definition entryNumber (e : Entry) : number :=
  match e with
  | Coordinate n => n
  | _ => ToNumber None
  end.

(** [coord[0]] and [coord[1]] of a folded entry. *)
Definition entryPair (e : Entry) : number * number :=
  match e with
  | Folded first second => (entryNumber first, entryNumber second)
  | _ => (ToNumber None, ToNumber None)
  end.

Fixpoint mapResult {A B : Type} (f : A -> result B) (l : list A) : result (list B) :=
  match l with
  | [] => Ok []
  | a :: l' =>
      match f a with
      | Throw e => Throw e
      | Ok b =>
          match mapResult f l' with
          | Throw e => Throw e
          | Ok bs => Ok (b :: bs)
          end
      end
  end.

Section Methods.

Variable SPHERE_RADIUS : number.

(** [this.psv.prop], read through the data helper. *)
Variable prop : ViewerProp.

Definition __updateNormal : M unit :=
  this <- get ;;
  (if truthyNumber (Properties.width (config this))
      && truthyNumber (Properties.height (config this))
   then modifyProps (fun p =>
          mkProps false (anchor p) (position p) (position2D p) (positions3D p)
                  (Properties.width (config this)) (Properties.height (config this))
                  (def p))
   else modifyProps (fun p =>
          mkProps true (anchor p) (position p) (position2D p) (positions3D p)
                  (width p) (height p) (def p))) ;;
  (if truthyString (Properties.image (config this)) then
     modifyProps (fun p =>
       mkProps (dynamicSize p) (anchor p) (position p) (position2D p) (positions3D p)
               (width p) (height p)
               (Some (DefContent (default "" (Properties.image (config this))))))
   else if truthyString (Properties.html (config this)) then
     modifyProps (fun p =>
       mkProps (dynamicSize p) (anchor p) (position p) (position2D p) (positions3D p)
               (width p) (height p)
               (Some (DefContent (default "" (Properties.html (config this))))))
   else ret tt) ;;
  pos <- liftResult (PSVDataHelper.cleanPosition prop (Properties.asPosition (config this))) ;;
  modifyProps (fun p =>
    mkProps (dynamicSize p) (anchor p) (Some pos) (position2D p)
            (Some [PSVDataHelper.sphericalCoordsToVector3 SPHERE_RADIUS pos])
            (width p) (height p) (def p)).

(** The [switch] of [__updateSvg] on the marker's type. *)
Definition svgDef (this : Marker) : result (option Def) :=
  match type this with
  | MARKER_TYPES.square =>
      Ok (Some (DefRect 0 0 (Properties.square (config this)) (Properties.square (config this))))
  | MARKER_TYPES.rect =>
      match Properties.rect (config this) with
      | Some (Properties.DimArray w h) => Ok (Some (DefRect 0 0 (Some w) (Some h)))
      | Some (Properties.DimObject w h) => Ok (Some (DefRect 0 0 (Some w) (Some h)))
      | None => Throw TypeError
      end
  | MARKER_TYPES.circle =>
      Ok (Some (DefCircle (Properties.circle (config this)) (Properties.circle (config this))
                          (Properties.circle (config this))))
  | MARKER_TYPES.ellipse =>
      match Properties.ellipse (config this) with
      | Some (Properties.DimArray rx ry) => Ok (Some (DefEllipse rx ry rx ry))
      | Some (Properties.DimObject rx ry) => Ok (Some (DefEllipse rx ry rx ry))
      | None => Throw TypeError
      end
  | MARKER_TYPES.path => Ok (Some (DefPath (Properties.path (config this))))
  | _ => Ok (def (props this))
  end.

Definition __updateSvg : M unit :=
  modifyProps (fun p =>
    mkProps true (anchor p) (position p) (position2D p) (positions3D p)
            (width p) (height p) (def p)) ;;
  this <- get ;;
  d <- liftResult (svgDef this) ;;
  modifyProps (fun p =>
    mkProps (dynamicSize p) (anchor p) (position p) (position2D p) (positions3D p)
            (width p) (height p) d) ;;
  pos <- liftResult (PSVDataHelper.cleanPosition prop (Properties.asPosition (config this))) ;;
  modifyProps (fun p =>
    mkProps (dynamicSize p) (anchor p) (Some pos) (position2D p)
            (Some [PSVDataHelper.sphericalCoordsToVector3 SPHERE_RADIUS pos])
            (width p) (height p) (def p)).

(** [polygonPx || polygonRad || polylinePx || polylineRad] *)
Definition actualPoly (c : Properties.t) : option Properties.Polygon :=
  match Properties.polygonPx c, Properties.polygonRad c,
        Properties.polylinePx c, Properties.polylineRad c with
  | Some p, _, _, _ => Some p
  | None, Some p, _, _ => Some p
  | None, None, Some p, _ => Some p
  | None, None, None, p => p
  end.

(** The array [actualPoly] after the folding loop, which rewrites it in place
    inside the configuration. *)
Definition folded (p : Properties.Polygon) : list (number * number) :=
  match p with
  | Properties.Flat coords => foldPairs coords
  | Properties.Pairs coords => coords
  end.

(** Whether the folding loop has left [undefined] in the array: the last
    coordinate of a flat array of odd length is paired with it. *)
Definition unpaired (p : Properties.Polygon) : bool :=
  match p with
  | Properties.Flat coords => Nat.odd (List.length coords)
  | Properties.Pairs _ => false
  end.

Definition foldInPlace (c : Properties.t) : Properties.t :=
  let f := option_map (fun p => Properties.Pairs (folded p)) in
  match Properties.polygonPx c, Properties.polygonRad c, Properties.polylinePx c with
  | Some _, _, _ =>
      Properties.mk (Properties.id c) (Properties.x c) (Properties.y c)
        (Properties.longitude c) (Properties.latitude c) (Properties.image c)
        (Properties.html c) (Properties.width c) (Properties.height c)
        (Properties.square c) (Properties.rect c) (Properties.circle c)
        (Properties.ellipse c) (Properties.path c)
        (f (Properties.polygonPx c)) (Properties.polygonRad c)
        (Properties.polylinePx c) (Properties.polylineRad c)
        (Properties.anchor c) (Properties.tooltip c) (Properties.visible c)
  | None, Some _, _ =>
      Properties.mk (Properties.id c) (Properties.x c) (Properties.y c)
        (Properties.longitude c) (Properties.latitude c) (Properties.image c)
        (Properties.html c) (Properties.width c) (Properties.height c)
        (Properties.square c) (Properties.rect c) (Properties.circle c)
        (Properties.ellipse c) (Properties.path c)
        (Properties.polygonPx c) (f (Properties.polygonRad c))
        (Properties.polylinePx c) (Properties.polylineRad c)
        (Properties.anchor c) (Properties.tooltip c) (Properties.visible c)
  | None, None, Some _ =>
      Properties.mk (Properties.id c) (Properties.x c) (Properties.y c)
        (Properties.longitude c) (Properties.latitude c) (Properties.image c)
        (Properties.html c) (Properties.width c) (Properties.height c)
        (Properties.square c) (Properties.rect c) (Properties.circle c)
        (Properties.ellipse c) (Properties.path c)
        (Properties.polygonPx c) (Properties.polygonRad c)
        (f (Properties.polylinePx c)) (Properties.polylineRad c)
        (Properties.anchor c) (Properties.tooltip c) (Properties.visible c)
  | None, None, None =>
      Properties.mk (Properties.id c) (Properties.x c) (Properties.y c)
        (Properties.longitude c) (Properties.latitude c) (Properties.image c)
        (Properties.html c) (Properties.width c) (Properties.height c)
        (Properties.square c) (Properties.rect c) (Properties.circle c)
        (Properties.ellipse c) (Properties.path c)
        (Properties.polygonPx c) (Properties.polygonRad c)
        (Properties.polylinePx c) (f (Properties.polylineRad c))
        (Properties.anchor c) (Properties.tooltip c) (Properties.visible c)
  end.

Definition __updatePoly : M unit :=
  modifyProps (fun p =>
    mkProps true (anchor p) (position p) (position2D p) (positions3D p)
            (width p) (height p) (def p)) ;;
  this <- get ;;
  match actualPoly (config this) with
  | None => throw TypeError
  | Some poly =>
      modify (fun this => setConfig (foldInPlace (config this)) this) ;;
      coords <-
        (if isPolyPx this then
           liftResult (mapResult (fun coord : number * number =>
             match PSVDataHelper.textureCoordsToSphericalCoords prop
                     (mkPoint (fst coord) (snd coord)) with
             | Ok sphericalCoords =>
                 Ok (longitude sphericalCoords, latitude sphericalCoords)
             | Throw e => Throw e
             end) (folded poly))
         else if unpaired poly then
           (* [parseAngle (coord[1], true)] of the last pair is given [undefined] *)
           throw (PSVError utils.unknownAngle)
         else
           ret (map (fun coord : number * number =>
                  (utils.parseAngle (fst coord) false, utils.parseAngle (snd coord) true))
                  (folded poly))) ;;
      modifyProps (fun p =>
        mkProps (dynamicSize p) (anchor p) (position p) (position2D p) (positions3D p)
                (width p) (height p) (Some (DefPoly coords))) ;;
      match coords with
      | [] => throw TypeError
      | first :: _ =>
          modifyProps (fun p =>
            mkProps (dynamicSize p) (anchor p)
                    (Some (mkPosition (fst first) (snd first)))
                    (position2D p)
                    (Some (map (fun coord : number * number =>
                             PSVDataHelper.sphericalCoordsToVector3 SPHERE_RADIUS
                               (mkPosition (fst coord) (snd coord))) coords))
                    (width p) (height p) (def p))
      end
  end.

(** A tooltip given as a string becomes the object [{ content }]. *)
Definition normaliseTooltip (c : Properties.t) : Properties.t :=
  match Properties.tooltip c with
  | Some (Properties.TooltipText content) =>
      Properties.mk (Properties.id c) (Properties.x c) (Properties.y c)
        (Properties.longitude c) (Properties.latitude c) (Properties.image c)
        (Properties.html c) (Properties.width c) (Properties.height c)
        (Properties.square c) (Properties.rect c) (Properties.circle c)
        (Properties.ellipse c) (Properties.path c)
        (Properties.polygonPx c) (Properties.polygonRad c)
        (Properties.polylinePx c) (Properties.polylineRad c)
        (Properties.anchor c)
        (if negb (String.eqb content "")
         then Some (Properties.TooltipObject (Some content) None)
         else Properties.tooltip c)
        (Properties.visible c)
  | _ => c
  end.

(** [properties.visible !== false] *)
Definition visibleNotFalse (properties : Properties.t) : bool :=
  match Properties.visible properties with
  | Some false => false
  | _ => true
  end.

(** The first block of [update], run when it is given properties that are
    not the marker's own [config] object: the type check, the merge, and the
    [visible] flag. *)
Definition mergeProperties (arg : UpdateArg) : M unit :=
  match arg with
  | NewProperties properties =>
      newType <- liftResult (getType properties true) ;;
      this <- get ;;
      match newType with
      | Some t =>
          if negb (MARKER_TYPES.eqb t (type this))
          then throw (PSVError "cannot change marker type")
          else ret tt
      | None => ret tt
      end ;;
      modify (fun this => setConfig (utils.deepmerge (config this) properties) this) ;;
      modify (setVisible (visibleNotFalse properties))
  | OwnConfig => ret tt
  | NoProperties => ret tt
  end.

Definition update (arg : UpdateArg) : M unit :=
  mergeProperties arg ;;
  modify (fun this => setConfig (normaliseTooltip (config this)) this) ;;
  this <- get ;;
  modifyProps (fun p =>
    mkProps (dynamicSize p) (Some (utils.parsePosition (Properties.anchor (config this))))
            (position p) (position2D p) (positions3D p) (width p) (height p) (def p)) ;;
  if isNormal this then __updateNormal
  else if isPoly this then __updatePoly
  else __updateSvg.

(** [new PSVMarker (properties, psv)]: the marker built, or what the
    constructor throws. *)
Definition constructor (properties : Properties.t) : result Marker :=
  if negb (truthyString (Properties.id properties)) then
    Throw (PSVError "missing marker id")
  else if truthyString (Properties.image properties)
          && (negb (truthyNumber (Properties.width properties))
              || negb (truthyNumber (Properties.height properties))) then
    Throw (PSVError "missing marker width/height")
  else if (truthyString (Properties.image properties)
           || truthyString (Properties.html properties))
          && ((negb (bool_decide (is_Some (Properties.x properties)))
               || negb (bool_decide (is_Some (Properties.y properties))))
              && (negb (bool_decide (is_Some (Properties.latitude properties)))
                  || negb (bool_decide (is_Some (Properties.longitude properties))))) then
    Throw (PSVError "missing marker position, latitude/longitude or x/y")
  else
    match getType properties false with
    | Throw e => Throw e
    | Ok None => Throw TypeError (* not reached: finding nothing throws above *)
    | Ok (Some t) =>
        let this :=
          {| id := default "" (Properties.id properties);
             type := t;
             visible := true;
             el := {| visibleClass := false; points := None |};
             config := Properties.empty;
             props := mkProps false None None None None None None None |} in
        match update (NewProperties properties) this with
        | (this', Ok _) => Ok this'
        | (_, Throw e) => Throw e
        end
    end.

End Methods.

End PSVMarker.

(** ** PSVHUD *)

Module PSVHUD.

Local Open Scope js_scope.

(** The registry [this.markers], in the order the markers were added, and
    whether the component is shown. *)
Record HUD : Type := mkHUD {
  markers : list (string * PSVMarker.Marker);
  componentVisible : bool
}.

(** A vertex with its visibility, as [__getPolyPositions] tags it. *)
Record Pos3D : Type := mkPos3D { vector : THREE.Vector3; visible : bool }.

(** A visible vertex next to an invisible one, at the index of the latter. *)
Record Pair : Type := mkPair { pairVisible : Pos3D; pairInvisible : Pos3D; index : nat }.

(** [positions3D.splice (i, 0, item)] *)
Definition insertAt {A : Type} (i : nat) (item : A) (l : list A) : list A :=
  take i l ++ item :: drop i l.

(** The two neighbours of vertex [i], the sequence being closed. *)
Definition neighbours (positions3D : list Pos3D) (i : nat) : list (option Pos3D) :=
  let nbVectors := List.length positions3D in
  [ if Nat.eqb i 0 then positions3D !! (nbVectors - 1)%nat else positions3D !! (i - 1)%nat;
    if Nat.eqb i (nbVectors - 1) then positions3D !! 0%nat else positions3D !! (i + 1)%nat ].

(** The pairs pushed for vertex [i]; reading [visible] of a neighbour that
    does not exist is a TypeError. *)
Fixpoint pairsWith (pos : Pos3D) (i : nat) (ns : list (option Pos3D)) : result (list Pair) :=
  match ns with
  | [] => Ok []
  | None :: _ => Throw TypeError
  | Some neighbour :: ns' =>
      match pairsWith pos i ns' with
      | Throw e => Throw e
      | Ok ps => Ok (if visible neighbour then mkPair neighbour pos i :: ps else ps)
      end
  end.

Fixpoint collectPairs (positions3D : list Pos3D) (i : nat) (rest : list Pos3D)
    : result (list Pair) :=
  match rest with
  | [] => Ok []
  | pos :: rest' =>
      match (if visible pos then Ok [] else pairsWith pos i (neighbours positions3D i)) with
      | Throw e => Throw e
      | Ok here =>
          match collectPairs positions3D (S i) rest' with
          | Throw e => Throw e
          | Ok later => Ok (here ++ later)
          end
      end
  end.

(** [Math.min] (or [Math.max]) folded over the coordinates; the model has no
    infinity, so the fold starts from the first one. *)
Definition extremum (f : number -> number -> number) (l : list number) : number :=
  match l with
  | [] => NaN
  | a :: l' => fold_left f l' a
  end.

Fixpoint lookupMarker (id : string) (l : list (string * PSVMarker.Marker))
    : option PSVMarker.Marker :=
  match l with
  | [] => None
  | (k, m) :: l' => if String.eqb k id then Some m else lookupMarker id l'
  end.

Fixpoint storeMarker (id : string) (m : PSVMarker.Marker)
    (l : list (string * PSVMarker.Marker)) : list (string * PSVMarker.Marker) :=
  match l with
  | [] => [(id, m)]
  | (k, m') :: l' => if String.eqb k id then (k, m) :: l' else (k, m') :: storeMarker id m l'
  end.

Fixpoint deleteMarker (id : string) (l : list (string * PSVMarker.Marker))
    : list (string * PSVMarker.Marker) :=
  match l with
  | [] => []
  | (k, m) :: l' => if String.eqb k id then l' else (k, m) :: deleteMarker id l'
  end.

Section Methods.

Variable SPHERE_RADIUS : number.

(** [this.psv.prop] *)
Variable prop : ViewerProp.

(** The camera projection of three.js. *)
Variable project : THREE.Vector3 -> THREE.Vector3.

(** [getBoundingClientRect] of the marker's element, without its transform. *)
Variable measure : PSVMarker.Marker -> Size.

(** Reading the camera direction while it is still [null] is a TypeError. *)
Definition __getPolyIntermediaryPoint (P1 P2 : THREE.Vector3) : result THREE.Vector3 :=
  match direction prop with
  | None => Throw TypeError
  | Some d =>
      let C := THREE.normalize d in
      let N := THREE.normalize (THREE.crossVectors P1 P2) in
      let V := THREE.normalize (THREE.crossVectors N P1) in
      let H := THREE.normalize
                 (THREE.addVectors (THREE.multiplyScalar P1 (- THREE.dot C V))
                                   (THREE.multiplyScalar V (THREE.dot C P1))) in
      let a := THREE.crossVectors H C in
      Ok (THREE.multiplyScalar (THREE.applyAxisAngle H a (Num 0.01)) SPHERE_RADIUS)
  end.

(** Each vertex with whether it faces the camera. *)
Definition tagVisible (vectors : list THREE.Vector3) : result (list Pos3D) :=
  PSVMarker.mapResult
    (fun v =>
       match direction prop with
       | None => Throw TypeError
       | Some d => Ok (mkPos3D v (THREE.dot v d >? 0))
       end)
    vectors.

(** The list [toBeComputed]. *)
Definition toBeComputed (positions3D : list Pos3D) : result (list Pair) :=
  collectPairs positions3D 0 positions3D.

(** The intermediary point of each pair, taken in reverse order, and their
    insertion at the index of the invisible vertex. *)
Definition intermediaryPoints (pairs : list Pair) : result (list (nat * Pos3D)) :=
  PSVMarker.mapResult
    (fun pair =>
       match __getPolyIntermediaryPoint (vector (pairVisible pair))
                                        (vector (pairInvisible pair)) with
       | Throw e => Throw e
       | Ok v => Ok (index pair, mkPos3D v true)
       end)
    (rev pairs).

Definition __getPolyPositions (marker : PSVMarker.Marker) : result (list Point) :=
  match PSVMarker.positions3D (PSVMarker.props marker) with
  | None => Throw TypeError
  | Some vectors =>
      match tagVisible vectors with
      | Throw e => Throw e
      | Ok positions3D =>
          match toBeComputed positions3D with
          | Throw e => Throw e
          | Ok pairs =>
              match intermediaryPoints pairs with
              | Throw e => Throw e
              | Ok points =>
                  let spliced :=
                    fold_left (fun acc point => insertAt (fst point) (snd point) acc)
                              points positions3D in
                  Ok (map (fun pos =>
                             PSVDataHelper.vector3ToViewerCoords prop project (vector pos))
                          (List.filter (fun pos => visible pos) spliced))
              end
          end
      end
  end.

Definition __getPolyDimensions (positions : list Point) : PSVMarker.M Point :=
  let minX := extremum Math.min (map x positions) in
  let minY := extremum Math.min (map y positions) in
  let maxX := extremum Math.max (map x positions) in
  let maxY := extremum Math.max (map y positions) in
  PSVMarker.modifyProps (fun p =>
    PSVMarker.mkProps (PSVMarker.dynamicSize p) (PSVMarker.anchor p) (PSVMarker.position p)
      (PSVMarker.position2D p) (PSVMarker.positions3D p)
      (Some (maxX - minX)) (Some (maxY - minY)) (PSVMarker.def p)) ;;
  ret {| x := minX; y := minY |}.

(** A [null] size counts as 0 in arithmetic. *)
Definition sizeOf (n : option number) : number := default (Num 0) n.

Definition __getMarkerPosition : PSVMarker.M Point :=
  marker <- get ;;
  (if PSVMarker.dynamicSize (PSVMarker.props marker) then
     let rect := measure marker in
     PSVMarker.modifyProps (fun p =>
       PSVMarker.mkProps (PSVMarker.dynamicSize p) (PSVMarker.anchor p) (PSVMarker.position p)
         (PSVMarker.position2D p) (PSVMarker.positions3D p)
         (Some (width rect)) (Some (height rect)) (PSVMarker.def p))
   else ret tt) ;;
  marker <- get ;;
  match PSVMarker.positions3D (PSVMarker.props marker), PSVMarker.anchor (PSVMarker.props marker) with
  | Some (first :: _), Some anchor =>
      let position := PSVDataHelper.vector3ToViewerCoords prop project first in
      ret {| x := x position - sizeOf (PSVMarker.width (PSVMarker.props marker)) * x anchor;
             y := y position - sizeOf (PSVMarker.height (PSVMarker.props marker)) * y anchor |}
  | _, _ => throw TypeError
  end.

Definition __isMarkerVisible (marker : PSVMarker.Marker) (position : Point) : result bool :=
  match PSVMarker.positions3D (PSVMarker.props marker), direction prop with
  | Some (first :: _), Some d =>
      Ok ((THREE.dot first d >? 0)
          && (x position + sizeOf (PSVMarker.width (PSVMarker.props marker)) >=? 0)
          && (x position - sizeOf (PSVMarker.width (PSVMarker.props marker))
              <=? width (size prop))
          && (y position + sizeOf (PSVMarker.height (PSVMarker.props marker)) >=? 0)
          && (y position - sizeOf (PSVMarker.height (PSVMarker.props marker))
              <=? height (size prop)))
  | _, _ => Throw TypeError
  end.

Definition setPosition2D (position : Point) : PSVMarker.M unit :=
  PSVMarker.modifyProps (fun p =>
    PSVMarker.mkProps (PSVMarker.dynamicSize p) (PSVMarker.anchor p) (PSVMarker.position p)
      (Some position) (PSVMarker.positions3D p)
      (PSVMarker.width p) (PSVMarker.height p) (PSVMarker.def p)).

(** [toggleClass (marker.$el, 'psv-marker--visible', isVisible)] *)
Definition toggleVisibleClass (isVisible : bool) : PSVMarker.M unit :=
  modify (fun marker =>
    PSVMarker.setEl
      (PSVMarker.mkElement isVisible (PSVMarker.points (PSVMarker.el marker))) marker).

(** The body of the loop of [renderMarkers], for one marker; it returns the
    frame visibility it found.  The transform written on the element is not
    modelled. *)
Definition renderMarker : PSVMarker.M bool :=
  marker <- get ;;
  isVisible <-
    (if PSVMarker.visible marker && PSVMarker.isPoly marker then
       positions <- liftResult (__getPolyPositions marker) ;;
       let isVisible :=
         Nat.ltb (if PSVMarker.isPolygon marker then 2 else 1) (List.length positions) in
       (if isVisible then
          position2D <- __getPolyDimensions positions ;;
          setPosition2D position2D ;;
          modify (fun marker =>
            PSVMarker.setEl
              (PSVMarker.mkElement (PSVMarker.visibleClass (PSVMarker.el marker))
                                   (Some positions)) marker)
        else ret tt) ;;
       ret isVisible
     else if PSVMarker.visible marker then
       position <- __getMarkerPosition ;;
       marker <- get ;;
       isVisible <- liftResult (__isMarkerVisible marker position) ;;
       (if isVisible then setPosition2D position else ret tt) ;;
       ret isVisible
     else ret false) ;;
  toggleVisibleClass isVisible ;;
  ret isVisible.

(** [each (this.markers, ...)]: the markers are rendered in order; a throw
    leaves the later ones as they were. *)
Fixpoint renderEach (l : list (string * PSVMarker.Marker))
    : list (string * PSVMarker.Marker) * result unit :=
  match l with
  | [] => ([], Ok tt)
  | (k, marker) :: l' =>
      match renderMarker marker with
      | (marker', Throw e) => ((k, marker') :: l', Throw e)
      | (marker', Ok _) =>
          let '(l'', r) := renderEach l' in ((k, marker') :: l'', r)
      end
  end.

Definition renderMarkers : Method.M HUD unit :=
  fun this =>
    if negb (componentVisible this) then (this, Ok tt)
    else
      let '(l, r) := renderEach (markers this) in
      (mkHUD l (componentVisible this), r).

Definition getMarker (markerId : string) (this : HUD) : result PSVMarker.Marker :=
  match lookupMarker markerId (markers this) with
  | Some marker => Ok marker
  | None => Throw (PSVError ("cannot find marker " ++ dquote ++ markerId ++ dquote))
  end.

Definition setMarkerVisible (markerId : string) (v : bool) : Method.M HUD unit :=
  this <- get ;;
  marker <- liftResult (getMarker markerId this) ;;
  modify (fun this =>
    mkHUD (storeMarker markerId (PSVMarker.setVisible v marker) (markers this))
          (componentVisible this)) ;;
  renderMarkers.

Definition hideMarker (marker : string) : Method.M HUD unit :=
  setMarkerVisible marker false.

Definition showMarker (marker : string) : Method.M HUD unit :=
  setMarkerVisible marker true.

(** What [updateMarker] is given: a new properties object, or the [config]
    object of the marker itself. *)
Inductive PropertiesRef : Type :=
| Fresh (properties : Properties.t)
| ConfigOf (markerId : string).

Definition updateMarker (properties : PropertiesRef) (render : bool) : Method.M HUD unit :=
  this <- get ;;
  let '(markerId, arg) :=
    match properties with
    | Fresh p => (default "undefined" (Properties.id p), PSVMarker.NewProperties p)
    | ConfigOf k =>
        (match lookupMarker k (markers this) with
         | Some m => default "undefined" (Properties.id (PSVMarker.config m))
         | None => k
         end, PSVMarker.OwnConfig)
    end in
  marker <- liftResult (getMarker markerId this) ;;
  (fun this =>
     let '(marker', r) := PSVMarker.update SPHERE_RADIUS prop arg marker in
     (mkHUD (storeMarker markerId marker' (markers this)) (componentVisible this), r)) ;;
  if render then renderMarkers else ret tt.

Definition addMarker (properties : Properties.t) (render : bool)
    : Method.M HUD PSVMarker.Marker :=
  this <- get ;;
  (match Properties.id properties with
   | Some k =>
       match lookupMarker k (markers this) with
       | Some _ => throw (PSVError ("marker " ++ dquote ++ k ++ dquote ++ " already exists"))
       | None => ret tt
       end
   | None => ret tt
   end) ;;
  marker <- liftResult (PSVMarker.constructor SPHERE_RADIUS prop properties) ;;
  modify (fun this =>
    mkHUD (markers this ++ [(PSVMarker.id marker, marker)]) (componentVisible this)) ;;
  (if render then renderMarkers else ret tt) ;;
  ret marker.

(** [removeMarker]: the marker leaves the registry (and the document). *)
Definition removeMarker (markerOrId : string) : Method.M HUD unit :=
  this <- get ;;
  marker <- liftResult (getMarker markerOrId this) ;;
  modify (fun this =>
    mkHUD (deleteMarker (PSVMarker.id marker) (markers this)) (componentVisible this)).

(** [toggleMarker]: [visible ^= true] leaves the number 0 where the flag was
    set and 1 where it was not, which every reader of [visible] takes as false
    and as true. *)
Definition toggleMarker (marker : string) : Method.M HUD unit :=
  this <- get ;;
  found <- liftResult (getMarker marker this) ;;
  modify (fun this =>
    mkHUD (storeMarker marker
             (PSVMarker.setVisible (negb (PSVMarker.visible found)) found) (markers this))
          (componentVisible this)) ;;
  renderMarkers.

(** [each (this.markers, marker => this.removeMarker (marker, false))]: the
    markers registered when the loop starts are removed one after the other.
    [each] is a helper of [utils] that is not among the sources; it is taken to
    call the function once on every value of the object, or on every item of
    the array, that it is given, and an exception of the function ends it. *)
Fixpoint removeEach (l : list (string * PSVMarker.Marker)) : Method.M HUD unit :=
  match l with
  | [] => ret tt
  | (_, marker) :: l' => removeMarker (PSVMarker.id marker) ;; removeEach l'
  end.

Definition clearMarkers (render : bool) : Method.M HUD unit :=
  this <- get ;;
  removeEach (markers this) ;;
  if render then renderMarkers else ret tt.

(** [each (markers, marker => this.addMarker (marker, false))] *)
Fixpoint addEach (l : list Properties.t) : Method.M HUD unit :=
  match l with
  | [] => ret tt
  | properties :: l' => addMarker properties false ;; addEach l'
  end.

Definition setMarkers (markers : list Properties.t) (render : bool) : Method.M HUD unit :=
  clearMarkers false ;;
  addEach markers ;;
  if render then renderMarkers else ret tt.

End Methods.

(** One call of a public operation of the HUD: the HUD before it and the HUD
    after it, whatever the arguments, the state of the viewer and the camera at
    that time, and whether the call ends normally or throws.  The last case is
    the component being shown or hidden. *)
Inductive call (SPHERE_RADIUS : number) : HUD -> HUD -> Prop :=
| call_addMarker prop project measure properties render this :
    call SPHERE_RADIUS this
      (fst (addMarker SPHERE_RADIUS prop project measure properties render this))
| call_updateMarker prop project measure properties render this :
    call SPHERE_RADIUS this
      (fst (updateMarker SPHERE_RADIUS prop project measure properties render this))
| call_removeMarker markerOrId this :
    call SPHERE_RADIUS this (fst (removeMarker markerOrId this))
| call_setMarkers prop project measure list render this :
    call SPHERE_RADIUS this
      (fst (setMarkers SPHERE_RADIUS prop project measure list render this))
| call_clearMarkers prop project measure render this :
    call SPHERE_RADIUS this
      (fst (clearMarkers SPHERE_RADIUS prop project measure render this))
| call_hideMarker prop project measure marker this :
    call SPHERE_RADIUS this (fst (hideMarker SPHERE_RADIUS prop project measure marker this))
| call_showMarker prop project measure marker this :
    call SPHERE_RADIUS this (fst (showMarker SPHERE_RADIUS prop project measure marker this))
| call_toggleMarker prop project measure marker this :
    call SPHERE_RADIUS this (fst (toggleMarker SPHERE_RADIUS prop project measure marker this))
| call_renderMarkers prop project measure this :
    call SPHERE_RADIUS this (fst (renderMarkers SPHERE_RADIUS prop project measure this))
| call_show visible this :
    call SPHERE_RADIUS this (mkHUD (markers this) visible).

(** The HUDs that calls lead to, from the HUD the constructor leaves, which
    has no marker. *)
Inductive reachable (SPHERE_RADIUS : number) : HUD -> Prop :=
| reachable_new visible : reachable SPHERE_RADIUS (mkHUD [] visible)
| reachable_call this this' :
    reachable SPHERE_RADIUS this -> call SPHERE_RADIUS this this' ->
    reachable SPHERE_RADIUS this'.

End PSVHUD.

(** ** PhotoSphereViewer: loading a panorama *)

Module PhotoSphereViewer.

(** The viewer: its configuration, its internal properties, and what the model
    keeps of its collaborators: whether the loader, the render surface and the
    error overlay are shown, the texture on the sphere, and the paths handed
    to [textureLoader.loadTexture], oldest first. *)
Record Viewer : Type := mkViewer {
  config : Config;
  prop : ViewerProp;
  loaderVisible : bool;
  rendererVisible : bool;
  errorVisible : bool;
  texture : option string;
  loadsStarted : list string
}.

(** [this.prop] as the constructor first sets it. *)
Definition initialProp : ViewerProp :=
  {| ready := false; needsUpdate := false; isCubemap := false;
     position := {| longitude := Num 0; latitude := Num 0 |};
     direction := None;
     zoomLvl := Num 0; vFov := Num 0; hFov := Num 0; aspect := Num 0;
     autorotate := false; gyroscope := false; stereo := false; animation := false;
     loadingPromise := None;
     size := {| width := Num 0; height := Num 0 |};
     panoData := mkPanoData (Num 0) (Num 0) (Num 0) (Num 0) (Num 0) (Num 0) |}.

(** The viewer before any panorama is loaded. *)
Definition initial (config : Config) : Viewer :=
  {| config := config; prop := initialProp;
     loaderVisible := false; rendererVisible := true; errorVisible := false;
     texture := None; loadsStarted := [] |}.

Definition setProp (f : ViewerProp -> ViewerProp) (this : Viewer) : Viewer :=
  mkViewer (config this) (f (prop this)) (loaderVisible this) (rendererVisible this)
           (errorVisible this) (texture this) (loadsStarted this).

Definition setLoadingPromise (l : option Loading) (p : ViewerProp) : ViewerProp :=
  mkViewerProp (ready p) (needsUpdate p) (isCubemap p) (position p) (direction p)
    (zoomLvl p) (vFov p) (hFov p) (aspect p) (autorotate p) (gyroscope p) (stereo p)
    (animation p) l (size p) (panoData p).

(** [position.longitude = ...; position.latitude = ...; needsUpdate ()] *)
Definition setPosition (pos : Position) (p : ViewerProp) : ViewerProp :=
  mkViewerProp (ready p) true (isCubemap p) pos (direction p)
    (zoomLvl p) (vFov p) (hFov p) (aspect p) (autorotate p) (gyroscope p) (stereo p)
    (animation p) (loadingPromise p) (size p) (panoData p).

(** What [__stopAll] leaves: no automatic rotation, animation, gyroscope or
    stereo view. *)
Definition stopped (p : ViewerProp) : ViewerProp :=
  mkViewerProp (ready p) (needsUpdate p || stereo p) (isCubemap p) (position p) (direction p)
    (zoomLvl p) (vFov p) (hFov p) (aspect p) false false false
    false (loadingPromise p) (size p) (panoData p).

Definition __stopAll : Method.M Viewer unit := modify (setProp stopped).

Definition hideError : Method.M Viewer unit :=
  modify (fun this =>
    mkViewer (config this) (prop this) (loaderVisible this) (rendererVisible this)
             false (texture this) (loadsStarted this)).

Definition showLoader (v : bool) : Method.M Viewer unit :=
  modify (fun this =>
    mkViewer (config this) (prop this) v (rendererVisible this)
             (errorVisible this) (texture this) (loadsStarted this)).

Definition showRenderer (v : bool) : Method.M Viewer unit :=
  modify (fun this =>
    mkViewer (config this) (prop this) (loaderVisible this) v
             (errorVisible this) (texture this) (loadsStarted this)).

Definition setConfigPanorama (path : string) : Method.M Viewer unit :=
  modify (fun this =>
    mkViewer (mkConfig (Some path) (minFov (config this)) (maxFov (config this))
                (longitudeRange (config this)) (latitudeRange (config this))
                (transition (config this)))
             (prop this) (loaderVisible this) (rendererVisible this)
             (errorVisible this) (texture this) (loadsStarted this)).

(** [textureLoader.loadTexture (path)]: the request is recorded. *)
Definition loadTexture (path : string) : Method.M Viewer unit :=
  modify (fun this =>
    mkViewer (config this) (prop this) (loaderVisible this) (rendererVisible this)
             (errorVisible this) (texture this) (loadsStarted this ++ [path])).

Definition setTexture (path : string) : Method.M Viewer unit :=
  modify (fun this =>
    mkViewer (config this) (prop this) (loaderVisible this) (rendererVisible this)
             (errorVisible this) (Some path) (loadsStarted this)).

(** [rotate]: the position is cleaned, clamped to the ranges and stored.  The
    reversal of the automatic rotation when a side is reached is an animation
    and is not modelled. *)
Definition rotate (pos : ExtendedPosition) : Method.M Viewer unit :=
  this <- get ;;
  cleanPosition <- liftResult (PSVDataHelper.cleanPosition (prop this) pos) ;;
  let ranged := PSVDataHelper.applyRanges (config this) (prop this) cleanPosition in
  modify (setProp (setPosition (PSVDataHelper.rangedPosition ranged))).

(** The second argument of [setPanorama]: absent, a position, or the
    transition flag given in its place. *)
Inductive PositionArg : Type :=
| NoPosition
| APosition (pos : ExtendedPosition)
| ABoolean (flag : bool).

Definition LoadingInProgress : exn := PSVError "Loading already in progress".

Definition setPanorama (path : string) (positionArg : PositionArg) (transitionArg : bool)
    : Method.M Viewer Loading :=
  this <- get ;;
  match loadingPromise (prop this) with
  | Some _ => throw LoadingInProgress
  | None =>
      let '(pos, withTransition) :=
        match positionArg with
        | ABoolean flag => (None, flag)
        | APosition pos => (Some pos, transitionArg)
        | NoPosition => (None, transitionArg)
        end in
      cleanPosition <-
        match pos with
        | Some pos =>
            cleanPosition <- liftResult (PSVDataHelper.cleanPosition (prop this) pos) ;;
            __stopAll ;;
            ret (Some cleanPosition)
        | None => ret None
        end ;;
      hideError ;;
      setConfigPanorama path ;;
      this <- get ;;
      let loading :=
        if negb withTransition
           || negb (bool_decide (is_Some (transition (config this))))
           || negb (ready (prop this))
        then mkLoading path cleanPosition false
        else mkLoading path cleanPosition true in
      (if loadingWithTransition loading then
         match transition (config this) with
         | Some t => if loader t then showLoader true else ret tt
         | None => ret tt
         end
       else
         showLoader true ;;
         showRenderer false) ;;
      loadTexture path ;;
      modify (setProp (setLoadingPromise (Some loading))) ;;
      ret loading
  end.

(** How the texture load ends. *)
Inductive LoadOutcome : Type :=
| Loaded
| Failed.

(** The closure [done]. *)
Definition done : Method.M Viewer unit :=
  showLoader false ;;
  showRenderer true ;;
  modify (setProp (setLoadingPromise None)).

Definition asExtended (pos : Position) : ExtendedPosition :=
  {| ep_x := None; ep_y := None;
     ep_longitude := Some (longitude pos); ep_latitude := Some (latitude pos) |}.

(** What runs when the load settles: the [then] handler on success (with a
    transition, as it stands once the cross-fade has ended), nothing but a log
    on failure, and [done] in both cases, whatever the handler did. *)
Definition settle (outcome : LoadOutcome) (this : Viewer) : Viewer :=
  match loadingPromise (prop this) with
  | None => this
  | Some loading =>
      let handler : Method.M Viewer unit :=
        match outcome with
        | Failed => ret tt
        | Loaded =>
            (if loadingWithTransition loading then showLoader false else ret tt) ;;
            setTexture (loadingPath loading) ;;
            match loadingPosition loading with
            | Some pos =>
                if loadingWithTransition loading && isCubemap (prop this) then ret tt
                else rotate (asExtended pos)
            | None => ret tt
            end
        end in
      fst (done (fst (handler this)))
  end.

(** *** Zooming *)

Definition setZoomLvl (level : number) (p : ViewerProp) : ViewerProp :=
  mkViewerProp (ready p) (needsUpdate p) (isCubemap p) (position p) (direction p)
    level (vFov p) (hFov p) (aspect p) (autorotate p) (gyroscope p) (stereo p)
    (animation p) (loadingPromise p) (size p) (panoData p).

Definition setVFov (fov : number) (p : ViewerProp) : ViewerProp :=
  mkViewerProp (ready p) (needsUpdate p) (isCubemap p) (position p) (direction p)
    (zoomLvl p) fov (hFov p) (aspect p) (autorotate p) (gyroscope p) (stereo p)
    (animation p) (loadingPromise p) (size p) (panoData p).

Definition setHFov (fov : number) (p : ViewerProp) : ViewerProp :=
  mkViewerProp (ready p) (needsUpdate p) (isCubemap p) (position p) (direction p)
    (zoomLvl p) (vFov p) fov (aspect p) (autorotate p) (gyroscope p) (stereo p)
    (animation p) (loadingPromise p) (size p) (panoData p).

(** [needsUpdate ()] *)
Definition flagUpdate (p : ViewerProp) : ViewerProp :=
  mkViewerProp (ready p) true (isCubemap p) (position p) (direction p)
    (zoomLvl p) (vFov p) (hFov p) (aspect p) (autorotate p) (gyroscope p) (stereo p)
    (animation p) (loadingPromise p) (size p) (panoData p).

Section Zoom.

(** [utils.bound] is not among the sources: it stays a parameter. *)
Variable bound : number -> number -> number -> number.

(** The option [zoomSpeed], which the configuration record leaves out. *)
Variable zoomSpeed : number.

Definition zoom (level : number) : Method.M Viewer unit :=
  modify (setProp (setZoomLvl (bound (Math.round level) (Num 0) (Num 100)))) ;;
  this <- get ;;
  modify (setProp (setVFov (PSVDataHelper.zoomLevelToFov (config this) (zoomLvl (prop this))))) ;;
  this <- get ;;
  modify (setProp (setHFov (PSVDataHelper.vFovToHFov (prop this) (vFov (prop this))))) ;;
  modify (setProp flagUpdate).

Definition zoomIn : Method.M Viewer unit :=
  this <- get ;;
  if JS.lt (zoomLvl (prop this)) (Num 100)
  then zoom (JS.add (zoomLvl (prop this)) zoomSpeed)
  else ret tt.

Definition zoomOut : Method.M Viewer unit :=
  this <- get ;;
  if JS.gt (zoomLvl (prop this)) (Num 0)
  then zoom (JS.sub (zoomLvl (prop this)) zoomSpeed)
  else ret tt.

End Zoom.

End PhotoSphereViewer.

(** ** Sample configurations *)

Module Samples.

(** [{ id: 'm1', longitude: 0, latitude: 0, html: 'hello' }] *)
Definition htmlMarker : Properties.t :=
  Properties.mk (Some "m1") None None (Some (Num 0)) (Some (Num 0)) None (Some "hello")
    None None None None None None None None None None None None None None.

(** [{ id: 'm1', html: 'hello' }]: an html marker with no position. *)
Definition htmlNoPosition : Properties.t :=
  Properties.mk (Some "m1") None None None None None (Some "hello")
    None None None None None None None None None None None None None None.

(** [{ id: 'm2', square: 10 }]: a square with no position. *)
Definition squareNoPosition : Properties.t :=
  Properties.mk (Some "m2") None None None None None None
    None None (Some (Num 10)) None None None None None None None None None None None.

(** [{ id: 'm1', html: 'bye' }]: new content for [htmlMarker], nothing said of
    [visible]. *)
Definition htmlContent : Properties.t :=
  Properties.mk (Some "m1") None None None None None (Some "bye")
    None None None None None None None None None None None None None None.

(** A viewer configuration with no range and no transition. *)
Definition plainConfig : Config :=
  {| panorama := None; minFov := Num 30; maxFov := Num 90;
     longitudeRange := None; latitudeRange := None; transition := None |}.

(** The configuration of the range example: longitudes between -1 and 1. *)
Definition rangeConfig : Config :=
  {| panorama := None; minFov := Num 30; maxFov := Num 90;
     longitudeRange := Some (Num (-1), Num 1); latitudeRange := None;
     transition := None |}.

(** A 4000 x 2000 panorama cropped to the 2000 x 1000 pixels at (1000, 500). *)
Definition croppedPano : PanoData :=
  mkPanoData (Num 4000) (Num 2000) (Num 2000) (Num 1000) (Num 1000) (Num 500).

Definition withPano (pano : PanoData) (hFov vFov : number)
    (direction : option THREE.Vector3) : ViewerProp :=
  {| ready := true; needsUpdate := false; isCubemap := false;
     position := {| longitude := Num 0; latitude := Num 0 |};
     direction := direction;
     zoomLvl := Num 50; vFov := vFov; hFov := hFov; aspect := Num 1;
     autorotate := false; gyroscope := false; stereo := false; animation := false;
     loadingPromise := None;
     size := {| width := Num 800; height := Num 600 |};
     panoData := pano |}.

(** A polygon marker with three vertices, (0, 0, -100), (10, 0, -100) and
    (0, 10, -100) as vectors; the statements that use it read its type and its
    vertices only. *)
Definition polygonBehind : PSVMarker.Marker :=
  {| PSVMarker.id := "p1";
     PSVMarker.type := MARKER_TYPES.polygonRad;
     PSVMarker.visible := true;
     PSVMarker.el := {| PSVMarker.visibleClass := false; PSVMarker.points := None |};
     PSVMarker.config :=
       Properties.mk (Some "p1") None None None None None None None None None None None
         None None None
         (Some (Properties.Pairs [(Num PI, Num 0); (Num 3, Num 0); (Num PI, Num (1 / 10))]))
         None None None None None;
     PSVMarker.props :=
       PSVMarker.mkProps true (Some (utils.parsePosition None))
         (Some {| longitude := Num PI; latitude := Num 0 |}) None
         (Some [THREE.mkVector3 (Num 0) (Num 0) (Num (-100));
                THREE.mkVector3 (Num 10) (Num 0) (Num (-100));
                THREE.mkVector3 (Num 0) (Num 10) (Num (-100))])
         None None
         (Some (PSVMarker.DefPoly [(Num PI, Num 0); (Num 3, Num 0); (Num PI, Num (1 / 10))])) |}.

(** A camera looking along the z axis. *)
Definition alongZ : THREE.Vector3 := THREE.mkVector3 (Num 0) (Num 0) (Num 100).

(** A camera looking against the z axis. *)
Definition againstZ : THREE.Vector3 := THREE.mkVector3 (Num 0) (Num 0) (Num (-100)).

(** [{ id: 'm3', image: 'a.png', html: 'hello' }]: two kinds of content. *)
Definition imageAndHtml : Properties.t :=
  Properties.mk (Some "m3") None None None None (Some "a.png") (Some "hello")
    None None None None None None None None None None None None None None.

(** A projection that leaves the vectors as they are, and an element that
    measures 0 by 0. *)
Definition flat (v : THREE.Vector3) : THREE.Vector3 := v.

Definition unmeasured (marker : PSVMarker.Marker) : Size :=
  {| width := Num 0; height := Num 0 |}.

(** An html marker at the vector (0, 0, -100); the statements that use it
    read its type, its flag, its anchor and its vector only. *)
Definition pointBehind : PSVMarker.Marker :=
  {| PSVMarker.id := "m1";
     PSVMarker.type := MARKER_TYPES.html;
     PSVMarker.visible := true;
     PSVMarker.el := {| PSVMarker.visibleClass := true; PSVMarker.points := None |};
     PSVMarker.config := htmlMarker;
     PSVMarker.props :=
       PSVMarker.mkProps true (Some (utils.parsePosition None))
         (Some {| longitude := Num PI; latitude := Num 0 |}) None
         (Some [THREE.mkVector3 (Num 0) (Num 0) (Num (-100))])
         None None (Some (PSVMarker.DefContent "hello")) |}.

(** A HUD with no marker, a HUD with the polygon [polygonBehind], and the same
    with the polygon hidden. *)
Definition emptyHUD : PSVHUD.HUD := PSVHUD.mkHUD [] true.

Definition polygonHUD : PSVHUD.HUD :=
  PSVHUD.mkHUD [("p1"%string, polygonBehind)] true.

Definition hiddenPolygonHUD : PSVHUD.HUD :=
  PSVHUD.mkHUD [("p1"%string, PSVMarker.setVisible false polygonBehind)] true.

(** A viewer showing a cubemap, nothing loading. *)
Definition cubemapViewer : PhotoSphereViewer.Viewer :=
  PhotoSphereViewer.setProp
    (fun p =>
       mkViewerProp (ready p) (needsUpdate p) true (position p) (direction p)
         (zoomLvl p) (vFov p) (hFov p) (aspect p) (autorotate p) (gyroscope p) (stereo p)
         (animation p) (loadingPromise p) (size p) (panoData p))
    (PhotoSphereViewer.initial plainConfig).

(** [{ x: 10, y: 20 }] *)
Definition pixelPosition : ExtendedPosition :=
  {| ep_x := Some (Num 10); ep_y := Some (Num 20); ep_longitude := None; ep_latitude := None |}.

(** A [bound] that clamps. *)
Definition clamping (x lo hi : number) : number := Math.max lo (Math.min hi x).

End Samples.

(** ** Predicates of the statements *)



(** A number that is at most 0. *)
Definition nonPositive (n : number) : Prop :=
  match n with
  | Num d => d <= 0
  | NaN => False
  end.


(** Neither both pixel coordinates nor both spherical coordinates. *)
Definition lacksPosition (properties : Properties.t) : Prop :=
  (Properties.x properties = None \/ Properties.y properties = None) /\
  (Properties.longitude properties = None \/ Properties.latitude properties = None).

(** The properties object an [update] is given, if any. *)
Definition givenProperties (this : PSVMarker.Marker) (arg : PSVMarker.UpdateArg)
    : option Properties.t :=
  match arg with
  | PSVMarker.NoProperties => None
  | PSVMarker.OwnConfig => Some (PSVMarker.config this)
  | PSVMarker.NewProperties properties => Some properties
  end.

(** A method keeps the [visible] flag when no run of it changes it. *)
Definition keepsVisible {A : Type} (c : PSVMarker.M A) : Prop :=
  forall this, PSVMarker.visible (fst (c this)) = PSVMarker.visible this.

(** Every vertex is tagged invisible. *)
Definition allInvisible (positions3D : list PSVHUD.Pos3D) : Prop :=
  Forall (fun pos => PSVHUD.visible pos = false) positions3D.

(** A method of a marker keeps [f] when no run of it changes what [f] reads of
    the marker, whether the run ends normally or throws. *)
Definition keeps {A B : Type} (f : PSVMarker.Marker -> B) (c : PSVMarker.M A) : Prop :=
  forall this, f (fst (c this)) = f this.

(** A method of a marker preserves [P] when a marker that has it before a run
    of the method has it after, whether the run ends normally or throws. *)
Definition preserves {A : Type} (P : PSVMarker.Marker -> Prop) (c : PSVMarker.M A) : Prop :=
  forall this, P this -> P (fst (c this)).

(** What the render pass reads of a marker at index 0: an anchor, and at least
    one vector. *)
Definition hasGeometry (marker : PSVMarker.Marker) : Prop :=
  is_Some (PSVMarker.anchor (PSVMarker.props marker)) /\
  exists first others,
    PSVMarker.positions3D (PSVMarker.props marker) = Some (first :: others).

(** The registry files each marker under its own id, and no id twice. *)
Definition wellFiled (registry : list (string * PSVMarker.Marker)) : Prop :=
  NoDup (map fst registry) /\
  Forall (fun entry => PSVMarker.id (snd entry) = fst entry) registry.

(** A registry as the operations of the HUD leave it: well filed, and every
    marker with its geometry. *)
Definition consistent (registry : list (string * PSVMarker.Marker)) : Prop :=
  wellFiled registry /\ Forall (fun entry => hasGeometry (snd entry)) registry.

(** Two states of a marker that differ at most by what a render pass computes:
    the measured size, the 2D position and the element. *)
Definition sameUpToRendering (before after : PSVMarker.Marker) : Prop :=
  PSVMarker.id after = PSVMarker.id before /\
  PSVMarker.type after = PSVMarker.type before /\
  PSVMarker.visible after = PSVMarker.visible before /\
  PSVMarker.config after = PSVMarker.config before /\
  PSVMarker.dynamicSize (PSVMarker.props after) = PSVMarker.dynamicSize (PSVMarker.props before) /\
  PSVMarker.anchor (PSVMarker.props after) = PSVMarker.anchor (PSVMarker.props before) /\
  PSVMarker.position (PSVMarker.props after) = PSVMarker.position (PSVMarker.props before) /\
  PSVMarker.positions3D (PSVMarker.props after) = PSVMarker.positions3D (PSVMarker.props before) /\
  PSVMarker.def (PSVMarker.props after) = PSVMarker.def (PSVMarker.props before).

(** What a render pass keeps of the registry: the keys, and the markers up to
    what rendering computes. *)
Definition sameRegistry (before after : list (string * PSVMarker.Marker)) : Prop :=
  Forall2 (fun entry entry' =>
             fst entry' = fst entry /\ sameUpToRendering (snd entry) (snd entry'))
          before after.

(** The id of the marker built from [properties]. *)
Definition idOf (properties : Properties.t) : string :=
  default "" (Properties.id properties).

(** The point of the viewport at the pixel coordinates [c]. *)
Definition pixel (c : R * R) : Point := {| x := Num (fst c); y := Num (snd c) |}.

(** The array while the folding loop runs: the pairs made so far, then the
    coordinates still to fold. *)
Definition inProgress (done : list PSVMarker.Entry) (coords : list number)
    : list PSVMarker.Entry :=
  done ++ map PSVMarker.Coordinate coords.

(** The pair the loop makes of a coordinate and of the next one, if any. *)
Definition pairEntry (coord : number) (next : option number) : PSVMarker.Entry :=
  PSVMarker.Folded (PSVMarker.Coordinate coord)
    (match next with
     | Some n => PSVMarker.Coordinate n
     | None => PSVMarker.Undefined
     end).

(* ===================================================================== *)
(** * Part II: properties *)
(* ===================================================================== *)

(** ** Numbers *)

Lemma Rltb_true (a b : R) : a < b -> Rltb a b = true.
Proof. intros H. unfold Rltb. destruct (Rlt_dec a b); [reflexivity | contradiction]. Qed.

Lemma Rltb_false (a b : R) : ~ a < b -> Rltb a b = false.
Proof. intros H. unfold Rltb. destruct (Rlt_dec a b); [contradiction | reflexivity]. Qed.

Lemma Rleb_true (a b : R) : a <= b -> Rleb a b = true.
Proof. intros H. unfold Rleb. destruct (Rle_dec a b); [reflexivity | contradiction]. Qed.

Lemma Rleb_false (a b : R) : ~ a <= b -> Rleb a b = false.
Proof. intros H. unfold Rleb. destruct (Rle_dec a b); [contradiction | reflexivity]. Qed.

Lemma div_Num (u v : R) : v <> 0 -> JS.div (Num u) (Num v) = Num (u / v).
Proof. intros H. unfold JS.div. destruct (Req_dec_T v 0); [contradiction | reflexivity]. Qed.

Lemma round_Num_Z (u : R) (k : Z) : u = IZR k -> Math.round (Num u) = Num (IZR k).
Proof.
  intros ->. unfold Math.round, lift1. do 2 f_equal.
  apply Zfloor_eq. lra.
Qed.

Lemma sqrt_Num (u : R) : 0 <= u -> Math.sqrt (Num u) = Num (sqrt u).
Proof. intros H. unfold Math.sqrt. destruct (Rlt_dec u 0); [lra | reflexivity]. Qed.

Lemma acos_Num (u : R) : -1 <= u <= 1 -> Math.acos (Num u) = Num (acos u).
Proof.
  intros H. unfold Math.acos.
  destruct (Rlt_dec u (-1)); [lra|]. destruct (Rlt_dec 1 u); [lra | reflexivity].
Qed.

Lemma PI_bounds : 3 < PI <= 4.
Proof. split; [pose proof PI2_3_2; lra | apply PI_4]. Qed.

(** A run whose outcome is [Ok a] is the pair of its final state and [Ok a]. *)
Lemma run_ok {S A : Type} (c : Method.M S A) (this : S) (a : A) :
  snd (c this) = Ok a -> c this = (fst (c this), Ok a).
Proof. intros H. rewrite <- H. apply surjective_pairing. Qed.

(** A run of [bind] that ends normally is a normal run of its first part
    followed by a normal run of its second part. *)
Lemma bind_ok {S A B : Type} (c : Method.M S A) (k : A -> Method.M S B)
    (this this' : S) (b : B) :
  Method.bind c k this = (this', Ok b) ->
  exists mid a, c this = (mid, Ok a) /\ k a mid = (this', Ok b).
Proof.
  unfold Method.bind. destruct (c this) as [mid [a | e]]; intros H.
  - exists mid, a. split; [reflexivity | exact H].
  - discriminate H.
Qed.

Ltac js_simpl :=
  cbn [JS.mul JS.sub JS.add JS.neg lift2 lift1 JS.lt JS.le JS.gt JS.ge JS.compare].

Ltac js_norm := repeat first [ rewrite div_Num by lra | progress js_simpl ].

(** ** The data helper *)

Module DataHelperFacts.

Import PSVDataHelper.

(** *** Zoom level and field of view *)

(** Claim C9.  For every integer zoom level [L] between 0 and 100 and every
    configuration whose [minFov] and [maxFov] differ, converting [L] to a field
    of view and back gives [L]: [fovToZoomLevel (zoomLevelToFov L) = L]. *)
Theorem fovToZoomLevel_zoomLevelToFov (config : Config) (a b : R) (L : Z) :
  minFov config = Num a -> maxFov config = Num b -> a <> b ->
  (0 <= L <= 100)%Z ->
  fovToZoomLevel config (zoomLevelToFov config (Num (IZR L))) = Num (IZR L).
Proof.
  intros Hmin Hmax Hab HL.
  unfold fovToZoomLevel, zoomLevelToFov. rewrite Hmin, Hmax.
  rewrite (div_Num (IZR L) 100) by lra.
  js_simpl. rewrite div_Num by lra. js_simpl.
  rewrite (round_Num_Z _ (100 - L)).
  - js_simpl. f_equal. rewrite minus_IZR. lra.
  - rewrite minus_IZR. field. lra.
Qed.

Lemma fovToZoomLevel_zoomLevelToFov_witness :
  fovToZoomLevel Samples.plainConfig (zoomLevelToFov Samples.plainConfig (Num (IZR 40)))
  = Num (IZR 40).
Proof.
  apply (fovToZoomLevel_zoomLevelToFov Samples.plainConfig 30 90 40).
  - reflexivity.
  - reflexivity.
  - lra.
  - lia.
Defined.

(** *** Texture pixels and spherical coordinates *)

(** Claim C1.  For a panorama that is not a cubemap, whose crop rectangle lies
    inside the full image, and an integer pixel point [(px, py)] inside the crop
    rectangle, [textureCoordsToSphericalCoords] gives a position from which
    [sphericalCoordsToTextureCoords] gives back exactly [(px, py)]. *)
Theorem texture_roundtrip (prop : ViewerProp) (W H cw ch cx cy px py : Z) :
  isCubemap prop = false ->
  panoData prop = mkPanoData (IZR W) (IZR H) (IZR cw) (IZR ch) (IZR cx) (IZR cy) ->
  (0 <= cx /\ cx + cw <= W)%Z ->
  (0 <= cy /\ cy + ch <= H)%Z ->
  (0 <= px < cw)%Z ->
  (0 <= py < ch)%Z ->
  exists position,
    textureCoordsToSphericalCoords prop {| x := IZR px; y := IZR py |} = Ok position /\
    sphericalCoordsToTextureCoords prop position = Ok {| x := IZR px; y := IZR py |}.
Proof.
  intros Hcube Hpano Hx Hy Hpx Hpy.
  assert (HW : 0 < IZR W) by (apply IZR_lt; lia).
  assert (HH : 0 < IZR H) by (apply IZR_lt; lia).
  assert (HX0 : 0 <= IZR px + IZR cx) by (rewrite <- plus_IZR; apply IZR_le; lia).
  assert (HXW : IZR px + IZR cx < IZR W) by (rewrite <- plus_IZR; apply IZR_lt; lia).
  pose proof PI_RGT_0 as Hpi.
  unfold textureCoordsToSphericalCoords, sphericalCoordsToTextureCoords.
  rewrite Hcube, Hpano. cbn [panoData fullWidth fullHeight croppedX croppedY x y].
  unfold Math.PI. js_norm.
  eexists. split; [reflexivity|].
  cbn [longitude latitude].
  assert (Hy' : Math.round
                  (Num (IZR H / 2 - (PI / 2 - (IZR py + IZR cy) / IZR H * PI) / PI * IZR H))
                = Num (IZR (py + cy))).
  { apply round_Num_Z. rewrite plus_IZR. field. lra. }
  destruct (Rle_dec PI ((IZR px + IZR cx) / IZR W * PI * 2)) as [Hge | Hlt].
  - rewrite (Rleb_true _ _ Hge). js_simpl.
    rewrite Rltb_true.
    2:{ assert ((IZR px + IZR cx) / IZR W < 1).
        { apply Rmult_lt_reg_r with (r := IZR W); [lra|]. field_simplify; lra. }
        nra. }
    js_norm. rewrite Hy'.
    rewrite (round_Num_Z _ (px + cx)).
    + js_simpl. rewrite !plus_IZR. f_equal; f_equal; f_equal; lra.
    + rewrite plus_IZR. field. lra.
  - rewrite (Rleb_false _ _ Hlt). js_simpl.
    rewrite Rltb_false.
    2:{ assert (0 <= (IZR px + IZR cx) / IZR W).
        { apply Rmult_le_reg_r with (r := IZR W); [lra|]. field_simplify; lra. }
        nra. }
    js_norm. rewrite Hy'.
    rewrite (round_Num_Z _ (px + cx)).
    + js_simpl. rewrite !plus_IZR. f_equal; f_equal; f_equal; lra.
    + rewrite plus_IZR. field. lra.
Qed.

Lemma texture_roundtrip_witness :
  exists position,
    textureCoordsToSphericalCoords (Samples.withPano Samples.croppedPano 60 40 None)
      {| x := IZR 10; y := IZR 20 |} = Ok position /\
    sphericalCoordsToTextureCoords (Samples.withPano Samples.croppedPano 60 40 None) position
    = Ok {| x := IZR 10; y := IZR 20 |}.
Proof.
  apply (texture_roundtrip (Samples.withPano Samples.croppedPano 60 40 None)
           4000 2000 2000 1000 1000 500 10 20).
  - reflexivity.
  - reflexivity.
  - lia.
  - lia.
  - lia.
  - lia.
Defined.

(** *** Ranges *)

Lemma degToRad_radToDeg (a : R) :
  THREE.Math.degToRad (THREE.Math.radToDeg (Num a)) = Num (a * (180 / PI) * (PI / 180)).
Proof.
  pose proof PI_bounds.
  unfold THREE.Math.degToRad, THREE.Math.radToDeg, THREE.DEG2RAD, THREE.RAD2DEG, Math.PI.
  js_norm. reflexivity.
Qed.

(** A longitude between turn [k] and turn [k + 1] is brought back by [k]
    turns. *)
Lemma parseAngle_wrap (a : R) (k : Z) :
  IZR k * (2 * PI) <= a < (IZR k + 1) * (2 * PI) ->
  utils.parseAngle (Num a) false = Num (a - 2 * PI * IZR k).
Proof.
  intros Hk. pose proof PI_bounds. unfold utils.parseAngle.
  rewrite (Zfloor_eq k); [reflexivity|].
  split.
  - apply Rmult_le_reg_r with (r := 2 * PI); [lra|]. field_simplify; lra.
  - apply Rmult_lt_reg_r with (r := 2 * PI); [lra|]. field_simplify; lra.
Qed.

(** Claim C2.  With [longitudeRange = [-1, 1]], no latitude range and a
    horizontal field of view of 0.4 radians, a position of longitude 1.5 is
    clamped to the longitude 0.8 and the sides reached are exactly [right]. *)
Theorem applyRanges_longitude_example (config : Config) (prop : ViewerProp) (lat : number) :
  longitudeRange config = Some (Num (-1), Num 1) ->
  latitudeRange config = None ->
  hFov prop = THREE.Math.radToDeg (Num 0.4) ->
  applyRanges config prop {| longitude := Num 1.5; latitude := lat |} =
  {| rangedPosition := {| longitude := Num 0.8; latitude := lat |};
     sidesReached := ["right"%string] |}.
Proof.
  intros Hlong Hlat HhFov. pose proof PI_bounds as Hpi.
  unfold applyRanges. rewrite Hlong, Hlat.
  unfold applyLongitudeRange. rewrite HhFov, degToRad_radToDeg.
  cbn [fst snd longitude latitude]. js_norm.
  replace (0.4 * (180 / PI) * (PI / 180) / 2) with 0.2
    by (replace 0.4 with (4 / 10) by lra; replace 0.2 with (2 / 10) by lra; field; lra).
  rewrite (parseAngle_wrap _ (-1)) by lra.
  rewrite (parseAngle_wrap _ 0) by lra.
  js_norm.
  rewrite !Rltb_true by lra.
  cbn [andb].
  rewrite Rltb_false by lra.
  cbn [app]. do 3 f_equal. lra.
Qed.

Lemma applyRanges_longitude_example_witness :
  applyRanges Samples.rangeConfig
    (Samples.withPano Samples.croppedPano (THREE.Math.radToDeg (Num 0.4)) 40 None)
    {| longitude := Num 1.5; latitude := Num 0 |} =
  {| rangedPosition := {| longitude := Num 0.8; latitude := Num 0 |};
     sidesReached := ["right"%string] |}.
Proof.
  apply (applyRanges_longitude_example Samples.rangeConfig
           (Samples.withPano Samples.croppedPano (THREE.Math.radToDeg (Num 0.4)) 40 None)
           (Num 0)).
  - reflexivity.
  - reflexivity.
  - reflexivity.
Defined.

Lemma clamp_in_range (u lo hi : R) : lo <= hi -> lo <= utils.clamp u lo hi <= hi.
Proof.
  intros H. unfold utils.clamp.
  split; [apply Rmax_l|]. apply Rmax_lub; [exact H | apply Rmin_l].
Qed.

Lemma clamp_monotone (u v lo hi : R) :
  u <= v -> utils.clamp u lo hi <= utils.clamp v lo hi.
Proof.
  intros H. unfold utils.clamp.
  apply Rle_max_compat_l. apply Rle_min_compat_l. exact H.
Qed.

Lemma clamp_fixed (u lo hi : R) : lo <= u <= hi -> utils.clamp u lo hi = u.
Proof.
  intros [H1 H2]. unfold utils.clamp.
  rewrite Rmin_right by exact H2. apply Rmax_right. exact H1.
Qed.

(** Whatever the configured range and the field of view, the bounds used for
    the latitude are ordered and lie in [-PI/2, PI/2]. *)
Lemma latitudeBounds_ordered (prop : ViewerProp) (lo hi v : R) :
  vFov prop = Num v ->
  exists a b : R,
    latitudeBounds prop (Num lo, Num hi) = (Num a, Num b) /\
    - (PI / 2) <= a /\ a <= b /\ b <= PI / 2.
Proof.
  intros Hv. pose proof PI_bounds as Hpi.
  unfold latitudeBounds. rewrite Hv.
  unfold THREE.Math.degToRad, THREE.DEG2RAD, Math.PI, Math.min, Math.max.
  js_norm. cbn [fst snd]. js_norm. unfold utils.parseAngle.
  set (offset := v * (PI / 180) / 2).
  set (a := utils.clamp (Rmin (lo + offset) hi) (- (PI / 2)) (PI / 2)).
  exists a, (utils.clamp (Rmax (hi - offset) a) (- (PI / 2)) (PI / 2)).
  assert (Ha : - (PI / 2) <= a <= PI / 2) by (apply clamp_in_range; lra).
  split; [reflexivity|].
  split; [apply Ha|].
  split; [| apply clamp_in_range; lra].
  rewrite <- (clamp_fixed a (- (PI / 2)) (PI / 2) Ha) at 1.
  apply clamp_monotone, Rmax_r.
Qed.

(** Claim C4.  For every latitude range [[lo, hi]] with [lo <= hi] and every
    vertical field of view, the bounds the latitude is clamped to, after each
    side is moved inward by half the field of view, do not cross: the lower
    one is at most the upper one. *)
Theorem latitudeBounds_never_cross (prop : ViewerProp) (lo hi v : R) :
  vFov prop = Num v ->
  lo <= hi ->
  exists a b : R,
    latitudeBounds prop (Num lo, Num hi) = (Num a, Num b) /\ a <= b.
Proof.
  intros Hv _.
  destruct (latitudeBounds_ordered prop lo hi v Hv) as (a & b & Heq & _ & Hab & _).
  exists a, b. split; assumption.
Qed.

Lemma latitudeBounds_never_cross_witness :
  exists a b : R,
    latitudeBounds (Samples.withPano Samples.croppedPano 60 40 None) (Num (-1), Num 1)
    = (Num a, Num b) /\ a <= b.
Proof.
  apply (latitudeBounds_never_cross (Samples.withPano Samples.croppedPano 60 40 None)
           (-1) 1 40).
  - reflexivity.
  - lra.
Defined.

(** *** Vectors and spherical coordinates *)

Lemma sqrt_scale (c t : R) : 0 < c -> sqrt (c * c * (1 + t²)) = c * sqrt (1 + t²).
Proof.
  intros Hc. rewrite sqrt_mult_alt by nra.
  rewrite sqrt_square by lra. reflexivity.
Qed.

Lemma sqrt_1_sqr_pos (t : R) : 0 < sqrt (1 + t²).
Proof. apply sqrt_lt_R0. pose proof (Rle_0_sqr t). lra. Qed.

(** Polar decomposition: the angle [Ratan2 a c] and the radius
    [sqrt (a * a + c * c)] give back the point. *)
Lemma Ratan2_polar (a c : R) :
  sqrt (a * a + c * c) * sin (Math.Ratan2 a c) = a /\
  sqrt (a * a + c * c) * cos (Math.Ratan2 a c) = c.
Proof.
  unfold Math.Ratan2.
  destruct (Rlt_dec 0 c) as [Hc | Hc].
  - set (t := a / c).
    assert (Ht : a = c * t) by (unfold t; field; lra).
    assert (Hr : sqrt (a * a + c * c) = c * sqrt (1 + t²)).
    { rewrite <- sqrt_scale by exact Hc. f_equal. rewrite Ht at 1 2. unfold Rsqr. ring. }
    pose proof (sqrt_1_sqr_pos t) as Hs.
    rewrite Hr, sin_atan, cos_atan. clearbody t. subst a.
    split; field; lra.
  - destruct (Rlt_dec c 0) as [Hc' | Hc'].
    + set (t := a / c).
      assert (Ht : a = c * t) by (unfold t; field; lra).
      assert (Hr : sqrt (a * a + c * c) = - c * sqrt (1 + t²)).
      { rewrite <- sqrt_scale by lra. f_equal. rewrite Ht at 1 2. unfold Rsqr. ring. }
      pose proof (sqrt_1_sqr_pos t) as Hs.
      destruct (Rle_dec 0 a) as [Ha | Ha].
      * rewrite Hr, sin_plus, cos_plus, sin_PI, cos_PI, sin_atan, cos_atan.
        clearbody t. subst a. split; field; lra.
      * unfold Rminus.
        rewrite Hr, sin_plus, cos_plus, sin_neg, cos_neg, sin_PI, cos_PI, sin_atan, cos_atan.
        clearbody t. subst a. split; field; lra.
    + assert (c = 0) by lra. subst c.
      replace (a * a + 0 * 0) with (a * a) by ring.
      destruct (Rlt_dec 0 a) as [Ha | Ha].
      * rewrite sqrt_square by lra. rewrite sin_PI2, cos_PI2. lra.
      * destruct (Rlt_dec a 0) as [Ha' | Ha'].
        -- replace (a * a) with ((- a) * (- a)) by ring.
           rewrite sqrt_square by lra. rewrite sin_neg, cos_neg, sin_PI2, cos_PI2. lra.
        -- assert (a = 0) by lra. subst a.
           rewrite Rmult_0_l, sqrt_0, sin_0. lra.
Qed.


Lemma ratio_in_unit (a b c : R) :
  0 < a * a + b * b + c * c ->
  -1 <= b / sqrt (a * a + b * b + c * c) <= 1.
Proof.
  intros Hn. set (n := sqrt (a * a + b * b + c * c)).
  assert (Hn0 : 0 < n) by (apply sqrt_lt_R0; exact Hn).
  assert (Hnn : n * n = a * a + b * b + c * c) by (apply sqrt_sqrt; lra).
  assert (Hb : - n <= b <= n) by nra.
  split.
  - apply Rmult_le_reg_r with (r := n); [lra|]. unfold Rdiv. rewrite Rmult_assoc, Rinv_l; lra.
  - apply Rmult_le_reg_r with (r := n); [lra|]. unfold Rdiv. rewrite Rmult_assoc, Rinv_l; lra.
Qed.









End DataHelperFacts.

(** ** Markers *)

Module MarkerFacts.

Import PSVMarker.

Lemma MARKER_TYPES_all_complete (t : MARKER_TYPES.t) : In t MARKER_TYPES.all.
Proof. destruct t; simpl; tauto. Qed.

Lemma MARKER_TYPES_eqb_eq (a b : MARKER_TYPES.t) : MARKER_TYPES.eqb a b = true <-> a = b.
Proof. split; [destruct a, b; simpl; congruence | intros ->; destruct b; reflexivity]. Qed.

Lemma MARKER_TYPES_eqb_neq (a b : MARKER_TYPES.t) : a <> b -> MARKER_TYPES.eqb a b = false.
Proof.
  intros H. destruct (MARKER_TYPES.eqb a b) eqn:E; [|reflexivity].
  apply MARKER_TYPES_eqb_eq in E. contradiction.
Qed.

Lemma is_Some_false {A : Type} (o : option A) : o = None -> bool_decide (is_Some o) = false.
Proof. intros ->. reflexivity. Qed.

(** *** Creation *)


(** The guard of the constructor itself: a configuration whose [image] or
    [html] content is not empty and which has neither both pixel coordinates
    nor both spherical coordinates is refused before the marker is built. *)
Lemma constructor_guards_position (SPHERE_RADIUS : number) (prop : ViewerProp)
    (properties : Properties.t) :
  truthyString (Properties.image properties) = true
  \/ truthyString (Properties.html properties) = true ->
  lacksPosition properties ->
  exists message, constructor SPHERE_RADIUS prop properties = Throw (PSVError message).
Proof.
  intros Hcontent [Hxy Hll]. unfold constructor.
  destruct (negb (truthyString (Properties.id properties))); [eexists; reflexivity|].
  destruct (truthyString (Properties.image properties)
            && (negb (truthyNumber (Properties.width properties))
                || negb (truthyNumber (Properties.height properties))));
    [eexists; reflexivity|].
  assert (Hguard :
    (truthyString (Properties.image properties) || truthyString (Properties.html properties))
    && ((negb (bool_decide (is_Some (Properties.x properties)))
         || negb (bool_decide (is_Some (Properties.y properties))))
        && (negb (bool_decide (is_Some (Properties.latitude properties)))
            || negb (bool_decide (is_Some (Properties.longitude properties)))))
    = true).
  { apply andb_true_intro. split.
    - apply orb_true_iff. exact Hcontent.
    - apply andb_true_intro. split; apply orb_true_iff.
      + destruct Hxy as [H | H]; rewrite (is_Some_false _ H); auto.
      + destruct Hll as [H | H]; rewrite (is_Some_false _ H); auto. }
  rewrite Hguard. eexists. reflexivity.
Qed.






Section WithoutPosition.

Variable SPHERE_RADIUS : number.
Variable prop : ViewerProp.


End WithoutPosition.



(** The two refusals: that of the constructor for an html marker, that of
    [parseAngle] for a square. *)
Example html_without_position :
  constructor (Num 100) PhotoSphereViewer.initialProp Samples.htmlNoPosition
  = Throw (PSVError "missing marker position, latitude/longitude or x/y").
Proof. reflexivity. Qed.

Example square_without_position :
  constructor (Num 100) PhotoSphereViewer.initialProp Samples.squareNoPosition
  = Throw (PSVError utils.unknownAngle).
Proof. vm_compute. reflexivity. Qed.

(** *** Update: the type cannot change *)

(** With [allowNone], [getType] on properties that carry the content field of
    [t] either rejects them (several kinds) or answers [t]. *)
Lemma getType_of_present (properties : Properties.t) (t : MARKER_TYPES.t) :
  Properties.has t properties = true ->
  (exists message, getType properties true = Throw (PSVError message)) \/
  getType properties true = Ok (Some t).
Proof.
  intros Hhas. unfold getType.
  assert (Hin : In t (List.filter (fun type => Properties.has type properties)
                        MARKER_TYPES.all)).
  { apply filter_In. split; [apply MARKER_TYPES_all_complete | exact Hhas]. }
  destruct (List.filter _ MARKER_TYPES.all) as [| a [| b rest]].
  - destruct Hin.
  - right. destruct Hin as [-> | []]. reflexivity.
  - left. eexists. reflexivity.
Qed.

(** Claim C6.  For every marker and every update whose new properties carry
    the content field of a kind other than the marker's type, [update] throws a
    [PSVError] and leaves the marker as it was: configuration, type and
    computed properties are those of before the call. *)
Theorem update_rejects_type_change (SPHERE_RADIUS : number) (prop : ViewerProp)
    (this : Marker) (properties : Properties.t) (t : MARKER_TYPES.t) :
  Properties.has t properties = true ->
  t <> type this ->
  exists message,
    update SPHERE_RADIUS prop (NewProperties properties) this
    = (this, Throw (PSVError message)).
Proof.
  intros Hhas Hneq.
  unfold update, mergeProperties, Method.bind at 1 2.
  unfold Method.liftResult.
  destruct (getType_of_present properties t Hhas) as [[message ->] | ->].
  - exists message. reflexivity.
  - unfold Method.bind, Method.get, Method.throw. cbn.
    rewrite (MARKER_TYPES_eqb_neq _ _ Hneq). cbn.
    eexists. reflexivity.
Qed.

Lemma update_rejects_type_change_witness :
  exists message,
    update (Num 100) PhotoSphereViewer.initialProp
      (NewProperties Samples.htmlContent) Samples.polygonBehind
    = (Samples.polygonBehind, Throw (PSVError message)).
Proof.
  apply (update_rejects_type_change (Num 100) PhotoSphereViewer.initialProp
           Samples.polygonBehind Samples.htmlContent MARKER_TYPES.html).
  - reflexivity.
  - discriminate.
Defined.

(** *** Update: the visible flag *)

Lemma keepsVisible_ret {A : Type} (a : A) : keepsVisible (Method.ret a).
Proof. intros this. reflexivity. Qed.

Lemma keepsVisible_throw {A : Type} (e : exn) : keepsVisible (@Method.throw Marker A e).
Proof. intros this. reflexivity. Qed.

Lemma keepsVisible_get : keepsVisible (@Method.get Marker).
Proof. intros this. reflexivity. Qed.

Lemma keepsVisible_liftResult {A : Type} (r : result A) :
  keepsVisible (@Method.liftResult Marker A r).
Proof. intros this. reflexivity. Qed.

Lemma keepsVisible_modifyProps (f : Props -> Props) : keepsVisible (modifyProps f).
Proof. intros this. reflexivity. Qed.

Lemma keepsVisible_setConfig (f : Marker -> Properties.t) :
  keepsVisible (Method.modify (fun this => setConfig (f this) this)).
Proof. intros this. reflexivity. Qed.

Lemma keepsVisible_bind {A B : Type} (c : M A) (k : A -> M B) :
  keepsVisible c -> (forall a, keepsVisible (k a)) -> keepsVisible (Method.bind c k).
Proof.
  intros Hc Hk this. unfold Method.bind.
  specialize (Hc this). destruct (c this) as [this' [a | e]]; cbn in *.
  - rewrite Hk. exact Hc.
  - exact Hc.
Qed.

Ltac keeps_visible :=
  repeat first
    [ apply keepsVisible_ret
    | apply keepsVisible_throw
    | apply keepsVisible_get
    | apply keepsVisible_liftResult
    | apply keepsVisible_modifyProps
    | apply keepsVisible_setConfig
    | apply keepsVisible_bind; [| intros ?]
    | match goal with
      | |- keepsVisible (if ?b then _ else _) => destruct b
      | |- keepsVisible (match ?x with _ => _ end) => destruct x
      end ].

Section Visible.

Variable SPHERE_RADIUS : number.
Variable prop : ViewerProp.

Lemma keepsVisible_updateNormal : keepsVisible (__updateNormal SPHERE_RADIUS prop).
Proof. unfold __updateNormal. keeps_visible. Qed.

Lemma keepsVisible_updateSvg : keepsVisible (__updateSvg SPHERE_RADIUS prop).
Proof. unfold __updateSvg. keeps_visible. Qed.

Lemma keepsVisible_updatePoly : keepsVisible (__updatePoly SPHERE_RADIUS prop).
Proof. unfold __updatePoly. keeps_visible. Qed.

(** The first block of [update], when it ends normally on new properties,
    leaves [visible] set from them. *)
Lemma mergeProperties_visible (properties : Properties.t) (this this' : Marker) :
  mergeProperties (NewProperties properties) this = (this', Ok tt) ->
  visible this' = visibleNotFalse properties.
Proof.
  unfold mergeProperties, Method.bind, Method.liftResult, Method.get, Method.modify,
    Method.throw, Method.ret.
  destruct (getType properties true) as [[t |] | e]; cbn.
  - destruct (negb (MARKER_TYPES.eqb t (type this))); cbn; intros H; inversion H.
    reflexivity.
  - intros H; inversion H. reflexivity.
  - intros H; inversion H.
Qed.

(** What follows the first block of [update] never writes [visible]. *)
Lemma update_split (arg : UpdateArg) (this this' : Marker) (r : result unit) :
  update SPHERE_RADIUS prop arg this = (this', r) ->
  (exists e, r = Throw e /\ mergeProperties arg this = (this', Throw e)) \/
  (exists this1, mergeProperties arg this = (this1, Ok tt) /\ visible this' = visible this1).
Proof.
  unfold update. unfold Method.bind at 1.
  destruct (mergeProperties arg this) as [this1 [[] | e]] eqn:Hmerge.
  - intros H. right. exists this1. split; [reflexivity|].
    match type of H with ?c this1 = _ => assert (Hk : keepsVisible c) end.
    { keeps_visible. }
    specialize (Hk this1). rewrite H in Hk. exact Hk.
  - intros H. inversion H. subst. left. exists e. split; reflexivity.
Qed.

(** Called with nothing or with the marker's own configuration, [update]
    leaves [visible] as it was. *)
Lemma update_without_properties_keeps_visible (arg : UpdateArg) (this : Marker) :
  arg = NoProperties \/ arg = OwnConfig ->
  visible (fst (update SPHERE_RADIUS prop arg this)) = visible this.
Proof.
  intros Harg.
  destruct (update SPHERE_RADIUS prop arg this) as [this' r] eqn:Hupdate.
  destruct (update_split _ _ _ _ Hupdate) as [(e & _ & Hmerge) | (this1 & Hmerge & Hv)];
    destruct Harg as [-> | ->]; cbn in Hmerge; inversion Hmerge; subst; cbn; auto.
Qed.

End Visible.

(** Claim C10, as the code has it.  After every successful update given a
    properties object other than the marker's own configuration, and which does
    not set [visible] to [false], the marker's [visible] flag is true, whatever
    it was before. *)
Theorem update_shows_marker (SPHERE_RADIUS : number) (prop : ViewerProp)
    (this this' : Marker) (properties : Properties.t) :
  update SPHERE_RADIUS prop (NewProperties properties) this = (this', Ok tt) ->
  Properties.visible properties <> Some false ->
  visible this' = true.
Proof.
  intros Hupdate Hvisible.
  destruct (update_split _ _ _ _ _ _ Hupdate) as [(e & He & _) | (this1 & Hmerge & ->)].
  - discriminate He.
  - rewrite (mergeProperties_visible _ _ _ Hmerge).
    unfold visibleNotFalse. destruct (Properties.visible properties) as [[|] |]; congruence.
Qed.

Lemma update_shows_marker_witness :
  exists marker,
    constructor (Num 100) PhotoSphereViewer.initialProp Samples.htmlMarker = Ok marker /\
    visible (fst (update (Num 100) PhotoSphereViewer.initialProp
                    (NewProperties Samples.htmlContent) (setVisible false marker))) = true.
Proof.
  eexists. split; [vm_compute; reflexivity|].
  match goal with
  | |- visible (fst (update ?r ?p ?a ?m)) = true =>
      refine (update_shows_marker r p m (fst (update r p a m)) Samples.htmlContent
                (run_ok (update r p a) m tt _) _)
  end.
  - vm_compute. reflexivity.
  - discriminate.
Defined.

(** A marker is created, hidden, and updated with its own configuration
    object: the update succeeds and the marker stays hidden. *)
Lemma own_config_run :
  exists marker,
    let hidden := setVisible false marker in
    let run := update (Num 100) PhotoSphereViewer.initialProp OwnConfig hidden in
    constructor (Num 100) PhotoSphereViewer.initialProp Samples.htmlMarker = Ok marker /\
    Properties.visible (config hidden) = None /\
    snd run = Ok tt /\
    visible (fst run) = false.
Proof.
  eexists. cbv zeta. split; [vm_compute; reflexivity|].
  split; [reflexivity|].
  split; [vm_compute; reflexivity|].
  rewrite update_without_properties_keeps_visible by (right; reflexivity).
  reflexivity.
Qed.

(** Claim C10 as stated fails: an update given the marker's own configuration
    object, which does not set [visible] to [false], leaves a hidden marker
    hidden. *)
Lemma update_own_config_stays_hidden :
  ~ (forall (SPHERE_RADIUS : number) (prop : ViewerProp) (this this' : Marker)
            (arg : UpdateArg) (properties : Properties.t),
       givenProperties this arg = Some properties ->
       Properties.visible properties <> Some false ->
       update SPHERE_RADIUS prop arg this = (this', Ok tt) ->
       visible this' = true).
Proof.
  intros H.
  destruct own_config_run as (marker & _ & Hcv & Hok & Hvis).
  set (hidden := setVisible false marker) in *.
  set (run := update (Num 100) PhotoSphereViewer.initialProp OwnConfig hidden) in *.
  assert (Htrue : visible (fst run) = true).
  { apply (H (Num 100) PhotoSphereViewer.initialProp hidden (fst run)
             OwnConfig (config hidden) eq_refl).
    - rewrite Hcv. discriminate.
    - apply run_ok. exact Hok. }
  congruence.
Qed.

End MarkerFacts.

(** ** Polygons behind the camera *)

Module HUDFacts.

Import PSVHUD.

Lemma nonPositive_not_gt (n : number) : nonPositive n -> JS.gt n (Num 0) = false.
Proof.
  destruct n as [d |]; cbn; [| tauto].
  intros H. apply Rltb_false. lra.
Qed.

Lemma allInvisible_map (vectors : list THREE.Vector3) :
  allInvisible (map (fun v => mkPos3D v false) vectors).
Proof. apply Forall_map, Forall_forall. intros; reflexivity. Qed.

Lemma pairsWith_invisible (pos : Pos3D) (i : nat) (ns : list (option Pos3D)) :
  Forall (fun n => exists p, n = Some p /\ visible p = false) ns ->
  pairsWith pos i ns = Ok [].
Proof.
  induction 1 as [| n ns (p & -> & Hp) _ IH]; cbn; [reflexivity|].
  rewrite IH, Hp. reflexivity.
Qed.

(** In a sequence that is not empty, both neighbours of a vertex exist. *)
Lemma neighbours_invisible (positions3D : list Pos3D) (i : nat) :
  allInvisible positions3D ->
  (i < List.length positions3D)%nat ->
  Forall (fun n => exists p, n = Some p /\ visible p = false) (neighbours positions3D i).
Proof.
  intros Hall Hi.
  assert (Hget : forall j, (j < List.length positions3D)%nat ->
                 exists p, positions3D !! j = Some p /\ visible p = false).
  { intros j Hj. destruct (lookup_lt_is_Some_2 positions3D j Hj) as [p Hp].
    exists p. split; [exact Hp|]. exact (proj1 (Forall_lookup _ _) Hall j p Hp). }
  unfold neighbours. repeat constructor.
  - destruct (Nat.eqb i 0); apply Hget; lia.
  - destruct (Nat.eqb_spec i (List.length positions3D - 1)); apply Hget; lia.
Qed.

Lemma collectPairs_invisible (positions3D rest : list Pos3D) (i : nat) :
  allInvisible positions3D ->
  rest = drop i positions3D ->
  collectPairs positions3D i rest = Ok [].
Proof.
  intros Hall. revert i.
  induction rest as [| pos rest IH]; intros i Hrest; cbn [collectPairs]; [reflexivity|].
  assert (Hi : (i < List.length positions3D)%nat).
  { destruct (Nat.lt_ge_cases i (List.length positions3D)) as [H | H]; [exact H|].
    rewrite drop_ge in Hrest by exact H. discriminate Hrest. }
  assert (Hpos : visible pos = false).
  { apply (proj1 (Forall_lookup _ _) Hall i pos).
    rewrite <- (Nat.add_0_r i), <- lookup_drop, <- Hrest. reflexivity. }
  rewrite Hpos, (pairsWith_invisible _ _ _ (neighbours_invisible _ _ Hall Hi)).
  rewrite (IH (S i)); [reflexivity|].
  replace (S i) with (i + 1)%nat by lia. rewrite <- drop_drop, <- Hrest. reflexivity.
Qed.

Lemma toBeComputed_invisible (positions3D : list Pos3D) :
  allInvisible positions3D -> toBeComputed positions3D = Ok [].
Proof. intros Hall. apply collectPairs_invisible; [exact Hall | reflexivity]. Qed.

Lemma filter_invisible (positions3D : list Pos3D) :
  allInvisible positions3D ->
  List.filter (fun pos => visible pos) positions3D = [].
Proof.
  induction 1 as [| pos l Hpos _ IH]; cbn; [reflexivity|]. rewrite Hpos. exact IH.
Qed.

Section Clipping.

Variable SPHERE_RADIUS : number.
Variable prop : ViewerProp.
Variable project : THREE.Vector3 -> THREE.Vector3.
Variable measure : PSVMarker.Marker -> Size.

Lemma tagVisible_behind (d : THREE.Vector3) (vectors : list THREE.Vector3) :
  direction prop = Some d ->
  Forall (fun v => nonPositive (THREE.dot v d)) vectors ->
  tagVisible prop vectors = Ok (map (fun v => mkPos3D v false) vectors).
Proof.
  intros Hd Hall. unfold tagVisible. rewrite Hd. cbv beta iota.
  induction Hall as [| v vectors Hv _ IH]; cbn [PSVMarker.mapResult map]; [reflexivity|].
  rewrite IH, (nonPositive_not_gt _ Hv). reflexivity.
Qed.

(** Claim C7.  For every polygon marker all of whose vertices have a
    non-positive dot product with the camera direction, the visibility pass
    finds no pair to compute (no intermediary point is made), gets no position,
    and ends normally with the marker not frame-visible: the element loses the
    class [psv-marker--visible] and nothing else of the marker changes. *)
Theorem polygon_behind_camera (marker : PSVMarker.Marker) (vectors : list THREE.Vector3)
    (d : THREE.Vector3) :
  PSVMarker.isPolygon marker = true ->
  PSVMarker.positions3D (PSVMarker.props marker) = Some vectors ->
  direction prop = Some d ->
  Forall (fun v => nonPositive (THREE.dot v d)) vectors ->
  (exists positions3D,
     tagVisible prop vectors = Ok positions3D /\ toBeComputed positions3D = Ok []) /\
  __getPolyPositions SPHERE_RADIUS prop project marker = Ok [] /\
  renderMarker SPHERE_RADIUS prop project measure marker
  = (PSVMarker.setEl (PSVMarker.mkElement false (PSVMarker.points (PSVMarker.el marker)))
                     marker,
     Ok false).
Proof.
  intros Hpolygon Hvectors Hd Hbehind.
  pose proof (tagVisible_behind d vectors Hd Hbehind) as Htag.
  pose proof (toBeComputed_invisible _ (allInvisible_map vectors)) as Hpairs.
  assert (Hpositions : __getPolyPositions SPHERE_RADIUS prop project marker = Ok []).
  { unfold __getPolyPositions. rewrite Hvectors, Htag, Hpairs. cbn.
    rewrite (filter_invisible _ (allInvisible_map vectors)). reflexivity. }
  split; [eexists; split; eassumption|]. split; [exact Hpositions|].
  unfold renderMarker, Method.bind at 1, Method.get.
  unfold PSVMarker.isPoly. rewrite Hpolygon. cbn [orb].
  destruct (PSVMarker.visible marker); cbn [andb].
  - unfold Method.bind at 2 3, Method.liftResult. rewrite Hpositions.
    reflexivity.
  - reflexivity.
Qed.

End Clipping.

Lemma polygon_behind_camera_witness :
  __getPolyPositions (Num 100)
    (Samples.withPano Samples.croppedPano 60 40 (Some Samples.alongZ))
    (fun v => v) Samples.polygonBehind
  = Ok [].
Proof.
  refine (proj1 (proj2
    (polygon_behind_camera (Num 100)
       (Samples.withPano Samples.croppedPano 60 40 (Some Samples.alongZ))
       (fun v => v) (fun _ => mkSize (Num 0) (Num 0))
       Samples.polygonBehind
       [THREE.mkVector3 (Num 0) (Num 0) (Num (-100));
        THREE.mkVector3 (Num 10) (Num 0) (Num (-100));
        THREE.mkVector3 (Num 0) (Num 10) (Num (-100))]
       Samples.alongZ _ _ _ _))).
  - reflexivity.
  - reflexivity.
  - reflexivity.
  - repeat constructor; cbn; lra.
Defined.

End HUDFacts.

(** ** Loading a panorama *)

Module ViewerFacts.

Import PhotoSphereViewer.

Lemma setPanorama_refused (this : Viewer) (l : Loading) (path : string)
    (positionArg : PositionArg) (transitionArg : bool) :
  loadingPromise (prop this) = Some l ->
  setPanorama path positionArg transitionArg this = (this, Throw LoadingInProgress).
Proof.
  intros H. unfold setPanorama, Method.bind, Method.get, Method.throw.
  rewrite H. reflexivity.
Qed.

Lemma settle_clears (outcome : LoadOutcome) (this : Viewer) :
  loadingPromise (prop (settle outcome this)) = None.
Proof.
  unfold settle. destruct (loadingPromise (prop this)) eqn:H; [reflexivity | exact H].
Qed.

Lemma settle_keeps_loads (outcome : LoadOutcome) (this : Viewer) :
  loadsStarted (settle outcome this) = loadsStarted this.
Proof.
  unfold settle. destruct (loadingPromise (prop this)) as [loading |]; [| reflexivity].
  destruct outcome; [| reflexivity].
  unfold Method.bind, showLoader, setTexture, rotate, Method.modify, Method.ret,
    Method.get, Method.liftResult.
  destruct (loadingWithTransition loading); cbn;
    destruct (loadingPosition loading); cbn; try reflexivity;
    destruct (isCubemap (prop this)); cbn; try reflexivity;
    match goal with
    | |- context [PSVDataHelper.cleanPosition ?p ?e] =>
        destruct (PSVDataHelper.cleanPosition p e); reflexivity
    end.
Qed.

(** While nothing is loading, a call with no position starts a load and
    returns its promise. *)
Lemma setPanorama_accepted (this : Viewer) (path : string) (transitionArg : bool) :
  loadingPromise (prop this) = None ->
  exists this' loading,
    setPanorama path NoPosition transitionArg this = (this', Ok loading) /\
    loadingPromise (prop this') = Some loading /\
    loadingPath loading = path /\
    loadsStarted this' = loadsStarted this ++ [path].
Proof.
  intros H. unfold setPanorama, Method.bind at 1, Method.get. rewrite H.
  cbn.
  destruct (negb transitionArg || negb (bool_decide (is_Some (transition (config this))))
            || negb (ready (prop this))); cbn.
  - do 2 eexists. repeat split; reflexivity.
  - destruct (transition (config this)) as [[[|]] |]; cbn;
      do 2 eexists; repeat split; reflexivity.
Qed.

(** What [cleanPosition] throws: the refusal of pixels on a cubemap, or that of
    an angle that is absent. *)
Lemma cleanPosition_throws (p : ViewerProp) (pos : ExtendedPosition) (e : exn) :
  PSVDataHelper.cleanPosition p pos = Throw e ->
  e = PSVError "Unable to use texture coords with cubemap." \/
  e = PSVError utils.unknownAngle.
Proof.
  unfold PSVDataHelper.cleanPosition, PSVDataHelper.textureCoordsToSphericalCoords,
    utils.parseAngleValue.
  destruct (ep_x pos), (ep_y pos), (isCubemap p), (ep_longitude pos), (ep_latitude pos);
    intros H; inversion H; auto.
Qed.

(** Whatever its arguments, a call made while nothing is loading does not fail
    with the concurrency error. *)
Lemma setPanorama_not_refused (this : Viewer) (path : string)
    (positionArg : PositionArg) (transitionArg : bool) :
  loadingPromise (prop this) = None ->
  snd (setPanorama path positionArg transitionArg this) <> Throw LoadingInProgress.
Proof.
  intros H. unfold setPanorama, Method.bind at 1, Method.get. rewrite H.
  assert (Hload : forall (c : option Position) (w : bool) (st : Viewer),
            snd ((hideError ;; setConfigPanorama path ;;
                  this0 <- get ;;
                  (let loading :=
                     if negb w
                        || negb (bool_decide (is_Some (transition (config this0))))
                        || negb (ready (prop this0))
                     then mkLoading path c false
                     else mkLoading path c true in
                   (if loadingWithTransition loading then
                      match transition (config this0) with
                      | Some t => if loader t then showLoader true else ret tt
                      | None => ret tt
                      end
                    else showLoader true ;; showRenderer false) ;;
                   loadTexture path ;;
                   modify (setProp (setLoadingPromise (Some loading))) ;;
                   ret loading)) st) <> Throw LoadingInProgress).
  { intros c w st. cbn.
    destruct (negb w || negb (bool_decide (is_Some (transition (config st))))
              || negb (ready (prop st))); cbn; [discriminate|].
    destruct (transition (config st)) as [[[|]] |]; cbn; discriminate. }
  destruct positionArg as [| pos | flag]; cbn [Method.bind Method.ret].
  - apply Hload.
  - unfold Method.bind at 1 2, Method.liftResult.
    destruct (PSVDataHelper.cleanPosition (prop this) pos) as [c | e] eqn:Hc.
    + apply Hload.
    + cbn. destruct (cleanPosition_throws _ _ _ Hc) as [He | He]; rewrite He; discriminate.
  - apply Hload.
Qed.

(** Claim C8.  In every state where a load started by [setPanorama] is still
    outstanding, a call to [setPanorama] throws the error "Loading already in
    progress" and changes nothing: no load is started.  Once the outstanding
    load has settled, whether it succeeded or failed, no load is outstanding:
    a call is no longer refused with that error, and a call with no position
    starts a new load and returns its promise. *)
Theorem setPanorama_concurrency (this : Viewer) (l : Loading) (path : string)
    (positionArg : PositionArg) (transitionArg : bool) :
  loadingPromise (prop this) = Some l ->
  setPanorama path positionArg transitionArg this = (this, Throw LoadingInProgress) /\
  forall (outcome : LoadOutcome) (path' : string) (positionArg' : PositionArg)
         (transition' : bool),
    loadingPromise (prop (settle outcome this)) = None /\
    snd (setPanorama path' positionArg' transition' (settle outcome this))
    <> Throw LoadingInProgress /\
    exists this' loading,
      setPanorama path' NoPosition transition' (settle outcome this) = (this', Ok loading) /\
      loadingPromise (prop this') = Some loading /\
      loadingPath loading = path' /\
      loadsStarted this' = loadsStarted this ++ [path'].
Proof.
  intros H. split; [exact (setPanorama_refused this l path positionArg transitionArg H)|].
  intros outcome path' positionArg' transition'.
  split; [apply settle_clears|].
  split; [apply setPanorama_not_refused, settle_clears|].
  destruct (setPanorama_accepted (settle outcome this) path' transition'
              (settle_clears outcome this)) as (this' & loading & Hrun & Hl & Hp & Hloads).
  exists this', loading. rewrite settle_keeps_loads in Hloads. auto.
Qed.

Lemma setPanorama_concurrency_witness :
  setPanorama "b.jpg" NoPosition false
    (fst (setPanorama "a.jpg" NoPosition false (initial Samples.plainConfig)))
  = (fst (setPanorama "a.jpg" NoPosition false (initial Samples.plainConfig)),
     Throw LoadingInProgress).
Proof.
  refine (proj1 (setPanorama_concurrency
                   (fst (setPanorama "a.jpg" NoPosition false (initial Samples.plainConfig)))
                   (mkLoading "a.jpg" None false) "b.jpg" NoPosition false _)).
  vm_compute. reflexivity.
Defined.

End ViewerFacts.

(** ** More on the conversions *)

Module ConversionFacts.

Import PSVDataHelper.
Import DataHelperFacts.

(** *** Zoom level and field of view *)

Lemma round_Num (u : R) :
  exists k : Z, Math.round (Num u) = Num (IZR k) /\ IZR k - 1 / 2 <= u < IZR k + 1 / 2.
Proof.
  exists (Zfloor (u + / 2)). split; [reflexivity|].
  pose proof (Zfloor_bound (u + / 2)). lra.
Qed.

(** Property X1.  With [minFov < maxFov], a field of view between the two is
    converted to a whole zoom level between 0 and 100. *)
Theorem fovToZoomLevel_in_range (config : Config) (a b f : R) :
  minFov config = Num a -> maxFov config = Num b -> a < b -> a <= f <= b ->
  exists k : Z, fovToZoomLevel config (Num f) = Num (IZR k) /\ (0 <= k <= 100)%Z.
Proof.
  intros Hmin Hmax Hab Hf. unfold fovToZoomLevel. rewrite Hmin, Hmax. js_norm.
  destruct (round_Num ((f - a) / (b - a) * 100)) as (k & -> & Hk).
  js_norm. exists (100 - k)%Z. split.
  - rewrite minus_IZR. f_equal. lra.
  - assert (Ht : 0 <= (f - a) / (b - a) <= 1).
    { split.
      - apply Rmult_le_reg_r with (r := b - a); [lra|]. field_simplify; lra.
      - apply Rmult_le_reg_r with (r := b - a); [lra|]. field_simplify; lra. }
    assert (H1 : -1 < IZR k) by lra.
    assert (H2 : IZR k < 101) by lra.
    apply lt_IZR in H1, H2. lia.
Qed.

(** Property X2.  With [minFov] and [maxFov] different, converting a field of
    view to a zoom level and back moves it by at most half a zoom step, that
    is by at most [|maxFov - minFov| / 200]. *)
Theorem zoomLevelToFov_fovToZoomLevel_close (config : Config) (a b f : R) :
  minFov config = Num a -> maxFov config = Num b -> a <> b ->
  exists f' : R,
    zoomLevelToFov config (fovToZoomLevel config (Num f)) = Num f' /\
    Rabs (f' - f) <= Rabs (b - a) / 200.
Proof.
  intros Hmin Hmax Hab. unfold fovToZoomLevel, zoomLevelToFov. rewrite Hmin, Hmax. js_norm.
  destruct (round_Num ((f - a) / (b - a) * 100)) as (k & -> & Hk).
  js_norm. eexists. split; [reflexivity|].
  set (t := (f - a) / (b - a) * 100) in *.
  replace (b + (IZR k - 2 * (IZR k - 50)) / 100 * (a - b) - f)
    with ((IZR k - t) / 100 * (b - a)) by (unfold t; field; lra).
  rewrite Rabs_mult.
  assert (Rabs ((IZR k - t) / 100) <= 1 / 200).
  { apply Rabs_le. lra. }
  pose proof (Rabs_pos (b - a)). nra.
Qed.

(** *** Horizontal field of view *)

(** Property X3.  For a vertical field of view strictly between 0 and 180
    degrees and a positive aspect ratio, the horizontal field of view is
    strictly between 0 and 180 degrees; it is at most the vertical one when
    the viewport is not wider than it is high, and at least the vertical one
    when the viewport is not higher than it is wide. *)
Theorem vFovToHFov_in_range (prop : ViewerProp) (r v : R) :
  aspect prop = Num r -> 0 < r -> 0 < v < 180 ->
  exists h : R,
    vFovToHFov prop (Num v) = Num h /\ 0 < h < 180 /\
    (r <= 1 -> h <= v) /\ (1 <= r -> v <= h).
Proof.
  intros Hr Hr0 Hv. pose proof PI_bounds as Hpi.
  unfold vFovToHFov, THREE.Math.radToDeg, THREE.Math.degToRad, THREE.DEG2RAD, THREE.RAD2DEG,
    Math.PI, Math.atan, Math.tan.
  rewrite Hr. js_norm.
  set (x := v * (PI / 180) / 2).
  assert (Hx : 0 < x < PI / 2) by (unfold x; split; nra).
  assert (Ht : 0 < tan x) by (apply tan_gt_0; lra).
  assert (Hatan : atan (tan x) = x) by (apply atan_tan; lra).
  pose proof (atan_bound (tan x * r)) as Hb.
  assert (H0 : 0 < atan (tan x * r)).
  { rewrite <- atan_0. apply atan_increasing. nra. }
  eexists. split; [reflexivity|].
  assert (Hv2 : v = 2 * x * (180 / PI)) by (unfold x; field; lra).
  assert (Hpos : 0 < 180 / PI) by (apply Rdiv_lt_0_compat; lra).
  split; [split|split].
  - nra.
  - replace 180 with (2 * (PI / 2) * (180 / PI)) at 2 by (field; lra).
    apply Rmult_lt_compat_r; [exact Hpos | lra].
  - intros Hle. rewrite Hv2.
    apply Rmult_le_compat_r; [lra|].
    destruct (Req_dec r 1) as [-> | Hne].
    + rewrite Rmult_1_r, Hatan. lra.
    + assert (atan (tan x * r) < atan (tan x)) by (apply atan_increasing; nra). lra.
  - intros Hge. rewrite Hv2.
    apply Rmult_le_compat_r; [lra|].
    destruct (Req_dec r 1) as [-> | Hne].
    + rewrite Rmult_1_r, Hatan. lra.
    + assert (atan (tan x) < atan (tan x * r)) by (apply atan_increasing; nra). lra.
Qed.

(** *** Texture pixels *)

(** Property X4.  On a panorama that is not a cubemap, a point whose pixel,
    the crop offsets added, lies in the full image is converted to a longitude
    in [0, 2 PI) and a latitude in [-PI/2, PI/2]. *)
Theorem textureCoordsToSphericalCoords_in_range (prop : ViewerProp)
    (W H cw ch cx cy px py : R) :
  isCubemap prop = false ->
  panoData prop = mkPanoData (Num W) (Num H) (Num cw) (Num ch) (Num cx) (Num cy) ->
  0 < W -> 0 < H ->
  0 <= px + cx <= W ->
  0 <= py + cy <= H ->
  exists long lat : R,
    textureCoordsToSphericalCoords prop {| x := Num px; y := Num py |}
    = Ok {| longitude := Num long; latitude := Num lat |} /\
    0 <= long < 2 * PI /\ - (PI / 2) <= lat <= PI / 2.
Proof.
  intros Hcube Hpano HW HH Hx Hy. pose proof PI_bounds as Hpi.
  unfold textureCoordsToSphericalCoords.
  rewrite Hcube, Hpano. cbn [panoData fullWidth fullHeight croppedX croppedY x y].
  unfold Math.PI. js_norm.
  assert (Hfx : 0 <= (px + cx) / W <= 1).
  { split.
    - apply Rmult_le_reg_r with (r := W); [lra|]. field_simplify; lra.
    - apply Rmult_le_reg_r with (r := W); [lra|]. field_simplify; lra. }
  assert (Hfy : 0 <= (py + cy) / H <= 1).
  { split.
    - apply Rmult_le_reg_r with (r := H); [lra|]. field_simplify; lra.
    - apply Rmult_le_reg_r with (r := H); [lra|]. field_simplify; lra. }
  destruct (Rle_dec PI ((px + cx) / W * PI * 2)) as [Hge | Hlt].
  - rewrite (Rleb_true _ _ Hge). js_norm.
    do 2 eexists. split; [reflexivity|]. split; nra.
  - rewrite (Rleb_false _ _ Hlt). js_norm.
    do 2 eexists. split; [reflexivity|]. split; nra.
Qed.

(** *** Vectors *)

(** Property X5.  The dot product of the vectors of two positions, which the
    visibility tests compare with 0, is the square of the radius times the
    cosine of the angle between the two positions (the spherical law of
    cosines). *)
Theorem dot_of_positions (SPHERE_RADIUS long1 lat1 long2 lat2 : R) :
  THREE.dot
    (sphericalCoordsToVector3 (Num SPHERE_RADIUS)
       {| longitude := Num long1; latitude := Num lat1 |})
    (sphericalCoordsToVector3 (Num SPHERE_RADIUS)
       {| longitude := Num long2; latitude := Num lat2 |})
  = Num (SPHERE_RADIUS * SPHERE_RADIUS
         * (cos lat1 * cos lat2 * cos (long1 - long2) + sin lat1 * sin lat2)).
Proof.
  unfold sphericalCoordsToVector3, THREE.dot, Math.cos, Math.sin.
  cbn [longitude latitude THREE.x THREE.y THREE.z]. js_norm.
  f_equal. rewrite cos_minus. ring.
Qed.

Lemma Ratan2_bound (v u : R) : - PI < Math.Ratan2 v u <= PI.
Proof.
  pose proof PI_bounds as Hpi. unfold Math.Ratan2.
  pose proof (atan_bound (v / u)) as Hb.
  destruct (Rlt_dec 0 u) as [Hu | Hu]; [lra|].
  destruct (Rlt_dec u 0) as [Hu' | Hu'].
  - destruct (Rle_dec 0 v) as [Hv | Hv].
    + assert (atan (v / u) <= 0).
      { destruct (Req_dec v 0) as [-> | Hne].
        - unfold Rdiv. rewrite Rmult_0_l, atan_0. lra.
        - rewrite <- atan_0. left. apply atan_increasing.
          unfold Rdiv. assert (/ u < 0) by (apply Rinv_lt_0_compat; exact Hu'). nra. }
      lra.
    + assert (0 < atan (v / u)).
      { rewrite <- atan_0. apply atan_increasing.
        unfold Rdiv. assert (/ u < 0) by (apply Rinv_lt_0_compat; exact Hu'). nra. }
      lra.
  - destruct (Rlt_dec 0 v); [lra|]. destruct (Rlt_dec v 0); lra.
Qed.

(** Property X6.  A vector that is not null is converted to a longitude in
    (0, 2 PI] and a latitude in [-PI/2, PI/2].  The longitude 0 is never
    returned: a vector of the half-plane x = 0, z > 0 gets the longitude
    2 PI. *)
Theorem vector3ToSphericalCoords_in_range (a b c : R) :
  0 < a * a + b * b + c * c ->
  exists long lat : R,
    vector3ToSphericalCoords (THREE.mkVector3 (Num a) (Num b) (Num c))
    = {| longitude := Num long; latitude := Num lat |} /\
    0 < long <= 2 * PI /\ - (PI / 2) <= lat <= PI / 2 /\
    (a = 0 -> 0 < c -> long = 2 * PI).
Proof.
  intros Hn. pose proof PI_bounds as Hpi.
  unfold vector3ToSphericalCoords. cbn [THREE.x THREE.y THREE.z]. js_norm.
  rewrite sqrt_Num by lra.
  assert (Hs : 0 < sqrt (a * a + b * b + c * c)) by (apply sqrt_lt_R0; exact Hn).
  js_norm. rewrite acos_Num by (apply ratio_in_unit; exact Hn).
  unfold Math.atan2, Math.PI. js_norm.
  pose proof (Ratan2_bound a c) as Ht.
  pose proof (acos_bound (b / sqrt (a * a + b * b + c * c))) as Hacos.
  destruct (Rlt_dec (Math.Ratan2 a c) 0) as [Hneg | Hpos].
  - rewrite (Rltb_true _ _ Hneg). js_norm.
    do 2 eexists. split; [reflexivity|].
    split; [lra|]. split; [lra|].
    intros -> Hc. exfalso. revert Hneg. unfold Math.Ratan2.
    destruct (Rlt_dec 0 c); [|lra].
    unfold Rdiv. rewrite Rmult_0_l, atan_0. lra.
  - rewrite (Rltb_false _ _ Hpos). js_norm.
    do 2 eexists. split; [reflexivity|].
    split; [lra|]. split; [lra|].
    intros -> Hc. unfold Math.Ratan2.
    destruct (Rlt_dec 0 c); [|lra].
    unfold Rdiv. rewrite Rmult_0_l, atan_0. lra.
Qed.

(** *** From a position to its vector and back *)

(** An angle of (-PI, PI) whose half has a null sine is null. *)
Lemma sin_half_0 (d : R) : - (2 * PI) < d < 2 * PI -> sin (d / 2) = 0 -> d = 0.
Proof.
  intros Hd Hs. pose proof PI_bounds as Hpi.
  destruct (Rle_dec 0 d) as [Hpos | Hneg].
  - destruct (sin_eq_O_2PI_0 (d / 2)) as [H | [H | H]]; [lra | lra | exact Hs | lra | lra | lra].
  - assert (Hs' : sin (- d / 2) = 0).
    { replace (- d / 2) with (- (d / 2)) by field. rewrite sin_neg, Hs. ring. }
    destruct (sin_eq_O_2PI_0 (- d / 2)) as [H | [H | H]]; [lra | lra | exact Hs' | lra | lra | lra].
Qed.

(** Two angles of (-PI, PI] with the same sine and the same cosine are equal. *)
Lemma angle_unique (x y : R) :
  - PI < x <= PI -> - PI < y <= PI -> sin x = sin y -> cos x = cos y -> x = y.
Proof.
  intros Hx Hy Hsin Hcos.
  assert (Hc : cos (x - y) = 1).
  { rewrite cos_minus, Hsin, Hcos. pose proof (sin2_cos2 y) as H. unfold Rsqr in H. lra. }
  assert (Hh : sin ((x - y) / 2) = 0).
  { pose proof (cos_2a_sin ((x - y) / 2)) as H.
    replace (2 * ((x - y) / 2)) with (x - y) in H by field.
    rewrite Hc in H. nra. }
  apply sin_half_0 in Hh; lra.
Qed.

(** The angle of the point at angle [theta] and distance [r] is [theta]. *)
Lemma Ratan2_of_angle (r theta : R) :
  0 < r -> - PI < theta <= PI ->
  Math.Ratan2 (r * sin theta) (r * cos theta) = theta.
Proof.
  intros Hr Htheta.
  pose proof (Ratan2_polar (r * sin theta) (r * cos theta)) as [Hs Hc].
  assert (Hn : sqrt (r * sin theta * (r * sin theta) + r * cos theta * (r * cos theta)) = r).
  { replace (r * sin theta * (r * sin theta) + r * cos theta * (r * cos theta))
      with (r * r * ((sin theta)² + (cos theta)²)) by (unfold Rsqr; ring).
    rewrite sin2_cos2, Rmult_1_r. apply sqrt_square. lra. }
  rewrite Hn in Hs, Hc.
  apply angle_unique; [apply Ratan2_bound | exact Htheta | nra | nra].
Qed.

(** Property X7.  On a sphere of positive radius, a position whose longitude
    is strictly between 0 and 2 PI and whose latitude is strictly between the
    poles is given back by [vector3ToSphericalCoords] from the vector
    [sphericalCoordsToVector3] makes of it. *)
Theorem spherical_roundtrip (SPHERE_RADIUS long lat : R) :
  0 < SPHERE_RADIUS -> 0 < long < 2 * PI -> - (PI / 2) < lat < PI / 2 ->
  vector3ToSphericalCoords
    (sphericalCoordsToVector3 (Num SPHERE_RADIUS)
       {| longitude := Num long; latitude := Num lat |})
  = {| longitude := Num long; latitude := Num lat |}.
Proof.
  intros HR Hlong Hlat. pose proof PI_bounds as Hpi.
  assert (Hcl : 0 < cos lat) by (apply cos_gt_0; lra).
  unfold sphericalCoordsToVector3, vector3ToSphericalCoords, Math.cos, Math.sin.
  cbn [longitude latitude THREE.x THREE.y THREE.z]. js_norm.
  set (a := SPHERE_RADIUS * - cos lat * sin long).
  set (c := SPHERE_RADIUS * cos lat * cos long).
  assert (Hnorm : a * a + SPHERE_RADIUS * sin lat * (SPHERE_RADIUS * sin lat) + c * c
                  = SPHERE_RADIUS * SPHERE_RADIUS).
  { unfold a, c.
    transitivity (SPHERE_RADIUS * SPHERE_RADIUS
                  * ((cos lat)² * ((sin long)² + (cos long)²) + (sin lat)²)).
    - unfold Rsqr. ring.
    - rewrite sin2_cos2, Rmult_1_r, Rplus_comm, sin2_cos2. ring. }
  rewrite Hnorm, sqrt_Num by nra. rewrite sqrt_square by lra.
  js_norm.
  replace (SPHERE_RADIUS * sin lat / SPHERE_RADIUS) with (cos (PI / 2 - lat))
    by (rewrite cos_shift; field; lra).
  rewrite acos_Num by (pose proof (COS_bound (PI / 2 - lat)); lra).
  rewrite acos_cos by lra.
  unfold Math.atan2, Math.PI. js_norm.
  assert (Htheta : Math.Ratan2 a c = if Rlt_dec long PI then - long else 2 * PI - long).
  { destruct (Rlt_dec long PI) as [Hlt | Hge].
    - replace a with (SPHERE_RADIUS * cos lat * sin (- long))
        by (unfold a; rewrite sin_neg; ring).
      replace c with (SPHERE_RADIUS * cos lat * cos (- long))
        by (unfold c; rewrite cos_neg; ring).
      apply Ratan2_of_angle; [nra | lra].
    - replace a with (SPHERE_RADIUS * cos lat * sin (2 * PI - long)).
      2:{ unfold a, Rminus. rewrite sin_plus, sin_2PI, cos_2PI, sin_neg, cos_neg. ring. }
      replace c with (SPHERE_RADIUS * cos lat * cos (2 * PI - long)).
      2:{ unfold c, Rminus. rewrite cos_plus, sin_2PI, cos_2PI, sin_neg, cos_neg. ring. }
      apply Ratan2_of_angle; [nra | lra]. }
  rewrite Htheta.
  destruct (Rlt_dec long PI) as [Hlt | Hge].
  - rewrite Rltb_true by lra. js_norm. f_equal; f_equal; lra.
  - rewrite Rltb_false by lra. js_norm. f_equal; f_equal; lra.
Qed.

(** *** Instances *)

Lemma fovToZoomLevel_in_range_witness :
  exists k : Z,
    fovToZoomLevel Samples.plainConfig (Num 60) = Num (IZR k) /\ (0 <= k <= 100)%Z.
Proof.
  apply (fovToZoomLevel_in_range Samples.plainConfig 30 90 60).
  - reflexivity.
  - reflexivity.
  - lra.
  - lra.
Defined.

Lemma zoomLevelToFov_fovToZoomLevel_close_witness :
  exists f' : R,
    zoomLevelToFov Samples.plainConfig (fovToZoomLevel Samples.plainConfig (Num 47)) = Num f' /\
    Rabs (f' - 47) <= Rabs (90 - 30) / 200.
Proof.
  apply (zoomLevelToFov_fovToZoomLevel_close Samples.plainConfig 30 90 47).
  - reflexivity.
  - reflexivity.
  - lra.
Defined.

Lemma vFovToHFov_in_range_witness :
  exists h : R,
    vFovToHFov (Samples.withPano Samples.croppedPano 60 40 None) (Num 40) = Num h /\
    0 < h < 180 /\ (1 <= 1 -> h <= 40) /\ (1 <= 1 -> 40 <= h).
Proof.
  apply (vFovToHFov_in_range (Samples.withPano Samples.croppedPano 60 40 None) 1 40).
  - reflexivity.
  - lra.
  - lra.
Defined.

Lemma textureCoordsToSphericalCoords_in_range_witness :
  exists long lat : R,
    textureCoordsToSphericalCoords (Samples.withPano Samples.croppedPano 60 40 None)
      {| x := Num 10; y := Num 20 |}
    = Ok {| longitude := Num long; latitude := Num lat |} /\
    0 <= long < 2 * PI /\ - (PI / 2) <= lat <= PI / 2.
Proof.
  apply (textureCoordsToSphericalCoords_in_range
           (Samples.withPano Samples.croppedPano 60 40 None)
           4000 2000 2000 1000 1000 500 10 20).
  - reflexivity.
  - reflexivity.
  - lra.
  - lra.
  - lra.
  - lra.
Defined.

Lemma vector3ToSphericalCoords_in_range_witness :
  exists long lat : R,
    vector3ToSphericalCoords (THREE.mkVector3 (Num 0) (Num 0) (Num 1))
    = {| longitude := Num long; latitude := Num lat |} /\
    0 < long <= 2 * PI /\ - (PI / 2) <= lat <= PI / 2 /\
    (0 = 0 -> 0 < 1 -> long = 2 * PI).
Proof.
  apply (vector3ToSphericalCoords_in_range 0 0 1). lra.
Defined.

Lemma spherical_roundtrip_witness :
  vector3ToSphericalCoords
    (sphericalCoordsToVector3 (Num 100) {| longitude := Num 1; latitude := Num 0 |})
  = {| longitude := Num 1; latitude := Num 0 |}.
Proof.
  apply (spherical_roundtrip 100 1 0).
  - lra.
  - pose proof PI_bounds. lra.
  - pose proof PI_bounds. lra.
Defined.

End ConversionFacts.

(** ** More on the ranges *)

Module RangeFacts.

Import PSVDataHelper.
Import DataHelperFacts.

Lemma lt_irreflexive (a : number) : JS.lt a a = false.
Proof. destruct a as [u |]; [|reflexivity]. cbn. apply Rltb_false. lra. Qed.

Lemma lt_neq (a b : number) : JS.lt a b = true -> a <> b.
Proof. intros H ->. rewrite lt_irreflexive in H. discriminate H. Qed.

Lemma gt_neq (a b : number) : JS.gt a b = true -> a <> b.
Proof. intros H ->. unfold JS.gt in H. rewrite lt_irreflexive in H. discriminate H. Qed.

(** Either the longitude is kept and no side is reached, or it is moved and
    one side is reached. *)
Lemma applyLongitudeRange_cases (prop : ViewerProp) (range : number * number)
    (position : Position) :
  applyLongitudeRange prop range position = (longitude position, []) \/
  (fst (applyLongitudeRange prop range position) <> longitude position /\
   snd (applyLongitudeRange prop range position) <> []).
Proof.
  unfold applyLongitudeRange.
  set (range0 := utils.parseAngle _ false). set (range1 := utils.parseAngle _ false).
  destruct (JS.gt range0 range1).
  - destruct (JS.gt (longitude position) range1) eqn:H1; cbn [andb]; [|left; reflexivity].
    destruct (JS.lt (longitude position) range0) eqn:H0; [|left; reflexivity].
    right. destruct (JS.gt (longitude position) (range0 / 2 + range1 / 2)); cbn [fst snd];
      (split; [apply not_eq_sym | discriminate]);
      [apply lt_neq; exact H0 | apply gt_neq; exact H1].
  - destruct (JS.lt (longitude position) range0) eqn:H0.
    + right. cbn [fst snd]. split; [apply not_eq_sym, lt_neq; exact H0 | discriminate].
    + destruct (JS.gt (longitude position) range1) eqn:H1; [|left; reflexivity].
      right. cbn [fst snd]. split; [apply not_eq_sym, gt_neq; exact H1 | discriminate].
Qed.

Lemma applyLatitudeRange_cases (prop : ViewerProp) (range : number * number)
    (position : Position) :
  applyLatitudeRange prop range position = (latitude position, []) \/
  (fst (applyLatitudeRange prop range position) <> latitude position /\
   snd (applyLatitudeRange prop range position) <> []).
Proof.
  unfold applyLatitudeRange. destruct (latitudeBounds prop range) as [range0 range1].
  destruct (JS.lt (latitude position) range0) eqn:H0.
  - right. cbn [fst snd]. split; [apply not_eq_sym, lt_neq; exact H0 | discriminate].
  - destruct (JS.gt (latitude position) range1) eqn:H1; [|left; reflexivity].
    right. cbn [fst snd]. split; [apply not_eq_sym, gt_neq; exact H1 | discriminate].
Qed.

(** Property X8.  [applyRanges] reports no side exactly when it returns the
    position it was given. *)
Theorem applyRanges_no_side_iff_unchanged (config : Config) (prop : ViewerProp)
    (position : Position) :
  sidesReached (applyRanges config prop position) = [] <->
  rangedPosition (applyRanges config prop position) = position.
Proof.
  unfold applyRanges.
  assert (Hlong :
    forall r : number * list string,
      r = (longitude position, []) \/ (fst r <> longitude position /\ snd r <> []) ->
      forall s : number * list string,
      s = (latitude position, []) \/ (fst s <> latitude position /\ snd s <> []) ->
      sidesReached (let '(long, sidesLong) := r in
                    let '(lat, sidesLat) := s in
                    {| rangedPosition := {| longitude := long; latitude := lat |};
                       sidesReached := sidesLong ++ sidesLat |}) = [] <->
      rangedPosition (let '(long, sidesLong) := r in
                      let '(lat, sidesLat) := s in
                      {| rangedPosition := {| longitude := long; latitude := lat |};
                         sidesReached := sidesLong ++ sidesLat |}) = position).
  { intros [long sidesLong] Hr [lat sidesLat] Hs. cbn [fst snd sidesReached rangedPosition] in *.
    destruct position as [plong plat]. cbn [longitude latitude] in *.
    split.
    - intros Happ. apply app_eq_nil in Happ as [-> ->].
      destruct Hr as [Hr | [_ Hr]]; [|contradiction].
      destruct Hs as [Hs | [_ Hs]]; [|contradiction].
      congruence.
    - intros Heq. inversion Heq; subst.
      destruct Hr as [Hr | [Hr _]]; [|contradiction].
      destruct Hs as [Hs | [Hs _]]; [|contradiction].
      inversion Hr; inversion Hs. reflexivity. }
  apply Hlong.
  - destruct (longitudeRange config) as [range |];
    [apply applyLongitudeRange_cases | left; reflexivity].
  - destruct (latitudeRange config) as [range |];
    [apply applyLatitudeRange_cases | left; reflexivity].
Qed.

(** A longitude that comes out of the clamping goes through it unchanged. *)
Lemma applyLongitudeRange_again (prop : ViewerProp) (range : number * number)
    (p q : Position) :
  longitude q = fst (applyLongitudeRange prop range p) ->
  applyLongitudeRange prop range q = (longitude q, []).
Proof.
  unfold applyLongitudeRange.
  set (range0 := utils.parseAngle _ false). set (range1 := utils.parseAngle _ false).
  intros ->.
  destruct (JS.gt range0 range1) eqn:Hcross.
  - destruct (JS.gt (longitude p) range1 && JS.lt (longitude p) range0) eqn:Hout.
    + destruct (JS.gt (longitude p) (range0 / 2 + range1 / 2)); cbn [fst].
      * rewrite lt_irreflexive, andb_false_r. reflexivity.
      * unfold JS.gt at 1. rewrite lt_irreflexive. reflexivity.
    + cbn [fst]. rewrite Hout. reflexivity.
  - destruct (JS.lt (longitude p) range0) eqn:H0; cbn [fst].
    + rewrite lt_irreflexive, Hcross. reflexivity.
    + destruct (JS.gt (longitude p) range1) eqn:H1; cbn [fst].
      * unfold JS.gt in Hcross. rewrite Hcross. unfold JS.gt. rewrite lt_irreflexive. reflexivity.
      * rewrite H0, H1. reflexivity.
Qed.

(** The bounds of the latitude never compare as crossed, numbers or not. *)
Lemma latitudeBounds_not_crossed (prop : ViewerProp) (range : number * number) :
  JS.gt (fst (latitudeBounds prop range)) (snd (latitudeBounds prop range)) = false.
Proof.
  destruct range as [lo hi]. destruct (vFov prop) as [v |] eqn:Hv.
  - destruct lo as [lo |], hi as [hi |].
    + destruct (latitudeBounds_ordered prop lo hi v Hv) as (a & b & -> & _ & Hab & _).
      cbn. apply Rltb_false. lra.
    + unfold latitudeBounds. rewrite Hv. cbn [fst snd].
      destruct (THREE.Math.degToRad (Num v) / 2)%js; reflexivity.
    + unfold latitudeBounds. rewrite Hv. cbn [fst snd].
      destruct (THREE.Math.degToRad (Num v) / 2)%js; reflexivity.
    + unfold latitudeBounds. rewrite Hv. cbn [fst snd].
      destruct (THREE.Math.degToRad (Num v) / 2)%js; reflexivity.
  - unfold latitudeBounds. rewrite Hv. destruct lo, hi; reflexivity.
Qed.

Lemma applyLatitudeRange_again (prop : ViewerProp) (range : number * number)
    (p q : Position) :
  latitude q = fst (applyLatitudeRange prop range p) ->
  applyLatitudeRange prop range q = (latitude q, []).
Proof.
  pose proof (latitudeBounds_not_crossed prop range) as Hcross.
  unfold applyLatitudeRange. destruct (latitudeBounds prop range) as [range0 range1].
  cbn [fst snd] in Hcross. intros ->.
  destruct (JS.lt (latitude p) range0) eqn:H0; cbn [fst].
  - rewrite lt_irreflexive, Hcross. reflexivity.
  - destruct (JS.gt (latitude p) range1) eqn:H1; cbn [fst].
    + unfold JS.gt in Hcross. rewrite Hcross. unfold JS.gt. rewrite lt_irreflexive. reflexivity.
    + rewrite H0, H1. reflexivity.
Qed.

(** Property X9.  [applyRanges] is idempotent: a position that comes out of it
    goes through it unchanged, and no side is reached. *)
Theorem applyRanges_idempotent (config : Config) (prop : ViewerProp) (position : Position) :
  applyRanges config prop (rangedPosition (applyRanges config prop position))
  = {| rangedPosition := rangedPosition (applyRanges config prop position);
       sidesReached := [] |}.
Proof.
  set (q := rangedPosition (applyRanges config prop position)).
  assert (Hlong : longitude q =
                  fst match longitudeRange config with
                      | Some range => applyLongitudeRange prop range position
                      | None => (longitude position, [])
                      end).
  { unfold q, applyRanges.
    destruct (match longitudeRange config with Some _ => _ | None => _ end).
    destruct (match latitudeRange config with Some _ => _ | None => _ end). reflexivity. }
  assert (Hlat : latitude q =
                 fst match latitudeRange config with
                     | Some range => applyLatitudeRange prop range position
                     | None => (latitude position, [])
                     end).
  { unfold q, applyRanges.
    destruct (match longitudeRange config with Some _ => _ | None => _ end).
    destruct (match latitudeRange config with Some _ => _ | None => _ end). reflexivity. }
  clearbody q. unfold applyRanges.
  assert (H1 : match longitudeRange config with
               | Some range => applyLongitudeRange prop range q
               | None => (longitude q, [])
               end = (longitude q, [])).
  { destruct (longitudeRange config) as [range |]; [|reflexivity].
    apply (applyLongitudeRange_again prop range position q Hlong). }
  assert (H2 : match latitudeRange config with
               | Some range => applyLatitudeRange prop range q
               | None => (latitude q, [])
               end = (latitude q, [])).
  { destruct (latitudeRange config) as [range |]; [|reflexivity].
    apply (applyLatitudeRange_again prop range position q Hlat). }
  rewrite H1, H2. destruct q. reflexivity.
Qed.


End RangeFacts.

(** ** More on the markers *)

Module MarkerLaws.

Import PSVMarker.
Import MarkerFacts.

(** *** getType *)

Lemma MARKER_TYPES_all_NoDup : List.NoDup MARKER_TYPES.all.
Proof.
  unfold MARKER_TYPES.all.
  repeat (constructor; [cbn; intuition discriminate|]). constructor.
Qed.

(** The kinds found by [getType]: each once, and exactly those present. *)
Lemma found_spec (properties : Properties.t) :
  let found := List.filter (fun type => Properties.has type properties) MARKER_TYPES.all in
  List.NoDup found /\ forall t, In t found <-> Properties.has t properties = true.
Proof.
  cbv zeta. split.
  - apply List.NoDup_filter, MARKER_TYPES_all_NoDup.
  - intros t. rewrite filter_In. pose proof (MARKER_TYPES_all_complete t). tauto.
Qed.

(** Property X10.  [getType] answers the kind [t] exactly when the key of the
    content field of [t] is in the properties and the key of no other content
    field is, whatever [allowNone].  The test is [type in properties]: a field
    with an empty value counts like any other. *)
Theorem getType_unique_content (properties : Properties.t) (allowNone : bool)
    (t : MARKER_TYPES.t) :
  getType properties allowNone = Ok (Some t) <->
  Properties.has t properties = true /\
  forall t', Properties.has t' properties = true -> t' = t.
Proof.
  pose proof (found_spec properties) as [Hnodup Hfound]. cbv zeta in *.
  unfold getType.
  destruct (List.filter _ MARKER_TYPES.all) as [| a [| b rest]]; cbn.
  - split.
    + destruct allowNone; discriminate.
    + intros [Hhas _]. apply Hfound in Hhas. destruct Hhas.
  - split.
    + intros H. inversion H; subst. split.
      * apply Hfound. left. reflexivity.
      * intros t' Ht'. apply Hfound in Ht'. destruct Ht' as [-> | []]. reflexivity.
    + intros [Hhas _]. apply Hfound in Hhas. destruct Hhas as [-> | []]. reflexivity.
  - split; [discriminate|].
    intros [_ Huniq]. exfalso.
    assert (Ha : a = t) by (apply Huniq, Hfound; left; reflexivity).
    assert (Hb : b = t) by (apply Huniq, Hfound; right; left; reflexivity).
    subst. inversion Hnodup as [| ? ? Hnotin _]. apply Hnotin. left. reflexivity.
Qed.

(** Property X11.  Properties that carry the content fields of two kinds are
    refused by [getType] with the error "multiple marker content", whatever
    [allowNone]. *)
Theorem getType_rejects_two_contents (properties : Properties.t) (allowNone : bool)
    (t1 t2 : MARKER_TYPES.t) :
  Properties.has t1 properties = true ->
  Properties.has t2 properties = true ->
  t1 <> t2 ->
  getType properties allowNone
  = Throw (PSVError ("multiple marker content, either " ++ contentNames)).
Proof.
  intros H1 H2 Hneq.
  pose proof (found_spec properties) as [_ Hfound]. cbv zeta in *.
  apply Hfound in H1, H2. unfold getType.
  destruct (List.filter _ MARKER_TYPES.all) as [| a [| b rest]]; cbn.
  - destruct H1.
  - destruct H1 as [-> | []], H2 as [-> | []]. contradiction.
  - reflexivity.
Qed.

(** *** What update keeps *)

Lemma keeps_ret {A B : Type} (f : Marker -> B) (a : A) : keeps f (Method.ret a).
Proof. intros this. reflexivity. Qed.

Lemma keeps_throw {A B : Type} (f : Marker -> B) (e : exn) :
  keeps f (@Method.throw Marker A e).
Proof. intros this. reflexivity. Qed.

Lemma keeps_get {B : Type} (f : Marker -> B) : keeps f (@Method.get Marker).
Proof. intros this. reflexivity. Qed.

Lemma keeps_liftResult {A B : Type} (f : Marker -> B) (r : result A) :
  keeps f (@Method.liftResult Marker A r).
Proof. intros this. reflexivity. Qed.

Lemma keeps_modify {B : Type} (f : Marker -> B) (g : Marker -> Marker) :
  (forall this, f (g this) = f this) -> keeps f (Method.modify g).
Proof. intros H this. apply H. Qed.

Lemma keeps_bind {A B C : Type} (f : Marker -> C) (c : M A) (k : A -> M B) :
  keeps f c -> (forall a, keeps f (k a)) -> keeps f (Method.bind c k).
Proof.
  intros Hc Hk this. unfold Method.bind.
  specialize (Hc this). destruct (c this) as [this' [a | e]]; cbn in *.
  - rewrite Hk. exact Hc.
  - exact Hc.
Qed.

Ltac keeps_tac :=
  repeat first
    [ apply keeps_ret
    | apply keeps_throw
    | apply keeps_get
    | apply keeps_liftResult
    | apply keeps_modify; intros ?; reflexivity
    | apply keeps_bind; [| intros ?]
    | match goal with
      | |- keeps _ (if ?b then _ else _) => destruct b
      | |- keeps _ (match ?x with _ => _ end) => destruct x
      end ].

Section Update.

Variable SPHERE_RADIUS : number.
Variable prop : ViewerProp.

(** [update] keeps what none of its assignments writes. *)
Lemma update_keeps {B : Type} (f : Marker -> B) (arg : UpdateArg) :
  (forall p this, f (setProps p this) = f this) ->
  (forall c this, f (setConfig c this) = f this) ->
  (forall v this, f (setVisible v this) = f this) ->
  keeps f (update SPHERE_RADIUS prop arg).
Proof.
  intros Hp Hc Hv.
  assert (Hmp : forall g, keeps f (modifyProps g)).
  { intros g. apply keeps_modify. intros this. apply Hp. }
  assert (Hmc : forall g : Marker -> Properties.t,
            keeps f (Method.modify (fun this => setConfig (g this) this))).
  { intros g. apply keeps_modify. intros this. apply Hc. }
  assert (Hmv : forall v, keeps f (Method.modify (setVisible v))).
  { intros v. apply keeps_modify. intros this. apply Hv. }
  unfold update, mergeProperties, __updateNormal, __updatePoly, __updateSvg.
  repeat first
    [ apply keeps_ret
    | apply keeps_throw
    | apply keeps_get
    | apply keeps_liftResult
    | apply Hmp
    | apply Hmc
    | apply Hmv
    | apply keeps_bind; [| intros ?]
    | match goal with
      | |- keeps _ (if ?b then _ else _) => destruct b
      | |- keeps _ (match ?x with _ => _ end) => destruct x
      end ].
Qed.

(** Property X12.  [update] changes neither the id nor the type of the marker,
    whatever it is given and whether it ends normally or throws. *)
Theorem update_keeps_identity (arg : UpdateArg) :
  keeps id (update SPHERE_RADIUS prop arg) /\
  keeps type (update SPHERE_RADIUS prop arg).
Proof. repeat split; apply update_keeps; reflexivity. Qed.

End Update.

Section Geometry.

Variable SPHERE_RADIUS : number.
Variable prop : ViewerProp.

Lemma updateNormal_ok (this this' : Marker) :
  __updateNormal SPHERE_RADIUS prop this = (this', Ok tt) ->
  anchor (props this') = anchor (props this) /\
  exists pos, position (props this') = Some pos
      /\ positions3D (props this')
         = Some [PSVDataHelper.sphericalCoordsToVector3 SPHERE_RADIUS pos].
Proof.
  unfold __updateNormal, Method.bind, Method.get, modifyProps, Method.modify,
    Method.liftResult, Method.ret.
  destruct (truthyNumber (Properties.width (config this))
            && truthyNumber (Properties.height (config this)));
    destruct (truthyString (Properties.image (config this)));
    destruct (truthyString (Properties.html (config this)));
    cbn;
    destruct (PSVDataHelper.cleanPosition prop (Properties.asPosition (config this))) as [pos | e];
    intros H; inversion H; subst; cbn; (split; [reflexivity | exists pos; split; reflexivity]).
Qed.

Lemma updateSvg_ok (this this' : Marker) :
  __updateSvg SPHERE_RADIUS prop this = (this', Ok tt) ->
  anchor (props this') = anchor (props this) /\
  exists pos, position (props this') = Some pos
      /\ positions3D (props this')
         = Some [PSVDataHelper.sphericalCoordsToVector3 SPHERE_RADIUS pos].
Proof.
  unfold __updateSvg, Method.bind, Method.get, modifyProps, Method.modify,
    Method.liftResult, Method.ret. cbn.
  destruct (svgDef _) as [d | e]; cbn; [| discriminate].
  destruct (PSVDataHelper.cleanPosition prop _) as [pos | e];
    intros H; inversion H; subst; cbn; (split; [reflexivity | exists pos; split; reflexivity]).
Qed.

Lemma updatePoly_ok (this this' : Marker) :
  __updatePoly SPHERE_RADIUS prop this = (this', Ok tt) ->
  anchor (props this') = anchor (props this) /\
  exists pos others,
    position (props this') = Some pos
        /\ positions3D (props this')
           = Some (PSVDataHelper.sphericalCoordsToVector3 SPHERE_RADIUS pos :: others).
Proof.
  unfold __updatePoly, Method.bind, Method.get, modifyProps, Method.modify,
    Method.liftResult, Method.ret, Method.throw. cbn.
  destruct (actualPoly (config this)) as [poly |]; cbn; [| discriminate].
  match goal with
  | |- context [if isPolyPx ?m then _ else _] => destruct (isPolyPx m)
  end; cbn.
  - destruct (mapResult _ (folded poly)) as [[| first coords] | e]; cbn;
      intros H; inversion H; subst; cbn.
    split; [reflexivity|]. eexists _, _. split; reflexivity.
  - destruct (unpaired poly); cbn; [discriminate|].
    destruct (map _ (folded poly)) as [| first coords]; cbn;
      intros H; inversion H; subst; cbn.
    split; [reflexivity|]. eexists _, _. split; reflexivity.
Qed.

Lemma mergeProperties_keeps_type (arg : UpdateArg) : keeps type (mergeProperties arg).
Proof. unfold mergeProperties. keeps_tac. Qed.

(** A run of [update] that ends normally leaves an anchor, a position and the
    vectors of the position. *)
Lemma update_ok_geometry (arg : UpdateArg) (this this' : Marker) :
  update SPHERE_RADIUS prop arg this = (this', Ok tt) ->
  exists a pos others,
    anchor (props this') = Some a /\
    position (props this') = Some pos /\
    positions3D (props this')
        = Some (PSVDataHelper.sphericalCoordsToVector3 SPHERE_RADIUS pos :: others) /\
    (isPoly this = false -> others = []).
Proof.
  unfold update. intros H.
  apply bind_ok in H as (m1 & [] & Hm1 & H).
  assert (Htype : isPoly m1 = isPoly this).
  { pose proof (mergeProperties_keeps_type arg this) as Hk. rewrite Hm1 in Hk. cbn in Hk.
    unfold isPoly, isPolygon, isPolyline. rewrite Hk. reflexivity. }
  apply bind_ok in H as (m2 & [] & Hm2 & H).
  apply bind_ok in H as (m2' & this0 & Hget & H).
  apply bind_ok in H as (m3 & [] & Hm3 & H).
  unfold Method.get in Hget. inversion Hget; subst m2' this0. clear Hget.
  unfold Method.modify in Hm2. inversion Hm2; subst m2. clear Hm2.
  unfold modifyProps, Method.modify in Hm3. inversion Hm3; subst m3. clear Hm3.
  set (m2 := setConfig (normaliseTooltip (config m1)) m1) in *.
  set (m3 := setProps _ m2) in *.
  assert (Ha : anchor (props m3) = Some (utils.parsePosition (Properties.anchor (config m2))))
    by reflexivity.
  assert (Ht : isPoly m3 = isPoly m1) by reflexivity.
  assert (Hn : isNormal m3 = isNormal m1) by reflexivity.
  change (isNormal m2) with (isNormal m1) in H. change (isPoly m2) with (isPoly m1) in H.
  clearbody m3.
  destruct (isNormal m1) eqn:Hnormal.
  - apply updateNormal_ok in H as (Hanchor & pos & Hpos & H3).
    exists (utils.parsePosition (Properties.anchor (config m2))), pos, [].
    repeat split; try assumption. congruence.
  - destruct (isPoly m1) eqn:Hpoly.
    + apply updatePoly_ok in H as (Hanchor & pos & others & Hpos & H3).
      exists (utils.parsePosition (Properties.anchor (config m2))), pos, others.
      repeat split; try assumption; [congruence|].
      intros Hthis. congruence.
    + apply updateSvg_ok in H as (Hanchor & pos & Hpos & H3).
      exists (utils.parsePosition (Properties.anchor (config m2))), pos, [].
      repeat split; try assumption. congruence.
Qed.

End Geometry.

Lemma truthyString_Some (s : option string) :
  truthyString s = true -> exists k, s = Some k /\ k <> ""%string.
Proof.
  destruct s as [k |]; cbn; [| discriminate].
  intros H. exists k. split; [reflexivity|].
  intros ->. discriminate H.
Qed.

Section Creation.

Variable SPHERE_RADIUS : number.
Variable prop : ViewerProp.

Lemma update_ok_hasGeometry (arg : UpdateArg) (this this' : Marker) :
  update SPHERE_RADIUS prop arg this = (this', Ok tt) -> hasGeometry this'.
Proof.
  intros H. apply update_ok_geometry in H as (a & pos & others & Ha & _ & H3 & _).
  split; [rewrite Ha; eexists; reflexivity | eauto].
Qed.

(** What the constructor builds, when it builds something. *)
Lemma constructor_ok (properties : Properties.t) (marker : Marker) :
  constructor SPHERE_RADIUS prop properties = Ok marker ->
  Properties.id properties = Some (id marker) /\
  id marker <> ""%string /\
  getType properties false = Ok (Some (type marker)) /\
  visible marker = visibleNotFalse properties /\
  hasGeometry marker.
Proof.
  unfold constructor.
  destruct (truthyString (Properties.id properties)) eqn:Hid; cbn [negb]; [| discriminate].
  destruct (truthyString_Some _ Hid) as (k & Hk & Hne).
  destruct (_ && _); [discriminate|].
  destruct (_ && _); [discriminate|].
  destruct (getType properties false) as [[t |] | e]; try discriminate.
  match goal with
  | |- match update ?r ?p ?a ?m with _ => _ end = _ -> _ =>
      destruct (update r p a m) as [this' [[] | e]] eqn:Hupdate; [| discriminate];
      pose proof (update_keeps r p id a (fun _ _ => eq_refl) (fun _ _ => eq_refl)
                    (fun _ _ => eq_refl) m) as Hkid;
      pose proof (update_keeps r p type a (fun _ _ => eq_refl) (fun _ _ => eq_refl)
                    (fun _ _ => eq_refl) m) as Hktype
  end.
  rewrite Hupdate in Hkid, Hktype. cbn in Hkid, Hktype.
  intros H. inversion H; subst marker. clear H.
  rewrite Hkid, Hktype, Hk. cbn.
  repeat split; try assumption; try reflexivity.
  - destruct (update_split _ _ _ _ _ _ Hupdate) as [(e & He & _) | (this1 & Hmerge & ->)];
      [discriminate He|].
    apply (mergeProperties_visible _ _ _ Hmerge).
  - apply (update_ok_hasGeometry _ _ _ Hupdate).
  - apply (update_ok_hasGeometry _ _ _ Hupdate).
Qed.

End Creation.

(** *** The folding loop *)

Lemma foldLoop_from (fuel : nat) :
  forall (coords : list number) (done : list Entry),
    (List.length coords <= 2 * fuel)%nat ->
    exists folded,
      foldLoop fuel (List.length done) (inProgress done coords) = Some (done ++ folded) /\
      map entryPair folded = foldPairs coords.
Proof.
  induction fuel as [| fuel IH]; intros coords done Hfuel; unfold inProgress.
  { destruct coords; [| cbn in Hfuel; lia].
    exists []. cbn [map foldLoop]. rewrite !app_nil_r, Nat.ltb_irrefl. split; reflexivity. }
  destruct coords as [| u [| v rest]].
  - exists []. cbn [map foldLoop]. rewrite !app_nil_r, Nat.ltb_irrefl. split; reflexivity.
  - destruct (IH [] (done ++ [pairEntry u None])) as (folded & Hrun & Hpairs); [cbn; lia|].
    exists (pairEntry u None :: folded).
    cbn [foldLoop map]. rewrite length_app. cbn [List.length].
    replace (List.length done <? List.length done + 1)%nat with true
      by (symmetry; apply Nat.ltb_lt; lia).
    unfold splice2, entryAt.
    rewrite take_app_length.
    rewrite lookup_app_r by lia. rewrite Nat.sub_diag.
        cbn [lookup list_lookup default from_option Datatypes.id].
    rewrite lookup_ge_None_2 by (rewrite length_app; cbn; lia).
    rewrite drop_ge by (rewrite length_app; cbn; lia).
    cbn [default from_option Datatypes.id].
    rewrite length_app in Hrun. cbn [List.length] in Hrun.
    replace (List.length done + 1)%nat with (S (List.length done)) in Hrun by lia.
    unfold inProgress in Hrun. cbn [map] in Hrun. rewrite app_nil_r in Hrun.
    fold (pairEntry u None). rewrite Hrun. split.
    + rewrite <- app_assoc. reflexivity.
    + cbn [map foldPairs entryPair pairEntry entryNumber] in *. rewrite Hpairs. reflexivity.
  - destruct (IH rest (done ++ [pairEntry u (Some v)])) as (folded & Hrun & Hpairs).
    + cbn in Hfuel. lia.
    + exists (pairEntry u (Some v) :: folded).
      cbn [foldLoop map]. rewrite length_app. cbn [List.length].
      replace (List.length done <? List.length done + S (S (List.length (map Coordinate rest))))%nat
        with true by (symmetry; apply Nat.ltb_lt; lia).
      unfold splice2, entryAt.
      rewrite take_app_length.
      rewrite lookup_app_r by lia. rewrite Nat.sub_diag.
          cbn [lookup list_lookup default from_option Datatypes.id].
      rewrite lookup_app_r by lia.
      replace (List.length done + 1 - List.length done)%nat with 1%nat by lia.
      cbn [lookup list_lookup default from_option Datatypes.id].
      rewrite drop_app_ge by lia.
      replace (List.length done + 2 - List.length done)%nat with 2%nat by lia.
      cbn [drop]. rewrite drop_0.
      rewrite length_app in Hrun. cbn [List.length] in Hrun.
      replace (List.length done + 1)%nat with (S (List.length done)) in Hrun by lia.
      unfold inProgress in Hrun. rewrite <- app_assoc in Hrun. cbn [app] in Hrun.
      fold (pairEntry u (Some v)). rewrite Hrun. split.
      * rewrite <- app_assoc. reflexivity.
      * cbn [map foldPairs entryPair pairEntry entryNumber]. rewrite Hpairs. reflexivity.
Qed.

(** Property X13.  The folding loop of [__updatePoly], run on a flat array of
    coordinates, ends within as many turns as there are coordinates and leaves
    the coordinates paired two by two, in order; when their number is odd the
    last pair holds [undefined]. *)
Theorem foldLoop_folds (coords : list number) :
  exists folded,
    foldLoop (List.length coords) 0 (map Coordinate coords) = Some folded /\
    map entryPair folded = foldPairs coords.
Proof.
  destruct (foldLoop_from (List.length coords) coords []) as (folded & Hrun & Hpairs);
    [lia|].
  exists folded. split; [exact Hrun | exact Hpairs].
Qed.

(** *** What update preserves *)

Lemma preserves_ret {A : Type} (P : Marker -> Prop) (a : A) : preserves P (Method.ret a).
Proof. intros this H. exact H. Qed.

Lemma preserves_throw {A : Type} (P : Marker -> Prop) (e : exn) :
  preserves P (@Method.throw Marker A e).
Proof. intros this H. exact H. Qed.

Lemma preserves_get (P : Marker -> Prop) : preserves P (@Method.get Marker).
Proof. intros this H. exact H. Qed.

Lemma preserves_liftResult {A : Type} (P : Marker -> Prop) (r : result A) :
  preserves P (@Method.liftResult Marker A r).
Proof. intros this H. exact H. Qed.

Lemma preserves_modify (P : Marker -> Prop) (g : Marker -> Marker) :
  (forall this, P this -> P (g this)) -> preserves P (Method.modify g).
Proof. intros H this. apply H. Qed.

Lemma preserves_bind {A B : Type} (P : Marker -> Prop) (c : M A) (k : A -> M B) :
  preserves P c -> (forall a, preserves P (k a)) -> preserves P (Method.bind c k).
Proof.
  intros Hc Hk this HP. unfold Method.bind.
  specialize (Hc this HP). destruct (c this) as [this' [a | e]]; cbn in *.
  - apply Hk, Hc.
  - exact Hc.
Qed.

(** [update] never takes its geometry away from a marker, even when it
    throws part-way. *)
Lemma update_preserves_hasGeometry (SPHERE_RADIUS : number) (prop : ViewerProp)
    (arg : UpdateArg) :
  preserves hasGeometry (update SPHERE_RADIUS prop arg).
Proof.
  unfold update, mergeProperties, __updateNormal, __updatePoly, __updateSvg, modifyProps.
  repeat first
    [ apply preserves_ret
    | apply preserves_throw
    | apply preserves_get
    | apply preserves_liftResult
    | apply preserves_modify;
      intros ? [[? ?] (? & ? & ?)];
      (split; [eexists; first [eassumption | reflexivity]
              | do 2 eexists; first [eassumption | reflexivity]])
    | apply preserves_bind; [| intros ?]
    | match goal with
      | |- preserves _ (if ?b then _ else _) => destruct b
      | |- preserves _ (match ?x with _ => _ end) => destruct x
      end ].
Qed.

(** *** Statements *)

(** Property X14.  After an update that ends normally the marker has an
    anchor, a position, and the vector of that position at the head of its 3D
    positions, which are that vector alone unless the marker is a polygon or a
    polyline. *)
Theorem update_gives_geometry (SPHERE_RADIUS : number) (prop : ViewerProp)
    (arg : UpdateArg) (this this' : Marker) :
  update SPHERE_RADIUS prop arg this = (this', Ok tt) ->
  exists a pos others,
    anchor (props this') = Some a /\
    position (props this') = Some pos /\
    positions3D (props this')
    = Some (PSVDataHelper.sphericalCoordsToVector3 SPHERE_RADIUS pos :: others) /\
    (isPoly this = false -> others = []).
Proof. apply update_ok_geometry. Qed.

(** Property X15.  A marker built by the constructor has the id of its
    properties, which is not empty, has for type the one kind of content they
    carry, is visible unless they say [visible: false], and has its
    geometry. *)
Theorem constructor_result (SPHERE_RADIUS : number) (prop : ViewerProp)
    (properties : Properties.t) (marker : Marker) :
  constructor SPHERE_RADIUS prop properties = Ok marker ->
  Properties.id properties = Some (id marker) /\
  id marker <> ""%string /\
  getType properties false = Ok (Some (type marker)) /\
  visible marker = visibleNotFalse properties /\
  hasGeometry marker.
Proof. apply constructor_ok. Qed.

(** *** Instances *)

Lemma getType_rejects_two_contents_witness :
  getType Samples.imageAndHtml true
  = Throw (PSVError ("multiple marker content, either " ++ contentNames)).
Proof.
  apply (getType_rejects_two_contents Samples.imageAndHtml true
      MARKER_TYPES.image MARKER_TYPES.html).
  - reflexivity.
  - reflexivity.
  - discriminate.
Defined.

Lemma update_gives_geometry_witness :
  exists a pos others,
    anchor (props (fst (update (Num 100) PhotoSphereViewer.initialProp NoProperties
                          Samples.polygonBehind))) = Some a /\
    position (props (fst (update (Num 100) PhotoSphereViewer.initialProp NoProperties
                            Samples.polygonBehind))) = Some pos /\
    positions3D (props (fst (update (Num 100) PhotoSphereViewer.initialProp NoProperties
                               Samples.polygonBehind)))
    = Some (PSVDataHelper.sphericalCoordsToVector3 (Num 100) pos :: others) /\
    (isPoly Samples.polygonBehind = false -> others = []).
Proof.
  refine (update_gives_geometry (Num 100) PhotoSphereViewer.initialProp NoProperties
            Samples.polygonBehind _
            (run_ok (update (Num 100) PhotoSphereViewer.initialProp NoProperties)
                    Samples.polygonBehind tt _)).
  vm_compute. reflexivity.
Defined.

Lemma constructor_result_witness :
  exists marker,
    constructor (Num 100) PhotoSphereViewer.initialProp Samples.htmlMarker = Ok marker /\
    Properties.id Samples.htmlMarker = Some (id marker) /\
    id marker <> ""%string /\
    getType Samples.htmlMarker false = Ok (Some (type marker)) /\
    visible marker = visibleNotFalse Samples.htmlMarker /\
    hasGeometry marker.
Proof.
  eexists. split; [vm_compute; reflexivity|].
  match goal with
  | |- Properties.id _ = Some (id ?m) /\ _ =>
      refine (constructor_result (Num 100) PhotoSphereViewer.initialProp Samples.htmlMarker m _)
  end.
  vm_compute. reflexivity.
Defined.

End MarkerLaws.

(** ** The registry of the HUD *)

Module RegistryFacts.

Import PSVHUD.

(** *** The registry as a list *)

Lemma lookupMarker_None (k : string) (l : list (string * PSVMarker.Marker)) :
  lookupMarker k l = None <-> k ∉ map fst l.
Proof.
  induction l as [| [k' m] l IH]; cbn.
  - split; [intros _; apply not_elem_of_nil | reflexivity].
  - rewrite not_elem_of_cons.
    destruct (String.eqb_spec k' k) as [-> | Hne].
    + split; [discriminate | intros [H _]; contradiction].
    + rewrite IH. split; [intros H; split; [congruence | exact H] | tauto].
Qed.

Lemma lookupMarker_Some (k : string) (l : list (string * PSVMarker.Marker)) :
  is_Some (lookupMarker k l) <-> k ∈ map fst l.
Proof.
  pose proof (lookupMarker_None k l) as H.
  destruct (lookupMarker k l) as [m |].
  - split; [intros _ | intros _; eexists; reflexivity].
    destruct (decide (k ∈ map fst l)) as [Hin | Hout]; [exact Hin|].
    apply H in Hout. discriminate Hout.
  - split; [intros [m Hm]; discriminate Hm|].
    intros Hin. exfalso. apply (proj1 H); [reflexivity | exact Hin].
Qed.

Lemma lookupMarker_app (k : string) (l l' : list (string * PSVMarker.Marker)) :
  lookupMarker k (l ++ l') =
  match lookupMarker k l with
  | Some m => Some m
  | None => lookupMarker k l'
  end.
Proof.
  induction l as [| [k' m] l IH]; cbn; [reflexivity|].
  destruct (String.eqb k' k); [reflexivity | exact IH].
Qed.

Lemma lookupMarker_store (k k' : string) (m : PSVMarker.Marker)
    (l : list (string * PSVMarker.Marker)) :
  lookupMarker k' (storeMarker k m l) = if String.eqb k k' then Some m else lookupMarker k' l.
Proof.
  induction l as [| [k0 m0] l IH]; cbn.
  - destruct (String.eqb k k'); reflexivity.
  - destruct (String.eqb_spec k0 k) as [-> | Hne]; cbn.
    + destruct (String.eqb k k'); reflexivity.
    + destruct (String.eqb_spec k0 k') as [-> | Hne'].
      * rewrite (proj2 (String.eqb_neq k k')) by congruence. reflexivity.
      * exact IH.
Qed.

Lemma storeMarker_keys (k : string) (m m0 : PSVMarker.Marker)
    (l : list (string * PSVMarker.Marker)) :
  lookupMarker k l = Some m0 -> map fst (storeMarker k m l) = map fst l.
Proof.
  induction l as [| [k' m'] l IH]; cbn; [discriminate|].
  destruct (String.eqb k' k); cbn; [reflexivity|].
  intros H. rewrite (IH H). reflexivity.
Qed.

Lemma storeMarker_Forall (P : string * PSVMarker.Marker -> Prop) (k : string)
    (m : PSVMarker.Marker) (l : list (string * PSVMarker.Marker)) :
  Forall P l -> (forall k', P (k', m)) -> Forall P (storeMarker k m l).
Proof.
  intros Hl Hm. induction Hl as [| [k' m'] l Hx Hl IH]; cbn.
  - constructor; [apply Hm | constructor].
  - destruct (String.eqb k' k); constructor; auto.
Qed.

Lemma deleteMarker_subset (k k' : string) (l : list (string * PSVMarker.Marker)) :
  k' ∈ map fst (deleteMarker k l) -> k' ∈ map fst l.
Proof.
  induction l as [| [k1 m1] l IH]; cbn; [tauto|].
  destruct (String.eqb k1 k); cbn; rewrite !elem_of_cons; tauto.
Qed.

Lemma deleteMarker_keys (k : string) (l : list (string * PSVMarker.Marker)) :
  NoDup (map fst l) ->
  NoDup (map fst (deleteMarker k l)) /\ (k ∉ map fst (deleteMarker k l)) /\
  forall k', k' <> k -> lookupMarker k' (deleteMarker k l) = lookupMarker k' l.
Proof.
  induction l as [| [k0 m0] l IH]; cbn; intros Hnodup.
  - split; [constructor|]. split; [apply not_elem_of_nil | reflexivity].
  - apply NoDup_cons in Hnodup as [Hnotin Hrest].
    destruct (String.eqb_spec k0 k) as [-> | Hne]; cbn.
    + split; [exact Hrest|]. split; [exact Hnotin|].
      intros k' Hk'. rewrite (proj2 (String.eqb_neq k k')) by congruence. reflexivity.
    + destruct (IH Hrest) as (Hn & Hk & Hl).
      split.
      * apply NoDup_cons. split; [| exact Hn].
        intros Hin. apply Hnotin, (deleteMarker_subset k), Hin.
      * split; [apply not_elem_of_cons; split; [congruence | exact Hk]|].
        intros k' Hk'. destruct (String.eqb k0 k'); [reflexivity | apply Hl, Hk'].
Qed.

Lemma deleteMarker_Forall (P : string * PSVMarker.Marker -> Prop) (k : string)
    (l : list (string * PSVMarker.Marker)) :
  Forall P l -> Forall P (deleteMarker k l).
Proof.
  induction 1 as [| [k' m'] l Hx Hl IH]; cbn; [constructor|].
  destruct (String.eqb k' k); [exact Hl | constructor; assumption].
Qed.

Lemma deleteMarker_last (k : string) (m : PSVMarker.Marker)
    (l : list (string * PSVMarker.Marker)) :
  k ∉ map fst l -> deleteMarker k (l ++ [(k, m)]) = l.
Proof.
  induction l as [| [k' m'] l IH]; cbn; intros Hnotin.
  - rewrite String.eqb_refl. reflexivity.
  - apply not_elem_of_cons in Hnotin as [Hne Hnotin].
    rewrite (proj2 (String.eqb_neq k' k)) by congruence.
    rewrite IH by exact Hnotin. reflexivity.
Qed.

End RegistryFacts.

(** ** The render pass *)

Module RenderFacts.

Import PSVHUD.
Import MarkerLaws HUDFacts RegistryFacts.

Lemma sameUpToRendering_refl (marker : PSVMarker.Marker) : sameUpToRendering marker marker.
Proof. repeat split. Qed.

Lemma sameUpToRendering_trans (a b c : PSVMarker.Marker) :
  sameUpToRendering a b -> sameUpToRendering b c -> sameUpToRendering a c.
Proof. unfold sameUpToRendering. intuition congruence. Qed.

Lemma sameUpToRendering_hasGeometry (a b : PSVMarker.Marker) :
  sameUpToRendering a b -> hasGeometry a -> hasGeometry b.
Proof.
  unfold sameUpToRendering, hasGeometry.
  intros (_ & _ & _ & _ & _ & Ha & _ & Hp & _). rewrite Ha, Hp. tauto.
Qed.

Lemma mapResult_total {A B : Type} (f : A -> result B) (l : list A) :
  (forall a, exists b, f a = Ok b) -> exists bs, PSVMarker.mapResult f l = Ok bs.
Proof.
  intros Hf. induction l as [| a l [bs IH]]; cbn.
  - eexists. reflexivity.
  - destruct (Hf a) as [b ->]. rewrite IH. eexists. reflexivity.
Qed.

Lemma pairsWith_total (pos : Pos3D) (i : nat) (ns : list (option Pos3D)) :
  Forall is_Some ns -> exists ps, pairsWith pos i ns = Ok ps.
Proof.
  induction 1 as [| n ns [p ->] _ [ps IH]]; cbn.
  - eexists. reflexivity.
  - rewrite IH. eexists. reflexivity.
Qed.

Lemma neighbours_exist (positions3D : list Pos3D) (i : nat) :
  (i < List.length positions3D)%nat -> Forall is_Some (neighbours positions3D i).
Proof.
  intros Hi. unfold neighbours. repeat constructor.
  - destruct (Nat.eqb i 0); apply lookup_lt_is_Some_2; lia.
  - destruct (Nat.eqb_spec i (List.length positions3D - 1)); apply lookup_lt_is_Some_2; lia.
Qed.

Lemma collectPairs_total (positions3D rest : list Pos3D) (i : nat) :
  rest = drop i positions3D -> exists ps, collectPairs positions3D i rest = Ok ps.
Proof.
  revert i. induction rest as [| pos rest IH]; intros i Hrest; cbn [collectPairs].
  - eexists. reflexivity.
  - assert (Hi : (i < List.length positions3D)%nat).
    { destruct (Nat.lt_ge_cases i (List.length positions3D)) as [H | H]; [exact H|].
      rewrite drop_ge in Hrest by exact H. discriminate Hrest. }
    destruct (IH (S i)) as [later ->].
    { replace (S i) with (i + 1)%nat by lia. rewrite <- drop_drop, <- Hrest. reflexivity. }
    destruct (visible pos).
    + eexists. reflexivity.
    + destruct (pairsWith_total pos i _ (neighbours_exist positions3D i Hi)) as [here ->].
      eexists. reflexivity.
Qed.

Section Rendering.

Variable SPHERE_RADIUS : number.
Variable prop : ViewerProp.
Variable project : THREE.Vector3 -> THREE.Vector3.
Variable measure : PSVMarker.Marker -> Size.

Lemma renderMarker_keeps {B : Type} (f : PSVMarker.Marker -> B) :
  (forall g this,
     (forall p, PSVMarker.dynamicSize (g p) = PSVMarker.dynamicSize p /\
                PSVMarker.anchor (g p) = PSVMarker.anchor p /\
                PSVMarker.position (g p) = PSVMarker.position p /\
                PSVMarker.positions3D (g p) = PSVMarker.positions3D p /\
                PSVMarker.def (g p) = PSVMarker.def p) ->
     f (PSVMarker.setProps (g (PSVMarker.props this)) this) = f this) ->
  (forall e this, f (PSVMarker.setEl e this) = f this) ->
  keeps f (renderMarker SPHERE_RADIUS prop project measure).
Proof.
  intros Hp He.
  assert (Hmp : forall g,
            (forall p, PSVMarker.dynamicSize (g p) = PSVMarker.dynamicSize p /\
                       PSVMarker.anchor (g p) = PSVMarker.anchor p /\
                       PSVMarker.position (g p) = PSVMarker.position p /\
                       PSVMarker.positions3D (g p) = PSVMarker.positions3D p /\
                       PSVMarker.def (g p) = PSVMarker.def p) ->
            keeps f (PSVMarker.modifyProps g)).
  { intros g Hg. apply keeps_modify. intros this. apply Hp, Hg. }
  assert (Hme : forall g : PSVMarker.Marker -> PSVMarker.Element,
            keeps f (Method.modify (fun this => PSVMarker.setEl (g this) this))).
  { intros g. apply keeps_modify. intros this. apply He. }
  unfold renderMarker, __getPolyDimensions, setPosition2D, toggleVisibleClass,
    __getMarkerPosition.
  repeat first
    [ apply keeps_ret
    | apply keeps_throw
    | apply keeps_get
    | apply keeps_liftResult
    | apply Hmp; intros ?; repeat split
    | apply Hme
    | apply keeps_bind; [| intros ?]
    | match goal with
      | |- keeps _ (if ?b then _ else _) => destruct b
      | |- keeps _ (match ?x with _ => _ end) => destruct x
      end ].
Qed.

Lemma renderMarker_frame (marker : PSVMarker.Marker) :
  sameUpToRendering marker (fst (renderMarker SPHERE_RADIUS prop project measure marker)).
Proof.
  repeat split.
  - apply (renderMarker_keeps PSVMarker.id); reflexivity.
  - apply (renderMarker_keeps PSVMarker.type); reflexivity.
  - apply (renderMarker_keeps PSVMarker.visible); reflexivity.
  - apply (renderMarker_keeps PSVMarker.config); reflexivity.
  - apply (renderMarker_keeps (fun m => PSVMarker.dynamicSize (PSVMarker.props m)));
      [intros g this Hg; apply Hg | reflexivity].
  - apply (renderMarker_keeps (fun m => PSVMarker.anchor (PSVMarker.props m)));
      [intros g this Hg; apply Hg | reflexivity].
  - apply (renderMarker_keeps (fun m => PSVMarker.position (PSVMarker.props m)));
      [intros g this Hg; apply Hg | reflexivity].
  - apply (renderMarker_keeps (fun m => PSVMarker.positions3D (PSVMarker.props m)));
      [intros g this Hg; apply Hg | reflexivity].
  - apply (renderMarker_keeps (fun m => PSVMarker.def (PSVMarker.props m)));
      [intros g this Hg; apply Hg | reflexivity].
Qed.

End Rendering.

Section Pass.

Variable SPHERE_RADIUS : number.
Variable prop : ViewerProp.
Variable project : THREE.Vector3 -> THREE.Vector3.
Variable measure : PSVMarker.Marker -> Size.

(** A render of one marker that ends normally leaves the class
    [psv-marker--visible] as the visibility it returns, which is false for a
    marker that is hidden. *)
Lemma renderMarker_ok (marker marker' : PSVMarker.Marker) (isVisible : bool) :
  renderMarker SPHERE_RADIUS prop project measure marker = (marker', Ok isVisible) ->
  PSVMarker.visibleClass (PSVMarker.el marker') = isVisible /\
  (isVisible = true -> PSVMarker.visible marker = true).
Proof.
  unfold renderMarker. intros H.
  apply bind_ok in H as (m0 & this0 & Hget & H).
  unfold Method.get in Hget. inversion Hget; subst m0 this0. clear Hget.
  apply bind_ok in H as (m1 & v & Hinner & H).
  apply bind_ok in H as (m2 & [] & Htoggle & H).
  unfold Method.ret in H. inversion H; subst m2 v. clear H.
  unfold toggleVisibleClass, Method.modify in Htoggle. inversion Htoggle; subst marker'.
  split; [reflexivity|].
  intros ->. destruct (PSVMarker.visible marker); [reflexivity|].
  cbn in Hinner. discriminate Hinner.
Qed.

Lemma tagVisible_total (d : THREE.Vector3) (vectors : list THREE.Vector3) :
  direction prop = Some d ->
  tagVisible prop vectors
  = Ok (map (fun v => mkPos3D v (JS.gt (THREE.dot v d) (Num 0))) vectors).
Proof.
  intros Hd. unfold tagVisible. rewrite Hd. cbv beta iota.
  induction vectors as [| v vectors IH]; cbn [PSVMarker.mapResult map]; [reflexivity|].
  rewrite IH. reflexivity.
Qed.

Lemma getPolyPositions_total (marker : PSVMarker.Marker) (d : THREE.Vector3)
    (vectors : list THREE.Vector3) :
  PSVMarker.positions3D (PSVMarker.props marker) = Some vectors ->
  direction prop = Some d ->
  exists positions, __getPolyPositions SPHERE_RADIUS prop project marker = Ok positions.
Proof.
  intros Hvectors Hd. unfold __getPolyPositions.
  rewrite Hvectors, (tagVisible_total d vectors Hd).
  destruct (collectPairs_total
              (map (fun v => mkPos3D v (JS.gt (THREE.dot v d) (Num 0))) vectors)
              (map (fun v => mkPos3D v (JS.gt (THREE.dot v d) (Num 0))) vectors) 0 eq_refl)
    as [pairs Hpairs].
  unfold toBeComputed. rewrite Hpairs.
  destruct (mapResult_total
              (fun pair =>
                 match __getPolyIntermediaryPoint SPHERE_RADIUS prop
                         (vector (pairVisible pair)) (vector (pairInvisible pair)) with
                 | Throw e => Throw e
                 | Ok v => Ok (index pair, mkPos3D v true)
                 end) (rev pairs)) as [points Hpoints].
  { intros pair. unfold __getPolyIntermediaryPoint. rewrite Hd. eexists. reflexivity. }
  unfold intermediaryPoints. rewrite Hpoints. eexists. reflexivity.
Qed.

(** With a camera direction, the render of a marker that has its geometry
    ends normally. *)
Lemma renderMarker_total (marker : PSVMarker.Marker) (d : THREE.Vector3) :
  direction prop = Some d ->
  hasGeometry marker ->
  exists marker' isVisible,
    renderMarker SPHERE_RADIUS prop project measure marker = (marker', Ok isVisible).
Proof.
  intros Hd ([a Ha] & first & others & Hvectors).
  unfold renderMarker, Method.bind at 1, Method.get.
  destruct (PSVMarker.visible marker); cbn [andb].
  - destruct (PSVMarker.isPoly marker).
    + destruct (getPolyPositions_total marker d _ Hvectors Hd) as [positions Hpositions].
      unfold Method.bind at 2 3, Method.liftResult. rewrite Hpositions.
      destruct (Nat.ltb _ (List.length positions)); cbn; do 2 eexists; reflexivity.
    + unfold __getMarkerPosition, __isMarkerVisible, setPosition2D, toggleVisibleClass,
        PSVMarker.modifyProps, Method.bind, Method.get, Method.modify, Method.liftResult,
        Method.ret, Method.throw.
      destruct (PSVMarker.dynamicSize (PSVMarker.props marker)); cbn;
        rewrite Hvectors, Ha; cbn; rewrite ?Hvectors, Hd; cbn;
        match goal with
        | |- context [if ?b then _ else _] => destruct b
        end; cbn; do 2 eexists; reflexivity.
  - cbn. do 2 eexists. reflexivity.
Qed.

(** *** The loop over the registry *)

Lemma renderEach_frame (l : list (string * PSVMarker.Marker)) :
  sameRegistry l (fst (renderEach SPHERE_RADIUS prop project measure l)).
Proof.
  unfold sameRegistry.
  induction l as [| [k marker] l IH]; cbn [renderEach]; [constructor|].
  pose proof (renderMarker_frame SPHERE_RADIUS prop project measure marker) as Hframe.
  destruct (renderMarker SPHERE_RADIUS prop project measure marker) as [marker' [b | e]];
    cbn [fst] in Hframe.
  - destruct (renderEach SPHERE_RADIUS prop project measure l) as [l' r]. cbn [fst] in *.
    constructor; [split; [reflexivity | exact Hframe] | exact IH].
  - cbn [fst]. constructor; [split; [reflexivity | exact Hframe]|].
    clear. induction l as [| x l IH]; constructor;
      [split; [reflexivity | apply sameUpToRendering_refl] | exact IH].
Qed.

Lemma renderEach_total (d : THREE.Vector3) (l : list (string * PSVMarker.Marker)) :
  direction prop = Some d ->
  Forall (fun entry => hasGeometry (snd entry)) l ->
  snd (renderEach SPHERE_RADIUS prop project measure l) = Ok tt.
Proof.
  intros Hd. induction 1 as [| [k marker] l Hm _ IH]; cbn [renderEach]; [reflexivity|].
  destruct (renderMarker_total marker d Hd Hm) as (marker' & b & ->).
  destruct (renderEach SPHERE_RADIUS prop project measure l) as [l' r]. exact IH.
Qed.

Lemma renderEach_ok (l l' : list (string * PSVMarker.Marker)) :
  renderEach SPHERE_RADIUS prop project measure l = (l', Ok tt) ->
  Forall (fun entry =>
            PSVMarker.visibleClass (PSVMarker.el (snd entry)) = true ->
            PSVMarker.visible (snd entry) = true) l'.
Proof.
  revert l'. induction l as [| [k marker] l IH]; cbn [renderEach]; intros l' H.
  - inversion H. constructor.
  - pose proof (renderMarker_frame SPHERE_RADIUS prop project measure marker) as Hframe.
    destruct (renderMarker SPHERE_RADIUS prop project measure marker)
      as [marker' [b | e]] eqn:Hrender; [| discriminate H].
    destruct (renderEach SPHERE_RADIUS prop project measure l) as [l'' r].
    inversion H; subst. constructor; [| apply IH; reflexivity].
    cbn [snd fst] in *. destruct (renderMarker_ok _ _ _ Hrender) as [Hclass Hvisible].
    destruct Hframe as (_ & _ & Hv & _). rewrite Hclass, Hv. exact Hvisible.
Qed.

End Pass.

End RenderFacts.

(** ** The operations of the HUD *)

Module HUDOperations.

Import PSVHUD.
Import MarkerFacts MarkerLaws HUDFacts RegistryFacts RenderFacts.

(** *** Registries that are consistent *)

Lemma consistent_nil : consistent [].
Proof. repeat split; constructor. Qed.

Lemma consistent_lookup (l : list (string * PSVMarker.Marker)) (k : string)
    (m : PSVMarker.Marker) :
  consistent l -> lookupMarker k l = Some m -> PSVMarker.id m = k /\ hasGeometry m.
Proof.
  intros [[_ Hid] Hgeo]. induction l as [| [k' m'] l IH]; cbn; [discriminate|].
  inversion Hid; subst. inversion Hgeo; subst.
  destruct (String.eqb_spec k' k) as [-> | Hne].
  - intros H. inversion H; subst. split; assumption.
  - apply IH; assumption.
Qed.

Lemma consistent_store (l : list (string * PSVMarker.Marker)) (k : string)
    (m m' : PSVMarker.Marker) :
  consistent l -> lookupMarker k l = Some m ->
  PSVMarker.id m' = k -> hasGeometry m' ->
  consistent (storeMarker k m' l).
Proof.
  intros Hc Hl Hid Hgeo.
  assert (Hstore : forall (P : string * PSVMarker.Marker -> Prop),
            Forall P l -> P (k, m') -> Forall P (storeMarker k m' l)).
  { intros P HP Hm. clear - HP Hm.
    induction HP as [| [k0 m0] l0 Hx Htail IH]; cbn.
    - constructor; [exact Hm | constructor].
    - destruct (String.eqb_spec k0 k) as [-> | Hne]; constructor; auto. }
  destruct Hc as [[Hnodup Hids] Hgeos].
  split; [split|].
  - rewrite (storeMarker_keys k m' m l Hl). exact Hnodup.
  - apply Hstore; [exact Hids | exact Hid].
  - apply Hstore; [exact Hgeos | exact Hgeo].
Qed.

Lemma consistent_delete (l : list (string * PSVMarker.Marker)) (k : string) :
  consistent l -> consistent (deleteMarker k l).
Proof.
  intros [[Hnodup Hids] Hgeos]. split; [split|].
  - apply deleteMarker_keys, Hnodup.
  - apply deleteMarker_Forall, Hids.
  - apply deleteMarker_Forall, Hgeos.
Qed.

Lemma consistent_add (l : list (string * PSVMarker.Marker)) (m : PSVMarker.Marker) :
  consistent l -> lookupMarker (PSVMarker.id m) l = None -> hasGeometry m ->
  consistent (l ++ [(PSVMarker.id m, m)]).
Proof.
  intros [[Hnodup Hids] Hgeos] Hl Hgeo. split; [split|].
  - rewrite map_app. apply NoDup_app. split; [exact Hnodup|]. split.
    + intros k Hk Hin. cbn in Hin. apply list_elem_of_singleton in Hin. subst k.
      apply lookupMarker_None in Hl. contradiction.
    + apply NoDup_singleton.
  - apply Forall_app. split; [exact Hids | constructor; [reflexivity | constructor]].
  - apply Forall_app. split; [exact Hgeos | constructor; [exact Hgeo | constructor]].
Qed.

Lemma sameRegistry_refl (l : list (string * PSVMarker.Marker)) : sameRegistry l l.
Proof.
  induction l; constructor; [split; [reflexivity | apply sameUpToRendering_refl] | assumption].
Qed.

Lemma sameRegistry_keys (l l' : list (string * PSVMarker.Marker)) :
  sameRegistry l l' -> map fst l' = map fst l.
Proof. induction 1 as [| ? ? ? ? [H _] _ IH]; cbn; [reflexivity|]. rewrite H, IH. reflexivity. Qed.

Lemma sameRegistry_lookup (l l' : list (string * PSVMarker.Marker)) (k : string) :
  sameRegistry l l' ->
  match lookupMarker k l, lookupMarker k l' with
  | Some m, Some m' => sameUpToRendering m m'
  | None, None => True
  | _, _ => False
  end.
Proof.
  induction 1 as [| [k0 m0] [k1 m1] l l' [Hk Hm] _ IH]; cbn; [exact I|].
  cbn in Hk, Hm. subst k1. destruct (String.eqb k0 k); [exact Hm | exact IH].
Qed.

Lemma sameRegistry_consistent (l l' : list (string * PSVMarker.Marker)) :
  sameRegistry l l' -> consistent l -> consistent l'.
Proof.
  intros Hsame [[Hnodup Hids] Hgeos]. split; [split|].
  - rewrite (sameRegistry_keys _ _ Hsame). exact Hnodup.
  - clear Hnodup Hgeos. induction Hsame as [| [k0 m0] [k1 m1] l l' [Hk Hm] _ IH];
      [constructor|].
    inversion Hids; subst. constructor; [| apply IH; assumption].
    cbn in *. destruct Hm as (Hid & _). congruence.
  - clear Hnodup Hids. induction Hsame as [| [k0 m0] [k1 m1] l l' [Hk Hm] _ IH];
      [constructor|].
    inversion Hgeos; subst. constructor; [| apply IH; assumption].
    cbn in *. apply (sameUpToRendering_hasGeometry _ _ Hm). assumption.
Qed.

Section Operations.

Variable SPHERE_RADIUS : number.
Variable prop : ViewerProp.
Variable project : THREE.Vector3 -> THREE.Vector3.
Variable measure : PSVMarker.Marker -> Size.

(** *** renderMarkers *)

Lemma renderMarkers_frame (hud : HUD) :
  sameRegistry (markers hud)
    (markers (fst (renderMarkers SPHERE_RADIUS prop project measure hud))) /\
  componentVisible (fst (renderMarkers SPHERE_RADIUS prop project measure hud))
  = componentVisible hud.
Proof.
  unfold renderMarkers. destruct (componentVisible hud) eqn:Hv; cbn [negb].
  - pose proof (renderEach_frame SPHERE_RADIUS prop project measure (markers hud)) as H.
    destruct (renderEach SPHERE_RADIUS prop project measure (markers hud)) as [l r].
    cbn in *. split; [exact H | reflexivity].
  - cbn. split; [apply sameRegistry_refl | exact Hv].
Qed.

Lemma renderMarkers_consistent (hud : HUD) :
  consistent (markers hud) ->
  consistent (markers (fst (renderMarkers SPHERE_RADIUS prop project measure hud))).
Proof. apply sameRegistry_consistent, renderMarkers_frame. Qed.

Lemma renderMarkers_total (hud : HUD) (d : THREE.Vector3) :
  direction prop = Some d ->
  consistent (markers hud) ->
  snd (renderMarkers SPHERE_RADIUS prop project measure hud) = Ok tt.
Proof.
  intros Hd [_ Hgeo]. unfold renderMarkers.
  destruct (negb (componentVisible hud)); [reflexivity|].
  pose proof (renderEach_total SPHERE_RADIUS prop project measure d (markers hud) Hd Hgeo) as H.
  destruct (renderEach SPHERE_RADIUS prop project measure (markers hud)) as [l r]. exact H.
Qed.

(** *** What each operation does to the registry *)

Lemma getMarker_lookup (k : string) (hud : HUD) :
  getMarker k hud =
  match lookupMarker k (markers hud) with
  | Some marker => Ok marker
  | None => Throw (PSVError ("cannot find marker " ++ dquote ++ k ++ dquote))
  end.
Proof. reflexivity. Qed.

Lemma setMarkerVisible_run (k : string) (v : bool) (hud : HUD) :
  setMarkerVisible SPHERE_RADIUS prop project measure k v hud =
  match lookupMarker k (markers hud) with
  | Some marker =>
      renderMarkers SPHERE_RADIUS prop project measure
        (mkHUD (storeMarker k (PSVMarker.setVisible v marker) (markers hud))
               (componentVisible hud))
  | None => (hud, Throw (PSVError ("cannot find marker " ++ dquote ++ k ++ dquote)))
  end.
Proof.
  unfold setMarkerVisible, Method.bind, Method.get, Method.liftResult, Method.modify.
  rewrite getMarker_lookup. destruct (lookupMarker k (markers hud)); cbn; [|reflexivity].
  destruct (renderMarkers _ _ _ _ _) as [hud' [[] | e]]; reflexivity.
Qed.

Lemma toggleMarker_run (k : string) (hud : HUD) :
  toggleMarker SPHERE_RADIUS prop project measure k hud =
  match lookupMarker k (markers hud) with
  | Some marker =>
      renderMarkers SPHERE_RADIUS prop project measure
        (mkHUD (storeMarker k (PSVMarker.setVisible (negb (PSVMarker.visible marker)) marker)
                  (markers hud))
               (componentVisible hud))
  | None => (hud, Throw (PSVError ("cannot find marker " ++ dquote ++ k ++ dquote)))
  end.
Proof.
  unfold toggleMarker, Method.bind, Method.get, Method.liftResult, Method.modify.
  rewrite getMarker_lookup. destruct (lookupMarker k (markers hud)); cbn; [|reflexivity].
  destruct (renderMarkers _ _ _ _ _) as [hud' [[] | e]]; reflexivity.
Qed.

Lemma removeMarker_run (k : string) (hud : HUD) :
  removeMarker k hud =
  match lookupMarker k (markers hud) with
  | Some marker =>
      (mkHUD (deleteMarker (PSVMarker.id marker) (markers hud)) (componentVisible hud), Ok tt)
  | None => (hud, Throw (PSVError ("cannot find marker " ++ dquote ++ k ++ dquote)))
  end.
Proof.
  unfold removeMarker, Method.bind, Method.get, Method.liftResult, Method.modify.
  rewrite getMarker_lookup. destruct (lookupMarker k (markers hud)); reflexivity.
Qed.

(** With [render] off, [addMarker] either throws and changes nothing, or
    files the marker the constructor built at the end of the registry. *)
Lemma addMarker_run (properties : Properties.t) (hud : HUD) :
  (exists e,
     addMarker SPHERE_RADIUS prop project measure properties false hud = (hud, Throw e) /\
     (PSVMarker.constructor SPHERE_RADIUS prop properties = Throw e \/
      exists k, Properties.id properties = Some k /\
                e = PSVError ("marker " ++ dquote ++ k ++ dquote ++ " already exists") /\
                is_Some (lookupMarker k (markers hud)))) \/
  (exists marker,
     addMarker SPHERE_RADIUS prop project measure properties false hud
     = (mkHUD (markers hud ++ [(PSVMarker.id marker, marker)]) (componentVisible hud),
        Ok marker) /\
     PSVMarker.constructor SPHERE_RADIUS prop properties = Ok marker /\
     lookupMarker (PSVMarker.id marker) (markers hud) = None).
Proof.
  unfold addMarker, Method.bind, Method.get, Method.liftResult, Method.modify, Method.ret,
    Method.throw.
  destruct (Properties.id properties) as [k |] eqn:Hid.
  - destruct (lookupMarker k (markers hud)) as [existing |] eqn:Hlookup.
    + left. eexists. split; [reflexivity|]. right. exists k.
      split; [reflexivity|]. split; [reflexivity|]. rewrite Hlookup. eexists. reflexivity.
    + destruct (PSVMarker.constructor SPHERE_RADIUS prop properties) as [marker | e] eqn:Hc.
      * right. exists marker. split; [reflexivity|]. split; [reflexivity|].
        destruct (constructor_ok _ _ _ _ Hc) as (Hk & _). rewrite Hid in Hk.
        inversion Hk; subst. exact Hlookup.
      * left. exists e. split; [reflexivity | left; reflexivity].
  - destruct (PSVMarker.constructor SPHERE_RADIUS prop properties) as [marker | e] eqn:Hc.
    + destruct (constructor_ok _ _ _ _ Hc) as (Hk & _). rewrite Hid in Hk. discriminate Hk.
    + left. exists e. split; [reflexivity | left; reflexivity].
Qed.

(** With [render] on, the same, followed by a render pass. *)
Lemma addMarker_render (properties : Properties.t) (hud : HUD) :
  addMarker SPHERE_RADIUS prop project measure properties true hud =
  match addMarker SPHERE_RADIUS prop project measure properties false hud with
  | (hud1, Ok marker) =>
      match renderMarkers SPHERE_RADIUS prop project measure hud1 with
      | (hud2, Ok _) => (hud2, Ok marker)
      | (hud2, Throw e) => (hud2, Throw e)
      end
  | (hud1, Throw e) => (hud1, Throw e)
  end.
Proof.
  unfold addMarker, Method.bind, Method.get, Method.liftResult, Method.modify, Method.ret,
    Method.throw.
  destruct (Properties.id properties) as [k |];
    [destruct (lookupMarker k (markers hud)); [reflexivity|] |];
    destruct (PSVMarker.constructor SPHERE_RADIUS prop properties); try reflexivity;
    destruct (renderMarkers _ _ _ _ _) as [hud2 [[] | e]]; reflexivity.
Qed.

End Operations.

Section Invariant.

Variable SPHERE_RADIUS : number.
Variable prop : ViewerProp.
Variable project : THREE.Vector3 -> THREE.Vector3.
Variable measure : PSVMarker.Marker -> Size.

Lemma setMarkerVisible_consistent (k : string) (v : bool) (hud : HUD) :
  consistent (markers hud) ->
  consistent (markers (fst (setMarkerVisible SPHERE_RADIUS prop project measure k v hud))).
Proof.
  intros Hc. rewrite setMarkerVisible_run.
  destruct (lookupMarker k (markers hud)) as [marker |] eqn:Hl; [| exact Hc].
  destruct (consistent_lookup _ _ _ Hc Hl) as [Hid Hgeo].
  apply renderMarkers_consistent. cbn [markers].
  apply (consistent_store _ _ marker); assumption.
Qed.

Lemma toggleMarker_consistent (k : string) (hud : HUD) :
  consistent (markers hud) ->
  consistent (markers (fst (toggleMarker SPHERE_RADIUS prop project measure k hud))).
Proof.
  intros Hc. rewrite toggleMarker_run.
  destruct (lookupMarker k (markers hud)) as [marker |] eqn:Hl; [| exact Hc].
  destruct (consistent_lookup _ _ _ Hc Hl) as [Hid Hgeo].
  apply renderMarkers_consistent. cbn [markers].
  apply (consistent_store _ _ marker); assumption.
Qed.

Lemma removeMarker_consistent (k : string) (hud : HUD) :
  consistent (markers hud) -> consistent (markers (fst (removeMarker k hud))).
Proof.
  intros Hc. rewrite removeMarker_run.
  destruct (lookupMarker k (markers hud)) as [marker |]; [| exact Hc].
  apply consistent_delete, Hc.
Qed.

Lemma addMarker_consistent (properties : Properties.t) (render : bool) (hud : HUD) :
  consistent (markers hud) ->
  consistent (markers (fst (addMarker SPHERE_RADIUS prop project measure properties render hud))).
Proof.
  intros Hc.
  assert (Hfalse : consistent
            (markers (fst (addMarker SPHERE_RADIUS prop project measure properties false hud)))).
  { destruct (addMarker_run SPHERE_RADIUS prop project measure properties hud)
      as [(e & -> & _) | (marker & -> & Hbuilt & Hnew)]; [exact Hc|].
    cbn [fst markers]. apply consistent_add; [exact Hc | exact Hnew|].
    apply (constructor_ok _ _ _ _ Hbuilt). }
  destruct render; [| exact Hfalse].
  rewrite addMarker_render.
  destruct (addMarker SPHERE_RADIUS prop project measure properties false hud)
    as [hud1 [marker | e]]; cbn [fst] in *; [| exact Hfalse].
  pose proof (renderMarkers_consistent SPHERE_RADIUS prop project measure hud1 Hfalse) as H.
  destruct (renderMarkers SPHERE_RADIUS prop project measure hud1) as [hud2 [[] | e]]; exact H.
Qed.

Lemma updateMarker_consistent (properties : PropertiesRef) (render : bool) (hud : HUD) :
  consistent (markers hud) ->
  consistent (markers (fst (updateMarker SPHERE_RADIUS prop project measure
                              properties render hud))).
Proof.
  intros Hc.
  unfold updateMarker, Method.bind at 1, Method.get.
  match goal with
  | |- context [let '(markerId, arg) := ?x in _] => destruct x as [markerId arg]
  end.
  unfold Method.bind at 1, Method.liftResult. rewrite getMarker_lookup.
  destruct (lookupMarker markerId (markers hud)) as [marker |] eqn:Hl; [| exact Hc].
  destruct (consistent_lookup _ _ _ Hc Hl) as [Hid Hgeo].
  unfold Method.bind.
  pose proof (update_keeps SPHERE_RADIUS prop PSVMarker.id arg
                (fun _ _ => eq_refl) (fun _ _ => eq_refl) (fun _ _ => eq_refl) marker) as Hkid.
  pose proof (update_preserves_hasGeometry SPHERE_RADIUS prop arg marker Hgeo) as Hkgeo.
  destruct (PSVMarker.update SPHERE_RADIUS prop arg marker) as [marker' r].
  cbn [fst] in Hkid, Hkgeo.
  assert (H1 : consistent (storeMarker markerId marker' (markers hud))).
  { apply (consistent_store _ _ marker); [exact Hc | exact Hl | congruence | exact Hkgeo]. }
  destruct r as [[] | e]; [| exact H1].
  destruct render; [| exact H1].
  apply (renderMarkers_consistent SPHERE_RADIUS prop project measure (mkHUD _ _) H1).
Qed.

(** *** clearMarkers and setMarkers *)

Lemma removeEach_all (l : list (string * PSVMarker.Marker)) (visible : bool) :
  wellFiled l -> removeEach l (mkHUD l visible) = (mkHUD [] visible, Ok tt).
Proof.
  induction l as [| [k marker] l IH]; intros [Hnodup Hids]; cbn [removeEach]; [reflexivity|].
  inversion Hids as [| ? ? Hid Hids']; subst. cbn in Hid.
  apply NoDup_cons in Hnodup as [_ Hnodup].
  unfold Method.bind. rewrite removeMarker_run. cbn [markers lookupMarker].
  rewrite Hid, String.eqb_refl. cbn [deleteMarker PSVMarker.id]. rewrite Hid, String.eqb_refl.
  cbn [componentVisible]. apply IH. split; assumption.
Qed.

Lemma clearMarkers_run (render : bool) (hud : HUD) :
  wellFiled (markers hud) ->
  clearMarkers SPHERE_RADIUS prop project measure render hud
  = (mkHUD [] (componentVisible hud), Ok tt).
Proof.
  intros Hw. unfold clearMarkers, Method.bind at 1, Method.get. unfold Method.bind.
  destruct hud as [l visible]. cbn [markers componentVisible] in *.
  rewrite (removeEach_all l visible Hw).
  destruct render; [| reflexivity].
  unfold renderMarkers. cbn. destruct visible; reflexivity.
Qed.

(** Adding the markers of a list one after the other files a first part of
    the list after what was registered, and the whole list when nothing
    throws. *)
Lemma addEach_keys (ps : list Properties.t) :
  forall (hud hud' : HUD) (r : result unit),
    addEach SPHERE_RADIUS prop project measure ps hud = (hud', r) ->
    consistent (markers hud) ->
    consistent (markers hud') /\
    componentVisible hud' = componentVisible hud /\
    exists n,
      map fst (markers hud') = map fst (markers hud) ++ map idOf (take n ps) /\
      (r = Ok tt -> n = List.length ps).
Proof.
  induction ps as [| p ps IH]; intros hud hud' r; cbn [addEach].
  - intros H Hc. inversion H; subst. split; [exact Hc|]. split; [reflexivity|].
    exists 0%nat. cbn. rewrite app_nil_r. auto.
  - unfold Method.bind. intros H Hc.
    destruct (addMarker_run SPHERE_RADIUS prop project measure p hud)
      as [(e & Hrun & _) | (marker & Hrun & Hbuilt & Hnew)]; rewrite Hrun in H.
    + inversion H; subst. split; [exact Hc|]. split; [reflexivity|].
      exists 0%nat. cbn. rewrite app_nil_r. split; [reflexivity | discriminate].
    + destruct (constructor_ok _ _ _ _ Hbuilt) as (Hid & _ & _ & _ & Hgeo).
      apply IH in H as (Hc' & Hv & n & Hkeys & Hn).
      2:{ cbn [markers]. apply consistent_add; assumption. }
      split; [exact Hc'|]. split; [exact Hv|].
      exists (S n). cbn [markers] in Hkeys. split.
      * rewrite Hkeys, map_app, <- app_assoc. cbn. unfold idOf at 2. rewrite Hid. reflexivity.
      * intros Hr. cbn. rewrite (Hn Hr). reflexivity.
Qed.

Lemma setMarkers_run (ps : list Properties.t) (render : bool) (hud hud' : HUD)
    (r : result unit) :
  wellFiled (markers hud) ->
  setMarkers SPHERE_RADIUS prop project measure ps render hud = (hud', r) ->
  consistent (markers hud') /\
  exists n,
    map fst (markers hud') = map idOf (take n ps) /\
    (r = Ok tt -> n = List.length ps).
Proof.
  intros Hw. unfold setMarkers, Method.bind at 1.
  rewrite (clearMarkers_run false hud Hw). unfold Method.bind.
  destruct (addEach SPHERE_RADIUS prop project measure ps (mkHUD [] (componentVisible hud)))
    as [hud1 r1] eqn:Hadd.
  apply addEach_keys in Hadd as (Hc & _ & n & Hkeys & Hn); [| apply consistent_nil].
  cbn in Hkeys.
  destruct r1 as [[] | e].
  - destruct render.
    + intros H.
      pose proof (renderMarkers_frame SPHERE_RADIUS prop project measure hud1) as [Hframe _].
      rewrite H in Hframe. cbn [fst] in Hframe.
      split; [apply (sameRegistry_consistent _ _ Hframe Hc)|].
      exists n. rewrite (sameRegistry_keys _ _ Hframe). split; [exact Hkeys|].
      intros _. apply Hn. reflexivity.
    + intros H. inversion H; subst. split; [exact Hc|]. exists n. split; [exact Hkeys | exact Hn].
  - intros H. inversion H; subst. split; [exact Hc|]. exists n. split; [exact Hkeys | discriminate].
Qed.

End Invariant.

(** *** The registry stays consistent *)

Lemma call_consistent (SPHERE_RADIUS : number) (this this' : HUD) :
  call SPHERE_RADIUS this this' -> consistent (markers this) -> consistent (markers this').
Proof.
  intros Hcall Hc. destruct Hcall.
  - apply addMarker_consistent, Hc.
  - apply updateMarker_consistent, Hc.
  - apply removeMarker_consistent, Hc.
  - destruct (setMarkers SPHERE_RADIUS prop project measure list render this)
      as [hud' r] eqn:Hrun.
    apply setMarkers_run in Hrun as [H _]; [exact H | apply Hc].
  - rewrite clearMarkers_run by apply Hc. apply consistent_nil.
  - apply setMarkerVisible_consistent, Hc.
  - apply setMarkerVisible_consistent, Hc.
  - apply toggleMarker_consistent, Hc.
  - apply renderMarkers_consistent, Hc.
  - exact Hc.
Qed.

Lemma reachable_consistent (SPHERE_RADIUS : number) (hud : HUD) :
  reachable SPHERE_RADIUS hud -> consistent (markers hud).
Proof.
  induction 1 as [visible | this this' _ IH Hcall].
  - apply consistent_nil.
  - apply (call_consistent _ _ _ Hcall IH).
Qed.

End HUDOperations.

(** ** What the HUD guarantees *)

Module HUDLaws.

Import PSVHUD.
Import MarkerFacts MarkerLaws HUDFacts RegistryFacts RenderFacts HUDOperations.

(** Property X16.  In every HUD that calls of the public operations lead to
    from the empty one, each marker is filed under its own id, no id is
    filed twice, and every marker has its geometry. *)
Theorem registry_stays_consistent (SPHERE_RADIUS : number) (hud : HUD) :
  reachable SPHERE_RADIUS hud -> consistent (markers hud).
Proof. apply reachable_consistent. Qed.

Lemma wellFiled_lookup (l : list (string * PSVMarker.Marker)) (k : string)
    (m : PSVMarker.Marker) :
  wellFiled l -> lookupMarker k l = Some m -> PSVMarker.id m = k.
Proof.
  intros [_ Hid]. induction l as [| [k' m'] l IH]; cbn; [discriminate|].
  inversion Hid; subst.
  destruct (String.eqb_spec k' k) as [-> | Hne].
  - intros H. inversion H; subst. assumption.
  - apply IH; assumption.
Qed.

Section Registry.

Variable SPHERE_RADIUS : number.
Variable prop : ViewerProp.
Variable project : THREE.Vector3 -> THREE.Vector3.
Variable measure : PSVMarker.Marker -> Size.

(** Property X17.  A marker added without rendering is what [getMarker]
    returns for its id, the other ids are looked up as before, and adding the
    same properties again throws "marker ... already exists" and changes
    nothing. *)
Theorem addMarker_then_getMarker (properties : Properties.t) (hud hud' : HUD)
    (marker : PSVMarker.Marker) :
  addMarker SPHERE_RADIUS prop project measure properties false hud = (hud', Ok marker) ->
  getMarker (PSVMarker.id marker) hud' = Ok marker /\
  (forall k, k <> PSVMarker.id marker ->
             lookupMarker k (markers hud') = lookupMarker k (markers hud)) /\
  forall render,
    addMarker SPHERE_RADIUS prop project measure properties render hud'
    = (hud', Throw (PSVError ("marker " ++ dquote ++ PSVMarker.id marker ++ dquote
                              ++ " already exists"))).
Proof.
  intros Hrun.
  destruct (addMarker_run SPHERE_RADIUS prop project measure properties hud)
    as [(e & Hthrow & _) | (marker0 & Hok & Hbuilt & Hnew)];
    rewrite Hrun in *; [discriminate Hthrow|].
  inversion Hok; subst marker0 hud'. clear Hok.
  destruct (constructor_ok _ _ _ _ Hbuilt) as (Hid & _).
  assert (Hfound : lookupMarker (PSVMarker.id marker)
                     (markers hud ++ [(PSVMarker.id marker, marker)]) = Some marker).
  { rewrite lookupMarker_app, Hnew. cbn. rewrite String.eqb_refl. reflexivity. }
  split; [rewrite getMarker_lookup; cbn [markers]; rewrite Hfound; reflexivity|].
  split.
  - intros k Hk. cbn [markers]. rewrite lookupMarker_app.
    destruct (lookupMarker k (markers hud)); [reflexivity|].
    cbn. rewrite (proj2 (String.eqb_neq _ _)) by congruence. reflexivity.
  - intros render. unfold addMarker, Method.bind at 1 2, Method.get.
    rewrite Hid. cbn [markers]. rewrite Hfound. reflexivity.
Qed.

(** Property X18.  In a registry that is well filed, removing a marker that
    is registered ends normally; afterwards [getMarker] throws "cannot find
    marker" for its id, and the other ids are looked up as before. *)
Theorem removeMarker_then_getMarker (k : string) (hud : HUD) (marker : PSVMarker.Marker) :
  wellFiled (markers hud) ->
  lookupMarker k (markers hud) = Some marker ->
  exists hud',
    removeMarker k hud = (hud', Ok tt) /\
    getMarker k hud' = Throw (PSVError ("cannot find marker " ++ dquote ++ k ++ dquote)) /\
    forall k', k' <> k -> lookupMarker k' (markers hud') = lookupMarker k' (markers hud).
Proof.
  intros Hw Hl. rewrite removeMarker_run, Hl.
  rewrite (wellFiled_lookup _ _ _ Hw Hl).
  eexists. split; [reflexivity|]. cbn [markers].
  destruct (deleteMarker_keys k (markers hud) (proj1 Hw)) as (_ & Hgone & Hothers).
  split; [| exact Hothers].
  rewrite getMarker_lookup. cbn [markers].
  apply lookupMarker_None in Hgone. rewrite Hgone. reflexivity.
Qed.

(** Property X19.  Removing the marker that was just added without rendering
    gives back the HUD as it was before. *)
Theorem addMarker_removeMarker (properties : Properties.t) (hud hud' : HUD)
    (marker : PSVMarker.Marker) :
  addMarker SPHERE_RADIUS prop project measure properties false hud = (hud', Ok marker) ->
  removeMarker (PSVMarker.id marker) hud' = (hud, Ok tt).
Proof.
  intros Hrun.
  destruct (addMarker_run SPHERE_RADIUS prop project measure properties hud)
    as [(e & Hthrow & _) | (marker0 & Hok & Hbuilt & Hnew)];
    rewrite Hrun in *; [discriminate Hthrow|].
  inversion Hok; subst marker0 hud'. clear Hok.
  rewrite removeMarker_run. cbn [markers componentVisible].
  rewrite lookupMarker_app, Hnew. cbn. rewrite String.eqb_refl.
  rewrite deleteMarker_last by (apply lookupMarker_None, Hnew).
  destruct hud. reflexivity.
Qed.

(** Property X20.  A render pass keeps the keys of the registry and whether
    the component is shown, and of each marker everything but the measured
    size, the 2D position and the element. *)
Theorem renderMarkers_changes_rendering_only (hud : HUD) :
  sameRegistry (markers hud)
    (markers (fst (renderMarkers SPHERE_RADIUS prop project measure hud))) /\
  componentVisible (fst (renderMarkers SPHERE_RADIUS prop project measure hud))
  = componentVisible hud.
Proof. apply renderMarkers_frame. Qed.

(** Property X21.  After a render pass that ends normally on a HUD that is
    shown, no marker whose [visible] flag is off carries the class
    [psv-marker--visible]. *)
Theorem hidden_marker_not_shown (hud hud' : HUD) :
  componentVisible hud = true ->
  renderMarkers SPHERE_RADIUS prop project measure hud = (hud', Ok tt) ->
  Forall (fun entry =>
            PSVMarker.visible (snd entry) = false ->
            PSVMarker.visibleClass (PSVMarker.el (snd entry)) = false)
         (markers hud').
Proof.
  intros Hv. unfold renderMarkers. rewrite Hv. cbn [negb].
  destruct (renderEach SPHERE_RADIUS prop project measure (markers hud)) as [l r] eqn:Heach.
  intros H. inversion H; subst. cbn [markers].
  apply renderEach_ok in Heach. eapply Forall_impl; [exact Heach|].
  intros entry Himp Hhidden. cbv beta in Himp.
  destruct (PSVMarker.visibleClass (PSVMarker.el entry.2)); [| reflexivity].
  rewrite Himp in Hhidden by reflexivity. discriminate Hhidden.
Qed.

(** After [toggleMarker], the marker is registered with the opposite flag. *)
Lemma toggleMarker_flag (k : string) (hud : HUD) (marker : PSVMarker.Marker) :
  lookupMarker k (markers hud) = Some marker ->
  exists marker',
    lookupMarker k (markers (fst (toggleMarker SPHERE_RADIUS prop project measure k hud)))
    = Some marker' /\
    PSVMarker.visible marker' = negb (PSVMarker.visible marker).
Proof.
  intros Hl. rewrite toggleMarker_run, Hl.
  match goal with
  | |- context [renderMarkers _ _ _ _ ?h] =>
      pose proof (renderMarkers_frame SPHERE_RADIUS prop project measure h) as [Hframe _]
  end.
  apply (sameRegistry_lookup _ _ k) in Hframe. cbn [markers] in Hframe.
  rewrite lookupMarker_store, String.eqb_refl in Hframe.
  match type of Hframe with
  | match ?x with _ => _ end => destruct x as [marker' |]; [| contradiction]
  end.
  exists marker'. split; [reflexivity|].
  destruct Hframe as (_ & _ & Hvisible & _). exact Hvisible.
Qed.

(** Property X22.  [toggleMarker] inverts the [visible] flag of the marker,
    read as a truth value, and a second [toggleMarker] puts it back, whether
    or not the render passes end normally. *)
Theorem toggleMarker_twice (k : string) (hud : HUD) (marker : PSVMarker.Marker) :
  lookupMarker k (markers hud) = Some marker ->
  exists once twice,
    lookupMarker k (markers (fst (toggleMarker SPHERE_RADIUS prop project measure k hud)))
    = Some once /\
    PSVMarker.visible once = negb (PSVMarker.visible marker) /\
    lookupMarker k
      (markers (fst (toggleMarker SPHERE_RADIUS prop project measure k
                       (fst (toggleMarker SPHERE_RADIUS prop project measure k hud)))))
    = Some twice /\
    PSVMarker.visible twice = PSVMarker.visible marker.
Proof.
  intros Hl.
  destruct (toggleMarker_flag k hud marker Hl) as (once & Hl1 & Hv1).
  destruct (toggleMarker_flag k _ once Hl1) as (twice & Hl2 & Hv2).
  exists once, twice. repeat split; try assumption.
  rewrite Hv2, Hv1. apply negb_involutive.
Qed.

(** Property X23.  On a registry that is well filed, [clearMarkers] ends
    normally and leaves no marker ([each] visiting every marker that is
    registered when it starts). *)
Theorem clearMarkers_empties (render : bool) (hud : HUD) :
  wellFiled (markers hud) ->
  clearMarkers SPHERE_RADIUS prop project measure render hud
  = (mkHUD [] (componentVisible hud), Ok tt).
Proof. apply clearMarkers_run. Qed.

(** Property X24.  After [setMarkers], whatever its outcome, the registered
    markers are exactly those of a first part of the list, and of the whole
    list when it ended normally: nothing remains of the earlier registry, even
    when a marker of the list is refused and [setMarkers] throws. *)
Theorem setMarkers_replaces (list : list Properties.t) (render : bool) (hud hud' : HUD)
    (r : result unit) :
  wellFiled (markers hud) ->
  setMarkers SPHERE_RADIUS prop project measure list render hud = (hud', r) ->
  exists n,
    (forall k, is_Some (lookupMarker k (markers hud')) <-> k ∈ map idOf (take n list)) /\
    (r = Ok tt -> n = List.length list).
Proof.
  intros Hw Hrun.
  destruct (proj2 (setMarkers_run _ _ _ _ _ _ _ _ _ Hw Hrun)) as (n & Hkeys & Hn).
  exists n. split; [| exact Hn].
  intros k. rewrite lookupMarker_Some, Hkeys. reflexivity.
Qed.

(** Property X25.  Once the camera direction is set, a render pass on a HUD
    that calls of the public operations lead to ends normally. *)
Theorem renderMarkers_never_throws (hud : HUD) (d : THREE.Vector3) :
  reachable SPHERE_RADIUS hud ->
  direction prop = Some d ->
  snd (renderMarkers SPHERE_RADIUS prop project measure hud) = Ok tt.
Proof.
  intros Hreach Hd. apply (renderMarkers_total _ _ _ _ _ d Hd).
  apply (reachable_consistent _ _ Hreach).
Qed.

End Registry.

(** *** Frame visibility *)

Lemma collectPairs_visible (positions3D rest : list Pos3D) (i : nat) :
  Forall (fun pos => visible pos = true) rest -> collectPairs positions3D i rest = Ok [].
Proof.
  intros H. revert i. induction H as [| pos rest Hpos _ IH]; intros i; cbn [collectPairs];
    [reflexivity|].
  rewrite Hpos, IH. reflexivity.
Qed.

Lemma filter_visible (positions3D : list Pos3D) :
  Forall (fun pos => visible pos = true) positions3D ->
  List.filter (fun pos => visible pos) positions3D = positions3D.
Proof.
  induction 1 as [| pos l Hpos _ IH]; cbn; [reflexivity|]. rewrite Hpos, IH. reflexivity.
Qed.

(** *** The smallest and the largest coordinate *)

Lemma fold_min_Num (us : list R) (a : R) :
  fold_left Math.min (map Num us) (Num a) = Num (fold_left Rmin us a).
Proof. revert a. induction us as [| u us IH]; intros a; cbn; [reflexivity | apply IH]. Qed.

Lemma fold_max_Num (us : list R) (a : R) :
  fold_left Math.max (map Num us) (Num a) = Num (fold_left Rmax us a).
Proof. revert a. induction us as [| u us IH]; intros a; cbn; [reflexivity | apply IH]. Qed.

Lemma fold_Rmin_spec (us : list R) (a : R) :
  Forall (fun u => fold_left Rmin us a <= u) (a :: us) /\ In (fold_left Rmin us a) (a :: us).
Proof.
  revert a. induction us as [| u us IH]; intros a; cbn [fold_left].
  - split; [repeat constructor; lra | left; reflexivity].
  - destruct (IH (Rmin a u)) as [Hle Hin]. split.
    + inversion Hle as [| ? ? Hm Hrest]; subst.
      constructor; [| constructor; [| exact Hrest]].
      * pose proof (Rmin_l a u). lra.
      * pose proof (Rmin_r a u). lra.
    + destruct Hin as [Heq | Hin]; [| right; right; exact Hin].
      rewrite <- Heq. unfold Rmin. destruct (Rle_dec a u); [left | right; left]; reflexivity.
Qed.

Lemma fold_Rmax_spec (us : list R) (a : R) :
  Forall (fun u => u <= fold_left Rmax us a) (a :: us) /\ In (fold_left Rmax us a) (a :: us).
Proof.
  revert a. induction us as [| u us IH]; intros a; cbn [fold_left].
  - split; [repeat constructor; lra | left; reflexivity].
  - destruct (IH (Rmax a u)) as [Hle Hin]. split.
    + inversion Hle as [| ? ? Hm Hrest]; subst.
      constructor; [| constructor; [| exact Hrest]].
      * pose proof (Rmax_l a u). lra.
      * pose proof (Rmax_r a u). lra.
    + destruct Hin as [Heq | Hin]; [| right; right; exact Hin].
      rewrite <- Heq. unfold Rmax. destruct (Rle_dec a u); [right; left | left]; reflexivity.
Qed.

(** On numbers, the smallest (largest) of a list that is not empty is one of
    them and is below (above) all of them. *)
Lemma extremum_min (us : list R) :
  us <> [] ->
  exists m, extremum Math.min (map Num us) = Num m /\ In m us /\ Forall (fun u => m <= u) us.
Proof.
  destruct us as [| a us]; [congruence|]. intros _. cbn [map extremum].
  rewrite fold_min_Num. destruct (fold_Rmin_spec us a) as [Hle Hin]. eauto.
Qed.

Lemma extremum_max (us : list R) :
  us <> [] ->
  exists m, extremum Math.max (map Num us) = Num m /\ In m us /\ Forall (fun u => u <= m) us.
Proof.
  destruct us as [| a us]; [congruence|]. intros _. cbn [map extremum].
  rewrite fold_max_Num. destruct (fold_Rmax_spec us a) as [Hle Hin]. eauto.
Qed.

(** Property X26.  For positions that are numbers, and at least one of them,
    [__getPolyDimensions] returns the left top corner of the smallest box
    that holds them all and stores the width and the height of that box. *)
Theorem getPolyDimensions_bounding_box (coords : list (R * R)) (marker : PSVMarker.Marker) :
  coords <> [] ->
  exists left top width height : R,
    snd (__getPolyDimensions (map pixel coords) marker) = Ok (pixel (left, top)) /\
    PSVMarker.width (PSVMarker.props (fst (__getPolyDimensions (map pixel coords) marker)))
    = Some (Num width) /\
    PSVMarker.height (PSVMarker.props (fst (__getPolyDimensions (map pixel coords) marker)))
    = Some (Num height) /\
    Forall (fun c => left <= fst c <= left + width /\ top <= snd c <= top + height) coords /\
    In left (map fst coords) /\ In (left + width) (map fst coords) /\
    In top (map snd coords) /\ In (top + height) (map snd coords).
Proof.
  intros Hne.
  assert (Hx : map x (map pixel coords) = map Num (map fst coords))
    by (rewrite !map_map; reflexivity).
  assert (Hy : map y (map pixel coords) = map Num (map snd coords))
    by (rewrite !map_map; reflexivity).
  assert (Hnx : map fst coords <> []) by (destruct coords; [congruence | discriminate]).
  assert (Hny : map snd coords <> []) by (destruct coords; [congruence | discriminate]).
  destruct (extremum_min _ Hnx) as (minX & HminX & HinX & HleX).
  destruct (extremum_max _ Hnx) as (maxX & HmaxX & HinX' & HgeX).
  destruct (extremum_min _ Hny) as (minY & HminY & HinY & HleY).
  destruct (extremum_max _ Hny) as (maxY & HmaxY & HinY' & HgeY).
  exists minX, minY, (maxX - minX), (maxY - minY).
  unfold __getPolyDimensions, Method.bind, PSVMarker.modifyProps, Method.modify, Method.ret.
  cbn [fst snd PSVMarker.props PSVMarker.setProps PSVMarker.width PSVMarker.height].
  rewrite Hx, Hy, HminX, HmaxX, HminY, HmaxY.
  split; [reflexivity|]. split; [reflexivity|]. split; [reflexivity|].
  replace (minX + (maxX - minX)) with maxX by ring.
  replace (minY + (maxY - minY)) with maxY by ring.
  split; [| tauto].
  rewrite List.Forall_forall in HleX, HgeX, HleY, HgeY.
  apply List.Forall_forall. intros c Hc.
  assert (H1 : In (fst c) (map fst coords)) by (apply in_map, Hc).
  assert (H2 : In (snd c) (map snd coords)) by (apply in_map, Hc).
  pose proof (HleX _ H1). pose proof (HgeX _ H1). pose proof (HleY _ H2). pose proof (HgeY _ H2).
  lra.
Qed.

Section Clipping.

Variable SPHERE_RADIUS : number.
Variable prop : ViewerProp.
Variable project : THREE.Vector3 -> THREE.Vector3.
Variable measure : PSVMarker.Marker -> Size.

(** Property X27.  For a polygon marker that is shown and has at least three
    vertices, all with a positive dot product with the camera direction, the
    positions are the projections of the vertices, in order, with no
    intermediary point; the render of the marker writes them as the points of
    the element and sets the class [psv-marker--visible]. *)
Theorem polygon_in_front (marker : PSVMarker.Marker) (vectors : list THREE.Vector3)
    (d : THREE.Vector3) :
  PSVMarker.isPolygon marker = true ->
  PSVMarker.visible marker = true ->
  PSVMarker.positions3D (PSVMarker.props marker) = Some vectors ->
  (2 < List.length vectors)%nat ->
  direction prop = Some d ->
  Forall (fun v => JS.gt (THREE.dot v d) (Num 0) = true) vectors ->
  __getPolyPositions SPHERE_RADIUS prop project marker
  = Ok (map (PSVDataHelper.vector3ToViewerCoords prop project) vectors) /\
  exists marker',
    renderMarker SPHERE_RADIUS prop project measure marker = (marker', Ok true) /\
    PSVMarker.el marker'
    = PSVMarker.mkElement true
        (Some (map (PSVDataHelper.vector3ToViewerCoords prop project) vectors)).
Proof.
  intros Hpolygon Hvisible Hvectors Hlen Hd Hfront.
  assert (Htag : tagVisible prop vectors = Ok (map (fun v => mkPos3D v true) vectors)).
  { rewrite (tagVisible_total prop d vectors Hd). f_equal.
    clear Hlen Hvectors. induction Hfront as [| v vectors Hv _ IH]; cbn [map]; [reflexivity|].
    rewrite Hv, IH. reflexivity. }
  assert (Hall : Forall (fun pos => visible pos = true) (map (fun v => mkPos3D v true) vectors)).
  { apply Forall_map, Forall_forall. intros; reflexivity. }
  assert (Hpositions :
    __getPolyPositions SPHERE_RADIUS prop project marker
    = Ok (map (PSVDataHelper.vector3ToViewerCoords prop project) vectors)).
  { unfold __getPolyPositions. rewrite Hvectors, Htag.
    unfold toBeComputed. rewrite (collectPairs_visible _ _ 0 Hall). cbn.
    rewrite (filter_visible _ Hall), map_map. reflexivity. }
  split; [exact Hpositions|].
  unfold renderMarker, Method.bind at 1, Method.get.
  unfold PSVMarker.isPoly. rewrite Hvisible, Hpolygon. cbn [andb orb].
  unfold Method.bind at 2 3, Method.liftResult. rewrite Hpositions.
  rewrite length_map. rewrite (proj2 (Nat.ltb_lt _ _) Hlen).
  eexists. split; reflexivity.
Qed.

(** Property X28.  A marker that is neither a polygon nor a polyline and whose
    vector has a dot product with the camera direction that is not positive is
    not frame-visible: the render of the marker ends normally, takes the class
    [psv-marker--visible] off and keeps the 2D position. *)
Theorem point_marker_behind_camera (marker : PSVMarker.Marker) (first : THREE.Vector3)
    (others : list THREE.Vector3) (a : Point) (d : THREE.Vector3) :
  PSVMarker.isPoly marker = false ->
  PSVMarker.positions3D (PSVMarker.props marker) = Some (first :: others) ->
  PSVMarker.anchor (PSVMarker.props marker) = Some a ->
  direction prop = Some d ->
  nonPositive (THREE.dot first d) ->
  exists marker',
    renderMarker SPHERE_RADIUS prop project measure marker = (marker', Ok false) /\
    PSVMarker.visibleClass (PSVMarker.el marker') = false /\
    PSVMarker.position2D (PSVMarker.props marker')
    = PSVMarker.position2D (PSVMarker.props marker).
Proof.
  intros Hpoly Hvectors Ha Hd Hbehind.
  apply nonPositive_not_gt in Hbehind.
  unfold renderMarker, Method.bind at 1, Method.get. rewrite Hpoly, andb_false_r.
  destruct (PSVMarker.visible marker).
  - unfold __getMarkerPosition, __isMarkerVisible, setPosition2D, toggleVisibleClass,
      PSVMarker.modifyProps, Method.bind, Method.get, Method.modify, Method.liftResult,
      Method.ret, Method.throw.
    destruct (PSVMarker.dynamicSize (PSVMarker.props marker)); cbn -[THREE.dot JS.gt];
      rewrite Hvectors, Ha; cbn -[THREE.dot JS.gt]; rewrite ?Hvectors, Hd, Hbehind;
      cbn; eexists; repeat split; reflexivity.
  - cbn. eexists. repeat split; reflexivity.
Qed.

End Clipping.

(** *** Instances *)

Lemma registry_stays_consistent_witness :
  consistent
    (markers (fst (addMarker (Num 100) PhotoSphereViewer.initialProp Samples.flat Samples.unmeasured
                     Samples.htmlMarker false Samples.emptyHUD))).
Proof.
  apply (registry_stays_consistent (Num 100)).
  apply (reachable_call (Num 100) Samples.emptyHUD).
  - apply reachable_new.
  - apply call_addMarker.
Defined.

Lemma addMarker_then_getMarker_witness :
  exists marker,
    snd (addMarker (Num 100) PhotoSphereViewer.initialProp Samples.flat Samples.unmeasured
           Samples.htmlMarker false Samples.emptyHUD) = Ok marker /\
    let hud' := fst (addMarker (Num 100) PhotoSphereViewer.initialProp
        Samples.flat Samples.unmeasured
                       Samples.htmlMarker false Samples.emptyHUD) in
    getMarker (PSVMarker.id marker) hud' = Ok marker /\
    (forall k, k <> PSVMarker.id marker ->
               lookupMarker k (markers hud') = lookupMarker k (markers Samples.emptyHUD)) /\
    forall render,
      addMarker (Num 100) PhotoSphereViewer.initialProp Samples.flat Samples.unmeasured
        Samples.htmlMarker render hud'
      = (hud', Throw (PSVError ("marker " ++ dquote ++ PSVMarker.id marker ++ dquote
                                ++ " already exists"))).
Proof.
  eexists. split; [vm_compute; reflexivity|]. cbv zeta.
  match goal with
  | |- getMarker (PSVMarker.id ?m) (fst (?c ?h)) = _ /\ _ =>
      refine (addMarker_then_getMarker (Num 100) PhotoSphereViewer.initialProp
          Samples.flat Samples.unmeasured
                Samples.htmlMarker h (fst (c h)) m (run_ok c h m _))
  end.
  vm_compute. reflexivity.
Defined.

Lemma removeMarker_then_getMarker_witness :
  exists hud',
    removeMarker "p1" Samples.polygonHUD = (hud', Ok tt) /\
    getMarker "p1" hud' = Throw (PSVError ("cannot find marker " ++ dquote ++ "p1" ++ dquote)) /\
    forall k', k' <> "p1"%string ->
               lookupMarker k' (markers hud') = lookupMarker k' (markers Samples.polygonHUD).
Proof.
  apply (removeMarker_then_getMarker "p1" Samples.polygonHUD Samples.polygonBehind).
  - split; [apply NoDup_singleton | constructor; [reflexivity | constructor]].
  - reflexivity.
Defined.

Lemma addMarker_removeMarker_witness :
  exists marker,
    snd (addMarker (Num 100) PhotoSphereViewer.initialProp Samples.flat Samples.unmeasured
           Samples.htmlMarker false Samples.emptyHUD) = Ok marker /\
    removeMarker (PSVMarker.id marker)
      (fst (addMarker (Num 100) PhotoSphereViewer.initialProp Samples.flat Samples.unmeasured
              Samples.htmlMarker false Samples.emptyHUD))
    = (Samples.emptyHUD, Ok tt).
Proof.
  eexists. split; [vm_compute; reflexivity|].
  match goal with
  | |- removeMarker (PSVMarker.id ?m) (fst (?c ?h)) = _ =>
      refine (addMarker_removeMarker (Num 100) PhotoSphereViewer.initialProp
          Samples.flat Samples.unmeasured
                Samples.htmlMarker h (fst (c h)) m (run_ok c h m _))
  end.
  vm_compute. reflexivity.
Defined.

Lemma hidden_marker_not_shown_witness :
  Forall (fun entry =>
            PSVMarker.visible (snd entry) = false ->
            PSVMarker.visibleClass (PSVMarker.el (snd entry)) = false)
         (markers (fst (renderMarkers (Num 100) PhotoSphereViewer.initialProp
             Samples.flat Samples.unmeasured
                          Samples.hiddenPolygonHUD))).
Proof.
  refine (hidden_marker_not_shown (Num 100) PhotoSphereViewer.initialProp
      Samples.flat Samples.unmeasured
            Samples.hiddenPolygonHUD _ _
            (run_ok (renderMarkers (Num 100) PhotoSphereViewer.initialProp
                Samples.flat Samples.unmeasured)
                    Samples.hiddenPolygonHUD tt _)).
  - reflexivity.
  - vm_compute. reflexivity.
Defined.

Lemma toggleMarker_twice_witness :
  exists once twice,
    lookupMarker "p1"
      (markers (fst (toggleMarker (Num 100) PhotoSphereViewer.initialProp
          Samples.flat Samples.unmeasured
                       "p1" Samples.polygonHUD)))
    = Some once /\
    PSVMarker.visible once = negb (PSVMarker.visible Samples.polygonBehind) /\
    lookupMarker "p1"
      (markers (fst (toggleMarker (Num 100) PhotoSphereViewer.initialProp
          Samples.flat Samples.unmeasured "p1"
                       (fst (toggleMarker (Num 100) PhotoSphereViewer.initialProp Samples.flat
                               Samples.unmeasured "p1" Samples.polygonHUD)))))
    = Some twice /\
    PSVMarker.visible twice = PSVMarker.visible Samples.polygonBehind.
Proof.
  apply (toggleMarker_twice (Num 100) PhotoSphereViewer.initialProp Samples.flat Samples.unmeasured
           "p1" Samples.polygonHUD Samples.polygonBehind).
  reflexivity.
Defined.

Lemma clearMarkers_empties_witness :
  clearMarkers (Num 100) PhotoSphereViewer.initialProp
      Samples.flat Samples.unmeasured true Samples.polygonHUD
  = (mkHUD [] (componentVisible Samples.polygonHUD), Ok tt).
Proof.
  apply (clearMarkers_empties (Num 100) PhotoSphereViewer.initialProp
      Samples.flat Samples.unmeasured
           true Samples.polygonHUD).
  split; [apply NoDup_singleton | constructor; [reflexivity | constructor]].
Defined.

Lemma setMarkers_replaces_witness :
  exists n,
    (forall k,
       is_Some (lookupMarker k
                  (markers (fst (setMarkers (Num 100) PhotoSphereViewer.initialProp Samples.flat
                                   Samples.unmeasured [Samples.htmlMarker; Samples.htmlNoPosition]
                                   false Samples.polygonHUD))))
       <-> k ∈ map idOf (take n [Samples.htmlMarker; Samples.htmlNoPosition])) /\
    (snd (setMarkers (Num 100) PhotoSphereViewer.initialProp Samples.flat Samples.unmeasured
            [Samples.htmlMarker; Samples.htmlNoPosition] false Samples.polygonHUD) = Ok tt ->
     n = List.length [Samples.htmlMarker; Samples.htmlNoPosition]).
Proof.
  apply (setMarkers_replaces (Num 100) PhotoSphereViewer.initialProp Samples.flat Samples.unmeasured
           [Samples.htmlMarker; Samples.htmlNoPosition] false Samples.polygonHUD).
  - split; [apply NoDup_singleton | constructor; [reflexivity | constructor]].
  - apply surjective_pairing.
Defined.

Lemma renderMarkers_never_throws_witness :
  snd (renderMarkers (Num 100)
         (Samples.withPano Samples.croppedPano 60 40 (Some Samples.alongZ))
             Samples.flat Samples.unmeasured
         (fst (addMarker (Num 100) PhotoSphereViewer.initialProp Samples.flat Samples.unmeasured
                 Samples.htmlMarker false Samples.emptyHUD)))
  = Ok tt.
Proof.
  apply (renderMarkers_never_throws (Num 100)
           (Samples.withPano Samples.croppedPano 60 40 (Some Samples.alongZ))
               Samples.flat Samples.unmeasured
           _ Samples.alongZ).
  - apply (reachable_call (Num 100) Samples.emptyHUD).
    + apply reachable_new.
    + apply call_addMarker.
  - reflexivity.
Defined.

Lemma polygon_in_front_witness :
  __getPolyPositions (Num 100)
    (Samples.withPano Samples.croppedPano 60 40 (Some Samples.againstZ))
        Samples.flat Samples.polygonBehind
  = Ok (map (PSVDataHelper.vector3ToViewerCoords
               (Samples.withPano Samples.croppedPano 60 40 (Some Samples.againstZ)) Samples.flat)
          [THREE.mkVector3 (Num 0) (Num 0) (Num (-100));
           THREE.mkVector3 (Num 10) (Num 0) (Num (-100));
           THREE.mkVector3 (Num 0) (Num 10) (Num (-100))]).
Proof.
  refine (proj1
    (polygon_in_front (Num 100)
       (Samples.withPano Samples.croppedPano 60 40 (Some Samples.againstZ))
           Samples.flat Samples.unmeasured
       Samples.polygonBehind
       [THREE.mkVector3 (Num 0) (Num 0) (Num (-100));
        THREE.mkVector3 (Num 10) (Num 0) (Num (-100));
        THREE.mkVector3 (Num 0) (Num 10) (Num (-100))]
       Samples.againstZ _ _ _ _ _ _)).
  - reflexivity.
  - reflexivity.
  - reflexivity.
  - cbn. lia.
  - reflexivity.
  - repeat constructor; cbn; apply Rltb_true; lra.
Defined.

Lemma getPolyDimensions_bounding_box_witness :
  exists left top width height : R,
    snd (__getPolyDimensions (map pixel [(0, 0); (4, 3)]) Samples.polygonBehind)
    = Ok (pixel (left, top)) /\
    PSVMarker.width (PSVMarker.props
      (fst (__getPolyDimensions (map pixel [(0, 0); (4, 3)]) Samples.polygonBehind)))
    = Some (Num width) /\
    PSVMarker.height (PSVMarker.props
      (fst (__getPolyDimensions (map pixel [(0, 0); (4, 3)]) Samples.polygonBehind)))
    = Some (Num height) /\
    Forall (fun c => left <= fst c <= left + width /\ top <= snd c <= top + height)
           [(0, 0); (4, 3)] /\
    In left (map fst [(0, 0); (4, 3)]) /\ In (left + width) (map fst [(0, 0); (4, 3)]) /\
    In top (map snd [(0, 0); (4, 3)]) /\ In (top + height) (map snd [(0, 0); (4, 3)]).
Proof.
  apply (getPolyDimensions_bounding_box [(0, 0); (4, 3)] Samples.polygonBehind).
  discriminate.
Defined.

Lemma point_marker_behind_camera_witness :
  exists marker',
    renderMarker (Num 100) (Samples.withPano Samples.croppedPano 60 40 (Some Samples.alongZ))
      Samples.flat Samples.unmeasured Samples.pointBehind = (marker', Ok false) /\
    PSVMarker.visibleClass (PSVMarker.el marker') = false /\
    PSVMarker.position2D (PSVMarker.props marker')
    = PSVMarker.position2D (PSVMarker.props Samples.pointBehind).
Proof.
  apply (point_marker_behind_camera (Num 100)
           (Samples.withPano Samples.croppedPano 60 40 (Some Samples.alongZ))
           Samples.flat Samples.unmeasured Samples.pointBehind
           (THREE.mkVector3 (Num 0) (Num 0) (Num (-100))) []
           (utils.parsePosition None) Samples.alongZ).
  - reflexivity.
  - reflexivity.
  - reflexivity.
  - reflexivity.
  - cbn. lra.
Defined.

End HUDLaws.

(** ** More on the viewer *)

Module ViewerLaws.

Import PhotoSphereViewer.
Import ViewerFacts ConversionFacts.

(** Property X29.  On a cubemap, a position given in pixels is refused with a
    [PSVError] by [rotate] and, when nothing is loading, by [setPanorama]; the
    viewer is left as it was, and no load is started. *)
Theorem pixel_position_refused_on_cubemap (this : Viewer) (pos : ExtendedPosition)
    (px py : number) (path : string) (transitionArg : bool) :
  isCubemap (prop this) = true ->
  ep_x pos = Some px -> ep_y pos = Some py ->
  rotate pos this = (this, Throw (PSVError "Unable to use texture coords with cubemap.")) /\
  (loadingPromise (prop this) = None ->
   setPanorama path (APosition pos) transitionArg this
   = (this, Throw (PSVError "Unable to use texture coords with cubemap."))).
Proof.
  intros Hcube Hx Hy.
  assert (Hclean : PSVDataHelper.cleanPosition (prop this) pos
                   = Throw (PSVError "Unable to use texture coords with cubemap.")).
  { unfold PSVDataHelper.cleanPosition, PSVDataHelper.textureCoordsToSphericalCoords.
    rewrite Hx, Hy, Hcube. reflexivity. }
  split.
  - unfold rotate, Method.bind, Method.get, Method.liftResult. rewrite Hclean. reflexivity.
  - intros Hidle. unfold setPanorama, Method.bind at 1, Method.get. rewrite Hidle.
    cbv beta iota. unfold Method.bind at 1 2, Method.liftResult. rewrite Hclean. reflexivity.
Qed.

Section Zoom.

Variable bound : number -> number -> number -> number.
Variable zoomSpeed : number.

(** Property X30.  Provided [bound] answers a number between the bounds it is
    given, and [minFov <= maxFov], [zoom] leaves a zoom level between 0 and
    100, a vertical field of view between [minFov] and [maxFov], the
    horizontal field of view computed from it, and the update flag set. *)
Theorem zoom_in_range (this : Viewer) (a b level : R) :
  (forall x : R, exists l : R, bound (Num x) (Num 0) (Num 100) = Num l /\ 0 <= l <= 100) ->
  minFov (config this) = Num a -> maxFov (config this) = Num b -> a <= b ->
  exists l f : R,
    zoomLvl (prop (fst (zoom bound (Num level) this))) = Num l /\ 0 <= l <= 100 /\
    vFov (prop (fst (zoom bound (Num level) this))) = Num f /\ a <= f <= b /\
    hFov (prop (fst (zoom bound (Num level) this)))
    = PSVDataHelper.vFovToHFov (prop this) (Num f) /\
    needsUpdate (prop (fst (zoom bound (Num level) this))) = true.
Proof.
  intros Hbound Hmin Hmax Hab.
  unfold zoom, Method.bind, Method.get, Method.modify. cbn [fst].
  cbn [prop setProp setZoomLvl setVFov setHFov flagUpdate zoomLvl vFov hFov needsUpdate config].
  unfold Math.round, lift1.
  destruct (Hbound (IZR (Zfloor (level + / 2)))) as (l & -> & Hl).
  unfold PSVDataHelper.zoomLevelToFov at 1 2. rewrite Hmin, Hmax. js_norm.
  do 2 eexists. split; [reflexivity|]. split; [exact Hl|].
  split; [reflexivity|]. split; [nra|]. split; [| reflexivity].
  unfold PSVDataHelper.zoomLevelToFov. rewrite Hmin, Hmax. js_norm. reflexivity.
Qed.

End Zoom.

(** *** Instances *)

Lemma pixel_position_refused_on_cubemap_witness :
  rotate Samples.pixelPosition Samples.cubemapViewer
  = (Samples.cubemapViewer, Throw (PSVError "Unable to use texture coords with cubemap.")) /\
  (loadingPromise (prop Samples.cubemapViewer) = None ->
   setPanorama "a.jpg" (APosition Samples.pixelPosition) false Samples.cubemapViewer
   = (Samples.cubemapViewer, Throw (PSVError "Unable to use texture coords with cubemap."))).
Proof.
  apply (pixel_position_refused_on_cubemap Samples.cubemapViewer Samples.pixelPosition
      (Num 10) (Num 20)
           "a.jpg" false).
  - reflexivity.
  - reflexivity.
  - reflexivity.
Defined.

Lemma zoom_in_range_witness :
  exists l f : R,
    zoomLvl (prop (fst (zoom Samples.clamping (Num 40) (initial Samples.plainConfig)))) = Num l /\
    0 <= l <= 100 /\
    vFov (prop (fst (zoom Samples.clamping (Num 40) (initial Samples.plainConfig)))) = Num f /\
    30 <= f <= 90 /\
    hFov (prop (fst (zoom Samples.clamping (Num 40) (initial Samples.plainConfig))))
    = PSVDataHelper.vFovToHFov (prop (initial Samples.plainConfig)) (Num f) /\
    needsUpdate (prop (fst (zoom Samples.clamping (Num 40) (initial Samples.plainConfig)))) = true.
Proof.
  apply (zoom_in_range Samples.clamping (initial Samples.plainConfig) 30 90 40).
  - intros x. exists (Rmax 0 (Rmin 100 x)). split; [reflexivity|].
    split; [apply Rmax_l | apply Rmax_lub; [lra | apply Rmin_l]].
  - reflexivity.
  - reflexivity.
  - lra.
Defined.

End ViewerLaws.

(** ** Scenarios *)

Module Scenarios.

(** On a cubemap both texture conversions throw. *)
Lemma texture_coords_cubemap (prop : ViewerProp) (point : Point) (position : Position) :
  isCubemap prop = true ->
  PSVDataHelper.textureCoordsToSphericalCoords prop point
  = Throw (PSVError "Unable to use texture coords with cubemap.") /\
  PSVDataHelper.sphericalCoordsToTextureCoords prop position
  = Throw (PSVError "Unable to use texture coords with cubemap.").
Proof.
  intros H.
  unfold PSVDataHelper.textureCoordsToSphericalCoords,
    PSVDataHelper.sphericalCoordsToTextureCoords.
  rewrite H. split; reflexivity.
Qed.

(** The column just past the last one of a full panorama comes back as
    column 0: the longitude wraps. *)
Lemma texture_roundtrip_wraps_past_last_column (prop : ViewerProp) (W H : Z) :
  isCubemap prop = false ->
  panoData prop = mkPanoData (IZR W) (IZR H) (IZR W) (IZR H) (IZR 0) (IZR 0) ->
  (0 < W)%Z -> (0 < H)%Z ->
  exists position,
    PSVDataHelper.textureCoordsToSphericalCoords prop {| x := IZR W; y := IZR 0 |}
    = Ok position /\
    PSVDataHelper.sphericalCoordsToTextureCoords prop position
    = Ok {| x := IZR 0; y := IZR 0 |}.
Proof.
  intros Hcube Hpano HW HH.
  assert (HW' : 0 < IZR W) by (apply IZR_lt; lia).
  assert (HH' : 0 < IZR H) by (apply IZR_lt; lia).
  pose proof PI_RGT_0 as Hpi.
  unfold PSVDataHelper.textureCoordsToSphericalCoords,
    PSVDataHelper.sphericalCoordsToTextureCoords.
  rewrite Hcube, Hpano. cbn [panoData fullWidth fullHeight croppedX croppedY x y].
  unfold Math.PI. js_norm.
  eexists. split; [reflexivity|].
  cbn [longitude latitude].
  rewrite Rleb_true by (replace ((IZR W + 0) / IZR W) with 1 by (field; lra); lra).
  js_norm.
  rewrite Rltb_false by (replace ((IZR W + 0) / IZR W) with 1 by (field; lra); lra).
  js_norm.
  rewrite (round_Num_Z _ 0) by (field; lra).
  rewrite (round_Num_Z _ 0) by (field; lra).
  js_simpl. do 2 f_equal; f_equal; lra.
Qed.

(** A triangle with its first vertex in front of the camera and the two others
    behind: each hidden vertex is paired with the visible one. *)
Lemma one_vertex_in_front (v1 v2 v3 : THREE.Vector3) :
  PSVHUD.toBeComputed
    [PSVHUD.mkPos3D v1 true; PSVHUD.mkPos3D v2 false; PSVHUD.mkPos3D v3 false]
  = Ok [PSVHUD.mkPair (PSVHUD.mkPos3D v1 true) (PSVHUD.mkPos3D v2 false) 1;
        PSVHUD.mkPair (PSVHUD.mkPos3D v1 true) (PSVHUD.mkPos3D v3 false) 2].
Proof. reflexivity. Qed.

(** [setPanorama ('a.jpg')], then [setPanorama ('b.jpg')] at once: the second
    call throws; after the first load has settled, it is accepted. *)
Lemma two_loads_in_a_row :
  let viewer0 := PhotoSphereViewer.initial Samples.plainConfig in
  let first := PhotoSphereViewer.setPanorama "a.jpg" PhotoSphereViewer.NoPosition false viewer0 in
  let second :=
    PhotoSphereViewer.setPanorama "b.jpg" PhotoSphereViewer.NoPosition false (fst first) in
  let settled := PhotoSphereViewer.settle PhotoSphereViewer.Loaded (fst second) in
  let third := PhotoSphereViewer.setPanorama "b.jpg" PhotoSphereViewer.NoPosition false settled in
  snd first = Ok (mkLoading "a.jpg" None false) /\
  snd second = Throw PhotoSphereViewer.LoadingInProgress /\
  PhotoSphereViewer.loadsStarted (fst second) = ["a.jpg"%string] /\
  PhotoSphereViewer.texture settled = Some "a.jpg"%string /\
  snd third = Ok (mkLoading "b.jpg" None false) /\
  PhotoSphereViewer.loadsStarted (fst third) = ["a.jpg"%string; "b.jpg"%string].
Proof. cbv zeta. repeat split; vm_compute; reflexivity. Qed.

(** A marker is added, hidden, then updated: with its own configuration
    object it stays hidden, with new properties that say nothing of [visible]
    it is shown again. *)
Lemma hide_then_update :
  let prop := PhotoSphereViewer.initialProp in
  let project := fun v : THREE.Vector3 => v in
  let measure := fun _ : PSVMarker.Marker => mkSize (Num 0) (Num 0) in
  let hud0 := PSVHUD.mkHUD [] false in
  let hud1 := fst (PSVHUD.addMarker (Num 100) prop project measure Samples.htmlMarker false hud0) in
  let hud2 := fst (PSVHUD.hideMarker (Num 100) prop project measure "m1" hud1) in
  let own :=
    PSVHUD.updateMarker (Num 100) prop project measure (PSVHUD.ConfigOf "m1") false hud2 in
  let fresh :=
    PSVHUD.updateMarker (Num 100) prop project measure
      (PSVHUD.Fresh Samples.htmlContent) false hud2 in
  let shown := fun hud =>
    option_map PSVMarker.visible (PSVHUD.lookupMarker "m1" (PSVHUD.markers hud)) in
  shown hud1 = Some true /\
  shown hud2 = Some false /\
  snd own = Ok tt /\ shown (fst own) = Some false /\
  snd fresh = Ok tt /\ shown (fst fresh) = Some true.
Proof. cbv zeta. repeat split; vm_compute; reflexivity. Qed.

End Scenarios.
